(** * Smart-Home-Automation-System: energy management and security state

    A shallow embedding of the rule-coordination code of
    [energy-management/energy_system.py] (class [EnergyManagementSystem])
    and of the arm/disarm state of [security/security_system.py] (class
    [SecuritySystem]), with the properties the specification states about
    them.

    Conventions of the embedding:
    - A Python number, int or float, is the rational [Q] it denotes, and
      comparisons are those of [Q].  The operations [+ - * /] and [sum]
      of the optimization rules round as binary64 does: they are the
      operations of a class [Arith], and what is proved of the rules
      holds for every instance of it, that is, whatever the operations
      return.  The instance [binary64] evaluates the examples; it takes an
      int as the float of its value, which is exact below [2 ^ 53], and
      results that are not finite are outside the model.  The scores of
      the security system and the figures of the energy report are
      computed in [Q].
    - A naive [datetime] is the number of microseconds on its time line; a
      [datetime.time] is the record of its four fields and is compared
      field by field, as Python compares it.  ISO-8601 timestamp strings are
      represented by the instants they denote.
    - A method body runs in the monad [M]: it threads the object's state
      and either returns or raises; effects made before a raise persist.
    - One invocation of a handler observes one clock value [now].
    - The rows, log records and published messages are appended to lists
      of the state.  The INSERT of a message handler of the energy system
      may raise: each delivered message comes with what its INSERT raises,
      if anything.  The other inserts of the energy system, its [logging]
      calls and [mqtt_client.publish] return normally.  In the security
      system an insert or a publish may also raise. *)

From Stdlib Require Import ZArith QArith Qabs Lqa Bool List String Lia SpecFloat.
From stdpp Require Import gmap strings list sorting.

Local Open Scope string_scope.
Local Open Scope list_scope.
Local Open Scope Z_scope.

(** ** Time *)

Module Clock.

(** [datetime.time]: hour, minute, second, microsecond. *)
Record time := mk_time {
  hour : Z;
  minute : Z;
  second : Z;
  microsecond : Z
}.

(** Python orders [time] objects as the tuples of their fields. *)
Definition time_compare (a b : time) : comparison :=
  match hour a ?= hour b with
  | Eq =>
      match minute a ?= minute b with
      | Eq =>
          match second a ?= second b with
          | Eq => microsecond a ?= microsecond b
          | c => c
          end
      | c => c
      end
  | c => c
  end.

(** [a <= b] on [time] objects. *)
Definition time_le (a b : time) : bool :=
  match time_compare a b with
  | Gt => false
  | _ => true
  end.

(** [datetime.strptime(s, '%H:%M').time()] of a well-formed ["HH:MM"]. *)
Definition hhmm (h m : Z) : time := mk_time h m 0 0.

(** A naive [datetime], in microseconds. *)
Definition datetime := Z.

Definition us_per_second : Z := 1000000.
Definition seconds_per_day : Z := 86400.

(** [dt.time()] *)
Definition time_of (dt : datetime) : time :=
  let s := dt / us_per_second in
  let sod := s mod seconds_per_day in
  mk_time (sod / 3600) ((sod / 60) mod 60) (sod mod 60) (dt mod us_per_second).

(** [(a - b).seconds]: the seconds field of the normalised [timedelta],
    always in [0, 86400). *)
Definition timedelta_seconds (a b : datetime) : Z :=
  ((a - b) / us_per_second) mod seconds_per_day.

(** [dt + timedelta(minutes=m)] *)
Definition plus_minutes (dt : datetime) (m : Z) : datetime :=
  dt + m * 60 * us_per_second.

(** The instant at [h:m:s] on day [d]. *)
Definition at_day (d h m s : Z) : datetime :=
  (((d * 24 + h) * 60 + m) * 60 + s) * us_per_second.

End Clock.
Export Clock.

(** ** Configuration ([load_config]) *)

(** One entry of [config["devices"][...]]. *)
Record Device := mk_device {
  dev_id : string;
  power_rating : Q;
  dev_room : option string;          (* device.get('room') *)
  priority : Z;
  always_on : bool;                  (* device.get('always_on', False) *)
  duration : option nat              (* device.get('duration', 2) *)
}.

(** One entry of [config["tariff"]["peak_hours"]] or ["off_peak_hours"],
  with its two ["HH:MM"] strings parsed. *)
Record Period := mk_period {
  p_start : time;
  p_end : time
}.

Record Config := mk_config {
  lights : list Device;
  fans : list Device;
  appliances : list Device;
  peak_hours : list Period;
  off_peak_hours : list Period;
  peak_rate : Q;
  off_peak_rate : Q;
  normal_rate : Q;
  high_usage_alert : Q;
  topic_device_control : string;
  topic_alerts : string
}.

(** The configuration [load_config] falls back to. *)
Definition default_config : Config := {|
  lights := [
    mk_device "hall_light" 60 (Some "hall") 3 false None;
    mk_device "kitchen_light" 60 (Some "kitchen") 2 false None;
    mk_device "living_room_light" 100 (Some "living_room") 2 false None;
    mk_device "bedroom_light" 40 (Some "bedroom") 1 false None ];
  fans := [
    mk_device "hall_fan" 75 (Some "hall") 2 false None;
    mk_device "kitchen_fan" 50 (Some "kitchen") 1 false None;
    mk_device "living_room_fan" 75 (Some "living_room") 1 false None;
    mk_device "bedroom_fan" 75 (Some "bedroom") 1 false None ];
  appliances := [
    mk_device "refrigerator" 150 (Some "kitchen") 1 true None;
    mk_device "washing_machine" 500 (Some "utility") 3 false None;
    mk_device "air_conditioner" 1500 (Some "living_room") 2 false None;
    mk_device "water_heater" 2000 (Some "utility") 2 false None ];
  peak_hours := [ mk_period (hhmm 18 0) (hhmm 22 0) ];
  off_peak_hours := [ mk_period (hhmm 22 0) (hhmm 6 0) ];
  peak_rate := 25 # 2;
  off_peak_rate := 8;
  normal_rate := 10;
  high_usage_alert := 2000;
  topic_device_control := "energy/control";
  topic_alerts := "energy/alerts"
|}.

(** ** Messages, rows and log records *)

(** The values that occur in the published JSON objects. *)
Inductive json :=
| JStr (s : string)
| JNum (q : Q)
| JTime (t : datetime)              (* an [isoformat()] string *)
| JNull.

(** A JSON object: its keys in order, each with its value. *)
Definition Message := list (string * json).

Definition keys (m : Message) : list string := m.*1.

Definition field (k : string) (m : Message) : option json :=
snd <$> List.find (fun kv => String.eqb (fst kv) k) m.

Inductive LogRecord :=
| INFO (msg : string)
| WARNING (msg : string)
| ERROR (msg : string)
| CRITICAL (msg : string).

(** Exceptions derived from [Exception], with their message. *)
Inductive exn := Exception (msg : string).

Definition exn_msg (e : exn) : string := let 'Exception m := e in m.

Inductive outcome (A : Type) :=
| Returned (a : A)
| Raised (e : exn).
Arguments Returned {A} a.
Arguments Raised {A} e.

(** ** The monad of method bodies *)

Module Method.
Section Monad.
Context {S : Type}.

Definition M (A : Type) : Type := S -> outcome A * S.

Definition ret {A} (a : A) : M A := fun s => (Returned a, s).

Definition raise {A} (e : exn) : M A := fun s => (Raised e, s).

Definition bind {A B} (c : M A) (k : A -> M B) : M B :=
  fun s =>
    match c s with
    | (Returned a, s') => k a s'
    | (Raised e, s') => (Raised e, s')
    end.

(** [try: body  except Exception as e: handler(e)] *)
Definition try_except {A} (body : M A) (handler : exn -> M A) : M A :=
  fun s =>
    match body s with
    | (Returned a, s') => (Returned a, s')
    | (Raised e, s') => handler e s'
    end.

Definition get : M S := fun s => (Returned s, s).

Definition modify (f : S -> S) : M unit := fun s => (Returned tt, f s).

(** The state a computation leaves. *)
Definition exec {A} (c : M A) (s : S) : S := snd (c s).

End Monad.
End Method.
Export Method.
Arguments M : clear implicits.

Notation "x <- c1 ;; c2" := (bind c1 (fun x => c2))
  (at level 100, c1 at next level, right associativity).
Notation "c1 ;; c2" := (bind c1 (fun _ => c2))
  (at level 100, right associativity).


(** ** The state of [EnergyManagementSystem] *)

(** A value of [self.current_readings]. *)
Record Reading := mk_reading {
  r_timestamp : datetime;
  r_power : Q;
  r_voltage : Q;
  r_current : Q
}.

(** An element of the deque [self.consumption_history]. *)
Record HistoryEntry := mk_history {
  h_timestamp : datetime;
  h_device_id : option string;
  h_power : Q
}.

(** A value of [self.occupancy_sensors]. *)
Record Occupancy := mk_occupancy {
  occupancy_count : Z;
  motion_detected : bool;
  temperature : Q;
  o_timestamp : datetime
}.

(** The decoded payload of a message on the energy-data topic: a JSON
    object, each key present or not. *)
Record EnergyData := mk_energy_data {
  d_timestamp : option datetime;
  d_device_id : option string;
  d_power_consumption : option Q;
  d_voltage : option Q;
  d_current : option Q
}.

(** The decoded payload of a message on an occupancy topic. *)
Record OccupancyData := mk_occupancy_data {
  od_room : option string;
  od_occupancy_count : option Z;
  od_motion_detected : option bool;
  od_temperature : option Q
}.

(** A row of the table [energy_readings]. *)
Record EnergyRow := mk_energy_row {
  er_timestamp : datetime;
  er_device_id : option string;
  er_power_consumption : Q;
  er_voltage : Q;
  er_current : Q
}.

(** A row of the table [occupancy_data]. *)
Record OccupancyRow := mk_occupancy_row {
  or_room : option string;
  or_occupancy_count : Z;
  or_motion_detected : bool;
  or_temperature : Q
}.

(** A row of the table [optimization_logs]:
    [(optimization_type, devices_affected)]; [estimated_savings] is the
    constant [0.0]. *)
Definition OptimizationRow := (string * string)%type.

(** A fitted model of [self.ml_models], seen through the two calls the
    code makes on the anomaly detector: [decision_function([[p]])[0]] and
    [predict([[p]])[0] == -1]. *)
Definition Detector := Q -> outcome (Q * bool).

(** The fields of the object; [C] is the state owned by the collaborators
    that the class calls but does not define (device status, scheduler). *)
Record EMS {C : Type} := mk_ems {
  config : Config;
  current_readings : gmap (option string) Reading;
  reading_keys : list (option string);       (* the keys of [current_readings],
                                                in the order of their insertion *)
  consumption_history : list HistoryEntry;
  occupancy_sensors : gmap (option string) Occupancy;
  ml_models : gmap string (option Detector);
  auto_optimization_enabled : bool;
  energy_readings : list EnergyRow;
  occupancy_data : list OccupancyRow;
  optimization_logs : list OptimizationRow;
  outbox : list (string * Message);          (* mqtt_client.publish *)
  log : list LogRecord;                      (* self.logger *)
  collab : C
}.
Arguments EMS C : clear implicits.
Arguments mk_ems {C}.

Section Fields.
Context {C : Type}.
Implicit Type st : EMS C.

Definition set_current_readings (f : gmap (option string) Reading -> gmap (option string) Reading) st : EMS C :=
  mk_ems (config st) (f (current_readings st)) (reading_keys st) (consumption_history st)
    (occupancy_sensors st) (ml_models st) (auto_optimization_enabled st)
    (energy_readings st) (occupancy_data st) (optimization_logs st)
    (outbox st) (log st) (collab st).

Definition set_reading_keys (f : list (option string) -> list (option string)) st : EMS C :=
  mk_ems (config st) (current_readings st) (f (reading_keys st)) (consumption_history st)
    (occupancy_sensors st) (ml_models st) (auto_optimization_enabled st)
    (energy_readings st) (occupancy_data st) (optimization_logs st)
    (outbox st) (log st) (collab st).

(** [self.current_readings[device_id] = reading]: a new key goes last, a
    known key keeps its place. *)
Definition store_reading (device_id : option string) (reading : Reading) st : EMS C :=
  set_current_readings <[device_id := reading]>
    (set_reading_keys
       (fun keys => match current_readings st !! device_id with
                    | Some _ => keys
                    | None => keys ++ [device_id]
                    end) st).

Definition set_consumption_history (f : list HistoryEntry -> list HistoryEntry) st : EMS C :=
  mk_ems (config st) (current_readings st) (reading_keys st) (f (consumption_history st))
    (occupancy_sensors st) (ml_models st) (auto_optimization_enabled st)
    (energy_readings st) (occupancy_data st) (optimization_logs st)
    (outbox st) (log st) (collab st).

Definition set_occupancy_sensors (f : gmap (option string) Occupancy -> gmap (option string) Occupancy) st : EMS C :=
  mk_ems (config st) (current_readings st) (reading_keys st) (consumption_history st)
    (f (occupancy_sensors st)) (ml_models st) (auto_optimization_enabled st)
    (energy_readings st) (occupancy_data st) (optimization_logs st)
    (outbox st) (log st) (collab st).

Definition set_energy_readings (f : list EnergyRow -> list EnergyRow) st : EMS C :=
  mk_ems (config st) (current_readings st) (reading_keys st) (consumption_history st)
    (occupancy_sensors st) (ml_models st) (auto_optimization_enabled st)
    (f (energy_readings st)) (occupancy_data st) (optimization_logs st)
    (outbox st) (log st) (collab st).

Definition set_occupancy_data (f : list OccupancyRow -> list OccupancyRow) st : EMS C :=
  mk_ems (config st) (current_readings st) (reading_keys st) (consumption_history st)
    (occupancy_sensors st) (ml_models st) (auto_optimization_enabled st)
    (energy_readings st) (f (occupancy_data st)) (optimization_logs st)
    (outbox st) (log st) (collab st).

Definition set_optimization_logs (f : list OptimizationRow -> list OptimizationRow) st : EMS C :=
  mk_ems (config st) (current_readings st) (reading_keys st) (consumption_history st)
    (occupancy_sensors st) (ml_models st) (auto_optimization_enabled st)
    (energy_readings st) (occupancy_data st) (f (optimization_logs st))
    (outbox st) (log st) (collab st).

Definition set_outbox (f : list (string * Message) -> list (string * Message)) st : EMS C :=
  mk_ems (config st) (current_readings st) (reading_keys st) (consumption_history st)
    (occupancy_sensors st) (ml_models st) (auto_optimization_enabled st)
    (energy_readings st) (occupancy_data st) (optimization_logs st)
    (f (outbox st)) (log st) (collab st).

Definition set_log (f : list LogRecord -> list LogRecord) st : EMS C :=
  mk_ems (config st) (current_readings st) (reading_keys st) (consumption_history st)
    (occupancy_sensors st) (ml_models st) (auto_optimization_enabled st)
    (energy_readings st) (occupancy_data st) (optimization_logs st)
    (outbox st) (f (log st)) (collab st).

Definition set_collab (c : C) st : EMS C :=
  mk_ems (config st) (current_readings st) (reading_keys st) (consumption_history st)
    (occupancy_sensors st) (ml_models st) (auto_optimization_enabled st)
    (energy_readings st) (occupancy_data st) (optimization_logs st)
    (outbox st) (log st) c.

(** [self.logger.info(msg)] and its siblings. *)
Definition logger (r : LogRecord) : M (EMS C) unit :=
  modify (set_log (fun l => l ++ [r])).

(** [self.mqtt_client.publish(topic, json.dumps(payload))] *)
Definition publish (topic : string) (payload : Message) : M (EMS C) unit :=
  modify (set_outbox (fun l => l ++ [(topic, payload)])).

(** [self.cursor.execute("INSERT ..."); self.conn.commit()], where
    [insert_error] is what the two calls raise, if anything. *)
Definition execute_insert (insert_error : option exn) (store : EMS C -> EMS C)
    : M (EMS C) unit :=
  match insert_error with
  | Some e => raise e
  | None => modify store
  end.

(** A call of a collaborator: it sees and changes its own state only.
    Whatever a collaborator publishes or logs itself is not part of
    [outbox] and [log], which hold what the methods below publish and
    log. *)
Definition Helper (A : Type) : Type := C -> outcome A * C.

Definition call {A} (h : Helper A) : M (EMS C) A :=
  fun st => let '(r, c) := h (collab st) in (r, set_collab c st).

(** A call of a method the object does not have: [AttributeError]. *)
Definition undefined_method {A} (name : string) : Helper A :=
  fun c =>
    (Raised (Exception ("'EnergyManagementSystem' object has no attribute '" +:+ name +:+ "'")), c).

(** [for x in l: body(x)] *)
Fixpoint for_each {A} (l : list A) (body : A -> M (EMS C) unit) : M (EMS C) unit :=
  match l with
  | [] => ret tt
  | x :: l' => body x ;; for_each l' body
  end.

End Fields.

(** The methods the class calls on [self] without defining them, and the
    fitted prediction pipeline of [predict_energy_consumption]; they are
    parameters of the model. *)
Record Helpers {C : Type} := mk_helpers {
  get_non_essential_devices : @Helper C (list Device);
  is_device_on : string -> @Helper C bool;
  schedule_device_restoration : string -> Z -> @Helper C unit;
  can_defer_device : string -> @Helper C bool;
  get_off_peak_delay : @Helper C Z;
  run_deferred_appliances : @Helper C unit;
  emergency_device_shutdown : option string -> @Helper C unit;
  schedule_device_operation : string -> datetime -> @Helper C unit;
  (* the pandas/sklearn part of [predict_energy_consumption(hours_ahead)],
     [None] when fewer than 100 rows are on record *)
  predict_pipeline : nat -> @Helper C (option (list (datetime * Q)))
}.
Arguments Helpers C : clear implicits.

(** ** Auxiliary functions of the embedding *)

(** [a > b] on numbers. *)
Definition Qgtb (a b : Q) : bool := negb (Qle_bool a b).

(** [a < b] on numbers. *)
Definition Qltb (a b : Q) : bool := negb (Qle_bool b a).

(** ** Arithmetic *)

(** The operations [+ - * /] of the interpreter on numbers, and the
    builtin [sum] on the list of its summands.  On floats each of the
    four gives the binary64 value nearest to the exact result, so a
    product such as [3 * 0.8] is not the rational [24 # 10]; [sum] adds
    from left to right, and from CPython 3.12 on it compensates the
    rounding of the intermediate sums. *)
Class Arith := mk_arith {
  py_add : Q -> Q -> Q;
  py_sub : Q -> Q -> Q;
  py_mul : Q -> Q -> Q;
  py_div : Q -> Q -> Q;
  builtin_sum : list Q -> Q
}.

(** Binary64, from the specification of IEEE 754 arithmetic of the
    Standard Library: 53 bits of precision, exponents up to 1024, results
    rounded to the nearest value, ties to even. *)
Definition float_of_Z (z : Z) : spec_float := binary_normalize 53 1024 z 0 false.

(** The float of a rational: the quotient, rounded, of the floats of its
    numerator and denominator.  A rational that is a float of moderate
    magnitude, or an integer below [2 ^ 53], is its own float; for a
    decimal with few digits, such as [8 # 10], it is the nearest float. *)
Definition float_of (q : Q) : spec_float :=
  SFdiv 53 1024 (float_of_Z (Qnum q)) (float_of_Z (Zpos (Qden q))).

(** The rational a finite float denotes. *)
Definition value_of (f : spec_float) : Q :=
  match f with
  | S754_finite s m e =>
      let n := if s then Zneg m else Zpos m in
      if 0 <=? e then inject_Z (n * 2 ^ e) else n # Z.to_pos (2 ^ (- e))
  | _ => 0%Q
  end.

(** A float literal of the source, such as [0.8]: the binary64 value
    nearest to the decimal. *)
Definition float (q : Q) : Q := value_of (float_of q).

(** The instance of the examples; its [sum] rounds every intermediate
    sum, as CPython does up to 3.11. *)
#[global] Instance binary64 : Arith := {|
  py_add a b := value_of (SFadd 53 1024 (float_of a) (float_of b));
  py_sub a b := value_of (SFsub 53 1024 (float_of a) (float_of b));
  py_mul a b := value_of (SFmul 53 1024 (float_of a) (float_of b));
  py_div a b := value_of (SFdiv 53 1024 (float_of a) (float_of b));
  builtin_sum l :=
    foldl (fun acc x => value_of (SFadd 53 1024 (float_of acc) (float_of x))) 0%Q l
|}.

(** Arithmetic without rounding. *)
Definition exact : Arith := mk_arith Qplus Qminus Qmult Qdiv (foldl Qplus 0%Q).

(** [s.endswith(suffix)] *)
Definition endswith (s suffix : string) : bool :=
  let n := String.length s in
  let m := String.length suffix in
  if (m <=? n)%nat then String.eqb (substring (n - m) m s) suffix else false.

(** [l.sort(key=lambda x: x['priority'], reverse=True)]: Python's sort is
    stable, also with [reverse=True]; devices of equal priority keep their
    order. *)
Fixpoint insert_by_priority (d : Device) (l : list Device) : list Device :=
  match l with
  | [] => [d]
  | d' :: l' =>
      if priority d' <=? priority d then d :: d' :: l'
      else d' :: insert_by_priority d l'
  end.

Definition sort_by_priority_desc (l : list Device) : list Device :=
  foldr insert_by_priority [] l.

(** [self.current_readings.values()]: the values in the order in which
    their keys were inserted. *)
Definition readings_in_order {C : Type} (st : EMS C) : list Reading :=
  omap (fun k => current_readings st !! k) (reading_keys st).

(** [sum(reading.get('power', 0) for reading in current_readings.values())]:
    the sum of the powers in the order of the dict. *)
Definition total_power {C : Type} {A : Arith} (st : EMS C) : Q :=
  builtin_sum (r_power <$> readings_in_order st).
Arguments total_power : simpl never.

(** [deque(maxlen=1000).append(x)] *)
Definition deque_append {A} (maxlen : nat) (x : A) (l : list A) : list A :=
  let l' := l ++ [x] in
  drop (length l' - maxlen) l'.

(** The object published by [control_device]. *)
Definition command_data (now : datetime) (device_id : string) (state : bool) : Message :=
  [ ("device_id", JStr device_id);
    ("command", JStr (if state then "on" else "off"));
    ("timestamp", JTime now);
    ("source", JStr "energy_management") ].

(** ** The methods of [EnergyManagementSystem] *)

Section Energy.
Context {C : Type} {A : Arith}.
Variable H : Helpers C.
Variable now : datetime.                 (* datetime.now() *)

Local Abbreviation Meth := (M (EMS C)).

(** [is_peak_hour], at the time of day [current_time]. *)
Definition is_peak_hour_at (cfg : Config) (current_time : time) : bool :=
  existsb (fun peak_period =>
             time_le (p_start peak_period) current_time
             && time_le current_time (p_end peak_period))
          (peak_hours cfg).

(** [is_off_peak_hour], at the time of day [current_time]. *)
Definition is_off_peak_hour_at (cfg : Config) (current_time : time) : bool :=
  existsb (fun off_peak_period =>
             time_le (p_start off_peak_period) current_time
             || time_le current_time (p_end off_peak_period))
          (off_peak_hours cfg).

Definition is_peak_hour (cfg : Config) : bool :=
  is_peak_hour_at cfg (time_of now).

Definition is_off_peak_hour (cfg : Config) : bool :=
  is_off_peak_hour_at cfg (time_of now).

(** [get_devices_in_room] *)
Definition get_devices_in_room (cfg : Config) (room : option string) : list Device :=
  List.filter (fun device : Device => bool_decide (dev_room device = room))
    (lights cfg ++ fans cfg ++ appliances cfg).

(** [get_hourly_rate(hour)]: the argument is not used. *)
Definition get_hourly_rate (cfg : Config) : Q :=
  if is_peak_hour cfg then peak_rate cfg
  else if is_off_peak_hour cfg then off_peak_rate cfg
  else normal_rate cfg.

(** [control_device] *)
Definition control_device (device_id : string) (state : bool) : Meth unit :=
  try_except
    (st <- get ;;
     publish (topic_device_control (config st)) (command_data now device_id state) ;;
     logger (INFO ("Device control: " +:+ device_id +:+ " -> "
                   +:+ (if state then "ON" else "OFF"))))
    (fun e => logger (ERROR ("Device control error: " +:+ exn_msg e))).

(** [log_optimization] *)
Definition log_optimization (optimization_type device_id description : string) : Meth unit :=
  try_except
    (modify (set_optimization_logs (fun l => l ++ [(optimization_type, device_id)])) ;;
     logger (INFO ("Optimization logged: " +:+ optimization_type +:+ " - "
                   +:+ device_id +:+ " - " +:+ description)))
    (fun e => logger (ERROR ("Optimization logging error: " +:+ exn_msg e))).

(** [handle_energy_anomaly] *)
Definition handle_energy_anomaly (device_id : option string) (power anomaly_score : Q) : Meth unit :=
  try_except
    (logger (WARNING "Energy anomaly detected") ;;
     st <- get ;;
     publish (topic_alerts (config st))
       [ ("type", JStr "ENERGY_ANOMALY");
         ("device_id", match device_id with Some i => JStr i | None => JNull end);
         ("power_consumption", JNum power);
         ("anomaly_score", JNum anomaly_score);
         ("timestamp", JTime now);
         ("severity", JStr (if Qltb (Qabs anomaly_score) (1 # 2) then "medium" else "high")) ] ;;
     if Qgtb (Qabs anomaly_score) (7 # 10)
     then call (emergency_device_shutdown H device_id)
     else ret tt)
    (fun e => logger (ERROR ("Error handling energy anomaly: " +:+ exn_msg e))).

(** [detect_energy_anomalies]; the history is the rows of the device in
    [energy_readings] (at most 100 are fetched, at least 10 are needed). *)
Definition detect_energy_anomalies (device_id : option string) (current_power : Q) : Meth unit :=
  try_except
    (st <- get ;;
     match ml_models st !! "anomaly_detector" with
     | None => raise (Exception "'anomaly_detector'")          (* KeyError *)
     | Some None => ret tt
     | Some (Some detector) =>
         let historical_data :=
           List.filter (fun row : EnergyRow => bool_decide (is_Some device_id ∧ er_device_id row = device_id))
             (energy_readings st) in
         if (length historical_data <? 10)%nat then ret tt
         else
           match (detector : Detector) current_power with
           | Raised e => raise e
           | Returned (anomaly_score, is_anomaly) =>
               if is_anomaly : bool
               then handle_energy_anomaly device_id current_power anomaly_score
               else ret tt
           end
     end)
    (fun e => logger (ERROR ("Anomaly detection error: " +:+ exn_msg e))).

(** The loop of [optimize_load_balancing] over the sorted candidates. *)
Fixpoint shed_loop (devices : list Device) (load_to_reduce reduced_load : Q) : Meth unit :=
  match devices with
  | [] => ret tt
  | device :: rest =>
      if Qle_bool load_to_reduce reduced_load then ret tt       (* break *)
      else
        on <- call (is_device_on H (dev_id device)) ;;
        if on : bool then
          control_device (dev_id device) false ;;
          log_optimization "load_balancing" (dev_id device) "reduced_load" ;;
          call (schedule_device_restoration H (dev_id device) 30) ;;
          shed_loop rest load_to_reduce (py_add reduced_load (power_rating device))
        else shed_loop rest load_to_reduce reduced_load
  end.

(** The [try] block of [optimize_load_balancing]. *)
Definition optimize_load_balancing_body : Meth unit :=
  st <- get ;;
  let current_total_load := total_power st in
  let max_safe_load := high_usage_alert (config st) in
  if Qgtb current_total_load (py_mul max_safe_load (float (8 # 10))) then
    logger (INFO "High load detected, initiating load balancing") ;;
    non_essential_devices <- call (get_non_essential_devices H) ;;
    let sorted := sort_by_priority_desc non_essential_devices in
    let load_to_reduce :=
      py_sub current_total_load (py_mul max_safe_load (float (7 # 10))) in
    shed_loop sorted load_to_reduce 0%Q
  else ret tt.

(** [optimize_load_balancing] *)
Definition optimize_load_balancing : Meth unit :=
  try_except optimize_load_balancing_body
    (fun e => logger (ERROR ("Load balancing optimization error: " +:+ exn_msg e))).

(** The [try] block of [optimize_cost_efficiency]. *)
Definition optimize_cost_efficiency_body : Meth unit :=
  st <- get ;;
  let is_peak := is_peak_hour (config st) in
  let is_off_peak := is_off_peak_hour (config st) in
  if is_peak then
    logger (INFO "Peak hours detected - optimizing for cost efficiency") ;;
    for_each (appliances (config st)) (fun device =>
      if negb (always_on device) && (3 <=? priority device) then
        on <- call (is_device_on H (dev_id device)) ;;
        if on : bool then
          deferrable <- call (can_defer_device H (dev_id device)) ;;
          if deferrable : bool then
            control_device (dev_id device) false ;;
            delay <- call (get_off_peak_delay H) ;;
            call (schedule_device_restoration H (dev_id device) delay) ;;
            log_optimization "cost_efficiency" (dev_id device) "deferred_to_off_peak"
          else ret tt
        else ret tt
      else ret tt)
  else if is_off_peak then
    logger (INFO "Off-peak hours detected - running deferred appliances") ;;
    call (run_deferred_appliances H)
  else ret tt.

(** [optimize_cost_efficiency] *)
Definition optimize_cost_efficiency : Meth unit :=
  try_except optimize_cost_efficiency_body
    (fun e => logger (ERROR ("Cost efficiency optimization error: " +:+ exn_msg e))).

(** The iterations of [find_optimal_time_slot] for the indices [indices];
    [min_cost = None] stands for [float('inf')]. *)
Fixpoint find_slot (indices : list nat) (predictions : list (datetime * Q))
    (device_power : Q) (duration_hours : nat) (hourly_rate : Q)
    (min_cost : option Q) (optimal_time : option datetime)
    : outcome (option datetime) :=
  match indices with
  | [] => Returned optimal_time
  | i :: indices' =>
      let time_slot := take duration_hours (drop i predictions) in
      let total_cost :=
        foldl (fun acc p =>
                 py_add acc (py_div (py_mul (py_add (snd p) device_power) hourly_rate)
                               1000))
              0%Q time_slot in
      if match min_cost with
         | None => true
         | Some m => Qltb total_cost m
         end
      then
        match time_slot with
        | [] => Raised (Exception "list index out of range")   (* time_slot[0] *)
        | (t, _) :: _ =>
            find_slot indices' predictions device_power duration_hours
              hourly_rate (Some total_cost) (Some t)
        end
      else
        find_slot indices' predictions device_power duration_hours
          hourly_rate min_cost optimal_time
  end.

(** [find_optimal_time_slot] *)
Definition find_optimal_time_slot (predictions : list (datetime * Q))
    (device_power : Q) (duration_hours : nat) : Meth (option datetime) :=
  try_except
    (st <- get ;;
     match find_slot (seq 0 (length predictions - duration_hours)) predictions
             device_power duration_hours (get_hourly_rate (config st)) None None with
     | Returned r => ret r
     | Raised e => raise e
     end)
    (fun e => logger (ERROR ("Error finding optimal time slot: " +:+ exn_msg e)) ;;
              ret None).

(** [predict_energy_consumption] *)
Definition predict_energy_consumption (hours_ahead : nat)
    : Meth (option (list (datetime * Q))) :=
  try_except
    (st <- get ;;
     match ml_models st !! "consumption_predictor" with
     | None => raise (Exception "'consumption_predictor'")     (* KeyError *)
     | Some None => ret None
     | Some (Some _) => call (predict_pipeline H hours_ahead)
     end)
    (fun e => logger (ERROR ("Energy prediction error: " +:+ exn_msg e)) ;;
              ret None).

(** The [try] block of [smart_scheduling]. *)
Definition smart_scheduling_body : Meth unit :=
  predictions <- predict_energy_consumption 24 ;;
  match predictions with
  | None | Some [] => ret tt                                  (* not predictions *)
  | Some predictions =>
      st <- get ;;
      let high_power_devices :=
        List.filter (fun device : Device =>
                       Qgtb (power_rating device) 1000 && negb (always_on device))
          (appliances (config st)) in
      for_each high_power_devices (fun device =>
        optimal_time <- find_optimal_time_slot predictions (power_rating device)
                          (default 2%nat (duration device)) ;;
        match optimal_time with
        | Some t =>
            call (schedule_device_operation H (dev_id device) t) ;;
            log_optimization "smart_scheduling" (dev_id device) "scheduled"
        | None => ret tt
        end)
  end.

(** [smart_scheduling] *)
Definition smart_scheduling : Meth unit :=
  try_except smart_scheduling_body
    (fun e => logger (ERROR ("Smart scheduling error: " +:+ exn_msg e))).

(** [check_optimization_triggers] *)
Definition check_optimization_triggers : Meth unit :=
  st <- get ;;
  let total_power := total_power st in
  (if Qgtb total_power (high_usage_alert (config st))
   then optimize_load_balancing
   else ret tt) ;;
  if is_peak_hour (config st) then optimize_cost_efficiency else ret tt.

(** The [try] block of [run_optimization_cycle]. *)
Definition run_optimization_cycle_body : Meth unit :=
  logger (INFO "Starting optimization cycle") ;;
  st <- get ;;
  (if auto_optimization_enabled st then
     optimize_load_balancing ;;
     optimize_cost_efficiency ;;
     smart_scheduling
   else ret tt) ;;
  logger (INFO "Optimization cycle completed").

(** [run_optimization_cycle] *)
Definition run_optimization_cycle : Meth unit :=
  try_except run_optimization_cycle_body
    (fun e => logger (ERROR ("Optimization cycle error: " +:+ exn_msg e))).

(** The entry [process_energy_reading] stores for a payload. *)
Definition reading_of (data : EnergyData) : Reading :=
  {| r_timestamp := default now (d_timestamp data);
     r_power := default 0%Q (d_power_consumption data);
     r_voltage := default 0%Q (d_voltage data);
     r_current := default 0%Q (d_current data) |}.

(** [process_energy_reading]; [insert_error] is what the INSERT of the
    row raises, if anything. *)
Definition process_energy_reading (data : EnergyData) (insert_error : option exn)
    : Meth unit :=
  try_except
    (let timestamp := default now (d_timestamp data) in
     let device_id := d_device_id data in
     let power := default 0%Q (d_power_consumption data) in
     let voltage := default 0%Q (d_voltage data) in
     let current := default 0%Q (d_current data) in
     execute_insert insert_error (set_energy_readings (fun rows =>
       rows ++ [mk_energy_row timestamp device_id power voltage current])) ;;
     modify (store_reading device_id (mk_reading timestamp power voltage current)) ;;
     modify (set_consumption_history
       (deque_append 1000 (mk_history timestamp device_id power))) ;;
     detect_energy_anomalies device_id power ;;
     st <- get ;;
     if auto_optimization_enabled st then check_optimization_triggers else ret tt)
    (fun e => logger (ERROR ("Error processing energy reading: " +:+ exn_msg e))).

(** The body of the loop of [optimize_based_on_occupancy] for one device;
    [occupancy] is [self.occupancy_sensors.get(room, {})]. *)
Definition occupancy_rule (occupancy : option Occupancy) (is_occupied : bool)
    (cfg : Config) (device : Device) : Meth unit :=
  if endswith (dev_id device) "_light" then
    if negb is_occupied && negb (is_peak_hour cfg) then
      control_device (dev_id device) false ;;
      log_optimization "occupancy_based" (dev_id device) "light_auto_off"
    else ret tt
  else if endswith (dev_id device) "_fan" then
    if is_occupied then
      let room_temp := from_option temperature 25%Q occupancy in
      if Qgtb room_temp 28 then control_device (dev_id device) true
      else if Qltb room_temp 22 then control_device (dev_id device) false
      else ret tt
    else
      let last_activity := from_option o_timestamp now occupancy in
      if 600 <? timedelta_seconds now last_activity then
        control_device (dev_id device) false ;;
        log_optimization "occupancy_based" (dev_id device) "fan_auto_off"
      else ret tt
  else ret tt.

(** [is_room_occupied], and the same expression in
    [optimize_based_on_occupancy]. *)
Definition is_occupied_of (occupancy : option Occupancy) : bool :=
  from_option motion_detected false occupancy
  || (0 <? from_option occupancy_count 0 occupancy).

(** [optimize_based_on_occupancy] *)
Definition optimize_based_on_occupancy (room : option string) : Meth unit :=
  try_except
    (st <- get ;;
     let occupancy := occupancy_sensors st !! room in
     let is_occupied := is_occupied_of occupancy in
     let room_devices := get_devices_in_room (config st) room in
     for_each room_devices (occupancy_rule occupancy is_occupied (config st)))
    (fun e => logger (ERROR ("Occupancy-based optimization error: " +:+ exn_msg e))).

(** [process_occupancy_data]; [insert_error] is what the INSERT of the
    row raises, if anything. *)
Definition process_occupancy_data (data : OccupancyData) (insert_error : option exn)
    : Meth unit :=
  try_except
    (let room := od_room data in
     let occupancy_count := default 0 (od_occupancy_count data) in
     let motion_detected := default false (od_motion_detected data) in
     let temperature := default 0%Q (od_temperature data) in
     modify (set_occupancy_sensors
       <[room := mk_occupancy occupancy_count motion_detected temperature now]>) ;;
     execute_insert insert_error (set_occupancy_data (fun rows =>
       rows ++ [mk_occupancy_row room occupancy_count motion_detected temperature])) ;;
     optimize_based_on_occupancy room)
    (fun e => logger (ERROR ("Error processing occupancy data: " +:+ exn_msg e))).

End Energy.

(** ** Runs of the energy system *)

(** A message as its handler receives it: the clock at its arrival, the
    decoded payload, and what the INSERT of its row raises, if anything. *)
Record Delivery {D : Type} := mk_delivery {
  arrival : datetime;
  payload : D;
  insert_raises : option exn
}.
Arguments Delivery D : clear implicits.
Arguments mk_delivery {D}.

(** The row of the message is stored. *)
Definition stored {D : Type} (m : Delivery D) : bool :=
  match insert_raises m with
  | None => true
  | Some _ => false
  end.

Section Runs.
Context {C : Type} {A : Arith}.
Variable H : Helpers C.

(** The energy-data messages [on_mqtt_message] hands over, in arrival
    order. *)
Definition deliver_readings (msgs : list (Delivery EnergyData)) (st : EMS C) : EMS C :=
  foldl (fun st m =>
           exec (process_energy_reading H (arrival m) (payload m) (insert_raises m)) st)
    st msgs.

(** The same for the occupancy messages. *)
Definition deliver_occupancy (msgs : list (Delivery OccupancyData)) (st : EMS C) : EMS C :=
  foldl (fun st m =>
           exec (process_occupancy_data (arrival m) (payload m) (insert_raises m)) st)
    st msgs.

(** An action handed to [control_device]: the clock at the call, the
    target and the state. *)
Record Dispatch := mk_dispatch {
  at_time : datetime;
  target : string;
  to_state : bool
}.

(** The calls of [control_device] for [actions], one after the other. *)
Definition dispatch_all (actions : list Dispatch) (st : EMS C) : EMS C :=
  foldl (fun st a => exec (control_device (at_time a) (target a) (to_state a)) st)
    st actions.

End Runs.

(** The timestamp under which a delivered reading is stored. *)
Definition timestamp_of (m : Delivery EnergyData) : datetime :=
  r_timestamp (reading_of (arrival m) (payload m)).

(** Stable sort of the delivered readings by timestamp, oldest first. *)
Fixpoint insert_by_timestamp (m : Delivery EnergyData)
    (l : list (Delivery EnergyData)) : list (Delivery EnergyData) :=
  match l with
  | [] => [m]
  | m' :: l' =>
      if timestamp_of m <=? timestamp_of m' then m :: m' :: l'
      else m' :: insert_by_timestamp m l'
  end.

Definition sort_by_timestamp (l : list (Delivery EnergyData))
    : list (Delivery EnergyData) :=
  foldr insert_by_timestamp [] l.

(** The delivered readings arrive oldest first. *)
Fixpoint in_timestamp_order (l : list (Delivery EnergyData)) : bool :=
  match l with
  | [] => true
  | m :: l' =>
      match l' with
      | [] => true
      | m' :: _ => (timestamp_of m <=? timestamp_of m') && in_timestamp_order l'
      end
  end.

(** The published message commands [device_id] to [command]. *)
Definition is_command (device_id command : string) (p : string * Message) : bool :=
  match field "device_id" (snd p), field "command" (snd p) with
  | Some (JStr i), Some (JStr c) => String.eqb i device_id && String.eqb c command
  | _, _ => false
  end.

(** How many times [device_id] was commanded to [command] on [topic]. *)
Definition count_commands (topic device_id command : string)
    (published : list (string * Message)) : nat :=
  length (List.filter (fun p => String.eqb (fst p) topic && is_command device_id command p)
            published).

(** The messages published on [topic]. *)
Definition published_on (topic : string) (published : list (string * Message))
    : list Message :=
  snd <$> List.filter (fun p => String.eqb (fst p) topic) published.

(** An occupancy message reports the room empty: no motion, nobody
    counted. *)
Definition reports_empty (data : OccupancyData) : bool :=
  negb (default false (od_motion_detected data))
  && negb (0 <? default 0 (od_occupancy_count data)).

(** A freshly constructed object over the configuration [cfg]:
    [__init__] leaves [ml_models] empty and the dictionaries and the deque
    empty; the tables are those of a new database. *)
Definition initial {C : Type} (cfg : Config) (c : C) : EMS C :=
  mk_ems cfg ∅ [] [] ∅ ∅ true [] [] [] [] [] c.

(** ** Collaborators *)

(** The repository as it stands: none of the methods is defined, and no
    prediction pipeline has data. *)
Definition missing_helpers : Helpers unit := {|
  get_non_essential_devices := undefined_method "get_non_essential_devices";
  is_device_on := fun _ => undefined_method "is_device_on";
  schedule_device_restoration := fun _ _ => undefined_method "schedule_device_restoration";
  can_defer_device := fun _ => undefined_method "can_defer_device";
  get_off_peak_delay := undefined_method "get_off_peak_delay";
  run_deferred_appliances := undefined_method "run_deferred_appliances";
  emergency_device_shutdown := fun _ => undefined_method "emergency_device_shutdown";
  schedule_device_operation := fun _ _ => undefined_method "schedule_device_operation";
  predict_pipeline := fun _ c => (Returned None, c)
|}.

(** A deferred action of the scheduler: restore [task_target] at
    [fire_at]. *)
Record ScheduledTask := mk_task {
  task_target : string;
  fire_at : datetime
}.

(** The state of the entity catalog and of the scheduler. *)
Record Catalog := mk_catalog {
  non_essential : list Device;
  switched_on : list string;
  scheduled : list ScheduledTask
}.

(** Modelled from the spec: the methods [get_non_essential_devices],
    [is_device_on] and [schedule_device_restoration], which
    [optimize_load_balancing] and [optimize_cost_efficiency] call and the
    repository does not define.  Following the load-shedding rule of the
    specification, the first returns the non-essential entities of the
    catalog, the second tells whether an entity is currently on, and the
    third schedules a restore action at [now] plus the given minutes.
    Every appliance can be deferred, the off-peak delay is the parameter
    [off_peak_delay], and the remaining methods stay undefined. *)
Definition catalog_helpers (now : datetime) (off_peak_delay : Z) : Helpers Catalog := {|
  get_non_essential_devices := fun c => (Returned (non_essential c), c);
  is_device_on := fun device_id c =>
    (Returned (bool_decide (device_id ∈ switched_on c)), c);
  schedule_device_restoration := fun device_id minutes c =>
    (Returned tt,
     mk_catalog (non_essential c) (switched_on c)
       (scheduled c ++ [mk_task device_id (plus_minutes now minutes)]));
  can_defer_device := fun _ c => (Returned true, c);
  get_off_peak_delay := fun c => (Returned off_peak_delay, c);
  run_deferred_appliances := undefined_method "run_deferred_appliances";
  emergency_device_shutdown := fun _ => undefined_method "emergency_device_shutdown";
  schedule_device_operation := fun _ _ => undefined_method "schedule_device_operation";
  predict_pipeline := fun _ c => (Returned None, c)
|}.

(** ** The arm/disarm state of [SecuritySystem] *)

Module Security.

(** A row of the table [security_events]:
    [(event_type, description, location, severity)]. *)
Record EventRow := mk_event {
  event_type : string;
  description : string;
  location : string;
  severity : Z
}.

Record SecuritySystem := mk_security {
  topic_alerts : string;                     (* config["mqtt"]["topics"]["alerts"] *)
  topic_commands : string;
  system_armed : bool;
  intrusion_detected : bool;
  security_events : list EventRow;
  intrusion_attempts : list (string * string * Q);
  outbox : list (string * Message);
  log : list LogRecord
}.

Definition set_system_armed (b : bool) (s : SecuritySystem) : SecuritySystem :=
  mk_security (topic_alerts s) (topic_commands s) b (intrusion_detected s)
    (security_events s) (intrusion_attempts s) (outbox s) (log s).

Definition set_intrusion_detected (b : bool) (s : SecuritySystem) : SecuritySystem :=
  mk_security (topic_alerts s) (topic_commands s) (system_armed s) b
    (security_events s) (intrusion_attempts s) (outbox s) (log s).

Definition add_security_event (r : EventRow) (s : SecuritySystem) : SecuritySystem :=
  mk_security (topic_alerts s) (topic_commands s) (system_armed s) (intrusion_detected s)
    (security_events s ++ [r]) (intrusion_attempts s) (outbox s) (log s).

Definition add_intrusion_attempt (r : string * string * Q) (s : SecuritySystem) : SecuritySystem :=
  mk_security (topic_alerts s) (topic_commands s) (system_armed s) (intrusion_detected s)
    (security_events s) (intrusion_attempts s ++ [r]) (outbox s) (log s).

Definition publish (topic : string) (m : Message) : M SecuritySystem unit :=
  modify (fun s =>
    mk_security (topic_alerts s) (topic_commands s) (system_armed s) (intrusion_detected s)
      (security_events s) (intrusion_attempts s) (outbox s ++ [(topic, m)]) (log s)).

Definition logger (r : LogRecord) : M SecuritySystem unit :=
  modify (fun s =>
    mk_security (topic_alerts s) (topic_commands s) (system_armed s) (intrusion_detected s)
      (security_events s) (intrusion_attempts s) (outbox s) (log s ++ [r])).

Section Methods.
Variable now : datetime.
(* What the database and the broker do in this invocation: the exception
   an INSERT raises, and the one [publish] raises, if any. *)
Variable db_error : option exn.
Variable publish_error : option exn.

(** [self.cursor.execute("INSERT ..."); self.conn.commit()] *)
Definition insert_row (store : SecuritySystem -> SecuritySystem) : M SecuritySystem unit :=
  match db_error with
  | Some e => raise e
  | None => modify store
  end.

(** [self.mqtt_client.publish(topic, json.dumps(m))] *)
Definition mqtt_publish (topic : string) (m : Message) : M SecuritySystem unit :=
  match publish_error with
  | Some e => raise e
  | None => publish topic m
  end.

(** [log_security_event], without an image. *)
Definition log_security_event (event_type description location : string) (severity : Z)
    : M SecuritySystem unit :=
  try_except
    (insert_row (add_security_event (mk_event event_type description location severity)) ;;
     s <- get ;;
     mqtt_publish (topic_alerts s)
       [ ("type", JStr event_type);
         ("description", JStr description);
         ("location", JStr location);
         ("severity", JNum (inject_Z severity));
         ("timestamp", JTime now);
         ("image_path", JNull) ])
    (fun e => logger (ERROR ("Error logging security event: " +:+ exn_msg e))).

(** [trigger_alarm]; [send_emergency_notifications] does nothing. *)
Definition trigger_alarm : M SecuritySystem unit :=
  try_except
    (s <- get ;;
     mqtt_publish (topic_commands s)
       [ ("type", JStr "TRIGGER_ALARM");
         ("timestamp", JTime now);
         ("reason", JStr "intrusion_detected") ])
    (fun e => logger (ERROR ("Error triggering alarm: " +:+ exn_msg e))).

(** [handle_intrusion], called without a frame. *)
Definition handle_intrusion (location detection_method : string) (confidence : Q)
    : M SecuritySystem unit :=
  try_except
    (modify (set_intrusion_detected true) ;;
     insert_row (add_intrusion_attempt (location, detection_method, confidence)) ;;
     log_security_event "INTRUSION_DETECTED"
       ("Unauthorized access detected in " +:+ location) location 3 ;;
     trigger_alarm ;;
     logger (CRITICAL ("INTRUSION DETECTED: " +:+ location +:+ " via " +:+ detection_method)))
    (fun e => logger (ERROR ("Error handling intrusion: " +:+ exn_msg e))).

(** [arm_system] *)
Definition arm_system : M SecuritySystem unit :=
  modify (set_system_armed true) ;;
  log_security_event "SYSTEM_ARMED" "Security system armed" "system" 1 ;;
  logger (INFO "Security system ARMED").

(** [disarm_system] *)
Definition disarm_system : M SecuritySystem unit :=
  modify (set_system_armed false) ;;
  modify (set_intrusion_detected false) ;;
  log_security_event "SYSTEM_DISARMED" "Security system disarmed" "system" 1 ;;
  logger (INFO "Security system DISARMED").

End Methods.
End Security.

(** ** Scenarios *)

(** The default configuration with an off-peak window that does not cross
    midnight, 01:00 to 05:00. *)
Definition night_tariff_config : Config :=
  mk_config (lights default_config) (fans default_config) (appliances default_config)
    (peak_hours default_config) [ mk_period (hhmm 1 0) (hhmm 5 0) ]
    (peak_rate default_config) (off_peak_rate default_config) (normal_rate default_config)
    (high_usage_alert default_config)
    (topic_device_control default_config) (topic_alerts default_config).

(** The entities of the load-shedding scenario. *)
Definition entity_A : Device := mk_device "A" 500 None 1 false None.
Definition entity_B : Device := mk_device "B" 200 None 3 false None.
Definition entity_C : Device := mk_device "C" 100 None 2 false None.

(** The default configuration with the aggregate power ceiling [ceiling]. *)
Definition config_with_ceiling (ceiling : Q) : Config :=
  mk_config (lights default_config) (fans default_config) (appliances default_config)
    (peak_hours default_config) (off_peak_hours default_config)
    (peak_rate default_config) (off_peak_rate default_config) (normal_rate default_config)
    ceiling
    (topic_device_control default_config) (topic_alerts default_config).

(** A reading of [power] watts, taken at [t]. *)
Definition watts (t : datetime) (power : Q) : Reading := mk_reading t power 0 0.

(** The load-shedding scenario: A, B and C are on and drawing their rated
    power, and a further 200 W are drawn elsewhere, 1000 W in all; the
    ceiling is 1000 W; [candidates] is what the catalog returns as
    non-essential. *)
Definition shedding_scenario (candidates : list Device) : EMS Catalog :=
  mk_ems (config_with_ceiling 1000)
    (<[Some "A" := watts 0 500]> (<[Some "B" := watts 0 200]>
       (<[Some "C" := watts 0 100]> (<[Some "base" := watts 0 200]> ∅))))
    [Some "A"; Some "B"; Some "C"; Some "base"]
    [] ∅ ∅ true [] [] [] [] []
    (mk_catalog candidates ["A"; "B"; "C"] []).

(** The same scenario for the class as it stands, without collaborators:
    the readings and the ceiling are all the rule can see. *)
Definition scenario_as_it_stands : EMS unit :=
  mk_ems (config_with_ceiling 1000)
    (<[Some "A" := watts 0 500]> (<[Some "B" := watts 0 200]>
       (<[Some "C" := watts 0 100]> (<[Some "base" := watts 0 200]> ∅))))
    [Some "A"; Some "B"; Some "C"; Some "base"]
    [] ∅ ∅ true [] [] [] [] [] tt.

(** The exception a call of the undefined method [name] raises. *)
Definition attribute_error (name : string) : exn :=
  Exception ("'EnergyManagementSystem' object has no attribute '" +:+ name +:+ "'").

(** A state whose readings add up to [power] watts, over the ceiling
    [ceiling], with A, B and C on and all three candidates. *)
Definition loaded_state (ceiling power : Q) : EMS Catalog :=
  mk_ems (config_with_ceiling ceiling) (<[Some "meter" := watts 0 power]> ∅)
    [Some "meter"] [] ∅ ∅ true [] [] [] [] []
    (mk_catalog [entity_A; entity_B; entity_C] ["A"; "B"; "C"] []).

(** A power reading of [device_id] stamped [t]. *)
Definition power_reading (device_id : string) (t : datetime) (power : Q) : EnergyData :=
  mk_energy_data (Some t) (Some device_id) (Some power) None None.

(** An occupancy message reporting [room] empty at 24 degrees. *)
Definition room_empty (room : string) : OccupancyData :=
  mk_occupancy_data (Some room) (Some 0) (Some false) (Some 24%Q).

(** What every message on the device-control topic looks like: the four
    fields of [control_device], the command being ["on"] or ["off"]. *)
Definition control_message_ok (m : Message) : Prop :=
  keys m = ["device_id"; "command"; "timestamp"; "source"] /\
  (field "command" m = Some (JStr "on") \/ field "command" m = Some (JStr "off")).

(** The invariant of the device-control topic under the configuration
    [cfg]. *)
Definition control_inv {C : Type} (cfg : Config) (st : EMS C) : Prop :=
  config st = cfg /\
  Forall control_message_ok (published_on (topic_device_control cfg) (outbox st)).

(** The log has grown from [before]: records are only ever appended. *)
Definition log_extends {C : Type} (before : list LogRecord) (st : EMS C) : Prop :=
  exists rest, log st = before ++ rest.

(** The collaborators of [catalog_helpers], except that
    [get_non_essential_devices] is undefined, as in the repository: the
    load-shedding rule raises [AttributeError] when it asks for the
    candidates. *)
Definition helpers_without_candidates (now : datetime) (off_peak_delay : Z)
    : Helpers Catalog :=
  let h := catalog_helpers now off_peak_delay in
  {| get_non_essential_devices := undefined_method "get_non_essential_devices";
     is_device_on := is_device_on h;
     schedule_device_restoration := schedule_device_restoration h;
     can_defer_device := can_defer_device h;
     get_off_peak_delay := get_off_peak_delay h;
     run_deferred_appliances := run_deferred_appliances h;
     emergency_device_shutdown := emergency_device_shutdown h;
     schedule_device_operation := schedule_device_operation h;
     predict_pipeline := predict_pipeline h |}.

(** An evening state: the default configuration, 1900 W on the meter, the
    washing machine running. *)
Definition evening_state : EMS Catalog :=
  mk_ems default_config (<[Some "meter" := watts 0 1900]> ∅)
    [Some "meter"] [] ∅ ∅ true [] [] [] [] []
    (mk_catalog [] ["washing_machine"] []).

(** What [except Exception as e: self.logger.error(prefix + str(e))] leaves
    of the state [st] in which the exception surfaced. *)
Definition logged_error {C : Type} (prefix : string) (e : exn) (st : EMS C) : EMS C :=
  set_log (fun l => l ++ [ERROR (prefix +:+ exn_msg e)]) st.

(** The state after [self.logger.info(msg)]. *)
Definition logged_info {C : Type} (msg : string) (st : EMS C) : EMS C :=
  set_log (fun l => l ++ [INFO msg]) st.

(** The snapshot is [m]. *)
Definition snapshot_is {C : Type} (m : gmap (option string) Reading) (st : EMS C) : Prop :=
  current_readings st = m.

(** The snapshot after the delivered readings are stored one by one over
    the snapshot [m], each that is stored overwriting the entry of its
    device. *)
Definition overwrite_all (msgs : list (Delivery EnergyData))
    (m : gmap (option string) Reading) : gmap (option string) Reading :=
  foldl (fun m msg =>
           if stored msg
           then <[d_device_id (payload msg) := reading_of (arrival msg) (payload msg)]> m
           else m)
    m msgs.

(** No stored reading arrives after a newer stored reading of the same
    device. *)
Fixpoint per_device_in_order (msgs : list (Delivery EnergyData)) : Prop :=
  match msgs with
  | [] => True
  | msg :: later =>
      Forall (fun msg' => stored msg = true -> stored msg' = true ->
                          d_device_id (payload msg') = d_device_id (payload msg) ->
                          timestamp_of msg <= timestamp_of msg') later
      /\ per_device_in_order later
  end.

(** The key list of the snapshot is that of a dict: it holds each key of
    [current_readings] once, and nothing else. *)
Definition dict_ok {C : Type} (st : EMS C) : Prop :=
  NoDup (reading_keys st) /\
  forall k, k ∈ reading_keys st <-> is_Some (current_readings st !! k).

(** The state in which [process_energy_reading] starts its checks: the
    row is inserted, the snapshot and the history are updated. *)
Definition reading_stored {C : Type} (now : datetime) (data : EnergyData) (st : EMS C)
    : EMS C :=
  set_consumption_history
    (deque_append 1000 (mk_history (default now (d_timestamp data)) (d_device_id data)
                          (default 0%Q (d_power_consumption data))))
    (store_reading (d_device_id data) (reading_of now data)
       (set_energy_readings
          (fun rows => rows ++ [mk_energy_row (default now (d_timestamp data))
                                  (d_device_id data)
                                  (default 0%Q (d_power_consumption data))
                                  (default 0%Q (d_voltage data))
                                  (default 0%Q (d_current data))]) st)).

(** The published messages have grown from [before]. *)
Definition outbox_extends {C : Type} (before : list (string * Message)) (st : EMS C) : Prop :=
  exists rest, outbox st = before ++ rest.

(** ** Further definitions for the properties of the code *)

(** A property of the state that depends on nothing the rules write: it
    survives every change of the published messages, the log, the table
    [optimization_logs] and the collaborators' state. *)
Definition rule_stable {C : Type} (P : EMS C -> Prop) : Prop :=
  forall st, P st ->
    (forall f, P (set_outbox f st)) /\
    (forall f, P (set_log f st)) /\
    (forall f, P (set_optimization_logs f st)) /\
    (forall c, P (set_collab c st)).

(** The entry [process_energy_reading] appends to the history for a
    delivered reading, and the row it inserts. *)
Definition history_entry_of (m : Delivery EnergyData) : HistoryEntry :=
  mk_history (default (arrival m) (d_timestamp (payload m))) (d_device_id (payload m))
    (default 0%Q (d_power_consumption (payload m))).

Definition energy_row_of (m : Delivery EnergyData) : EnergyRow :=
  mk_energy_row (default (arrival m) (d_timestamp (payload m))) (d_device_id (payload m))
    (default 0%Q (d_power_consumption (payload m)))
    (default 0%Q (d_voltage (payload m))) (default 0%Q (d_current (payload m))).

(** The sum of the powers of a list of entries. *)
Definition sum_power (l : list (option string * Reading)) : Q :=
  foldr (fun kv acc => r_power (snd kv) + acc)%Q 0%Q l.

(** [is_room_occupied] *)
Definition is_room_occupied {C : Type} (st : EMS C) (room : option string) : bool :=
  is_occupied_of (occupancy_sensors st !! room).

(** A property of the state under the configuration [cfg] that survives
    every change of the log, of the table [optimization_logs] and of the
    collaborators' state, and the publication of any message that [okp]
    admits. *)
Definition publish_stable {C : Type} (cfg : Config) (okp : string -> Message -> Prop)
    (P : EMS C -> Prop) : Prop :=
  forall st, P st ->
    config st = cfg /\
    (forall f, P (set_log f st)) /\
    (forall f, P (set_optimization_logs f st)) /\
    (forall c, P (set_collab c st)) /\
    (forall t m, okp t m -> P (set_outbox (fun l => l ++ [(t, m)]) st)).

(** Since the messages [before], only messages that [okp] admits have
    been published, and the configuration is [cfg]. *)
Definition publishes_only {C : Type} (cfg : Config) (before : list (string * Message))
    (okp : string -> Message -> Prop) (st : EMS C) : Prop :=
  config st = cfg /\
  exists rest, outbox st = before ++ rest /\ Forall (fun p => okp (fst p) (snd p)) rest.

(** The alert [handle_energy_anomaly] publishes. *)
Definition anomaly_alert (now : datetime) (device_id : option string)
    (power anomaly_score : Q) : Message :=
  [ ("type", JStr "ENERGY_ANOMALY");
    ("device_id", match device_id with Some i => JStr i | None => JNull end);
    ("power_consumption", JNum power);
    ("anomaly_score", JNum anomaly_score);
    ("timestamp", JTime now);
    ("severity", JStr (if Qltb (Qabs anomaly_score) (1 # 2) then "medium" else "high")) ].

(** [t] is the device-control topic of [cfg] and [m] commands some device
    off. *)
Definition off_command (cfg : Config) (t : string) (m : Message) : Prop :=
  t = topic_device_control cfg /\
  exists now device_id, m = command_data now device_id false.

(** [t] is the alerts topic of [cfg] and [m] is an anomaly alert. *)
Definition alert_message (cfg : Config) (t : string) (m : Message) : Prop :=
  t = topic_alerts cfg /\
  exists now device_id power score, m = anomaly_alert now device_id power score.

(** [t] is the device-control topic of [cfg] and [m] commands off, at
    [now], an appliance of [cfg] that is not always on and has priority 3
    or more. *)
Definition deferral_command (cfg : Config) (now : datetime) (t : string) (m : Message)
    : Prop :=
  t = topic_device_control cfg /\
  exists device, In device (appliances cfg) /\ always_on device = false /\
                 3 <= priority device /\
                 m = command_data now (dev_id device) false.

(** The commands that switch the devices [l] off, on the device-control
    topic of [cfg]. *)
Definition shed_commands (cfg : Config) (now : datetime) (l : list Device)
    : list (string * Message) :=
  map (fun d => (topic_device_control cfg, command_data now (dev_id d) false)) l.

(** [reduced_load] after the devices [l] were shed one after the other:
    their rated powers added to it one by one. *)
Definition reduced_after {A : Arith} (reduced_load : Q) (l : list Device) : Q :=
  foldl (fun acc d => py_add acc (power_rating d)) reduced_load l.

(** The same from 0, where the loop starts. *)
Definition sum_ratings {A : Arith} (l : list Device) : Q := reduced_after 0%Q l.

(** What [optimize_based_on_occupancy] may publish for [room], whose entry
    in [occupancy_sensors] is [occupancy]: on the device-control topic, for
    a device of the room, one of
    - a light switched off, the room being empty outside the peak hours;
    - a fan switched on, the room being occupied and above 28 degrees;
    - a fan switched off, the room being occupied and below 22 degrees;
    - a fan switched off, the room being empty and the seconds field of
      the time since the entry was stored exceeding 600. *)
Definition occupancy_command (cfg : Config) (now : datetime) (room : option string)
    (occupancy : option Occupancy) (t : string) (m : Message) : Prop :=
  t = topic_device_control cfg /\
  exists device,
    In device (get_devices_in_room cfg room) /\
    ((m = command_data now (dev_id device) false /\
      endswith (dev_id device) "_light" = true /\
      is_occupied_of occupancy = false /\ is_peak_hour now cfg = false) \/
     (m = command_data now (dev_id device) true /\
      endswith (dev_id device) "_light" = false /\
      endswith (dev_id device) "_fan" = true /\
      is_occupied_of occupancy = true /\
      (28 < from_option temperature 25 occupancy)%Q) \/
     (m = command_data now (dev_id device) false /\
      endswith (dev_id device) "_light" = false /\
      endswith (dev_id device) "_fan" = true /\
      is_occupied_of occupancy = true /\
      (from_option temperature 25 occupancy < 22)%Q) \/
     (m = command_data now (dev_id device) false /\
      endswith (dev_id device) "_light" = false /\
      endswith (dev_id device) "_fan" = true /\
      is_occupied_of occupancy = false /\
      600 < timedelta_seconds now (from_option o_timestamp now occupancy))).

(** [t] is the device-control topic of [cfg] and [m] switches off, at
    [now], a light of [room]. *)
Definition light_off_command (cfg : Config) (now : datetime) (room : option string)
    (t : string) (m : Message) : Prop :=
  t = topic_device_control cfg /\
  exists device,
    In device (get_devices_in_room cfg room) /\
    endswith (dev_id device) "_light" = true /\
    m = command_data now (dev_id device) false.

(** The entry [process_occupancy_data] stores for a payload. *)
Definition occupancy_of (now : datetime) (data : OccupancyData) : Occupancy :=
  mk_occupancy (default 0 (od_occupancy_count data))
    (default false (od_motion_detected data))
    (default 0%Q (od_temperature data)) now.

(** The cost [find_optimal_time_slot] computes for the slot that starts at
    index [i]. *)
Definition slot_cost {A : Arith} (predictions : list (datetime * Q)) (device_power : Q)
    (duration_hours : nat) (hourly_rate : Q) (i : nat) : Q :=
  foldl (fun acc p =>
           py_add acc (py_div (py_mul (py_add (snd p) device_power) hourly_rate) 1000))
    0%Q (take duration_hours (drop i predictions)).

(** [optimal_time] is the start of the earliest cheapest slot among those
    that start before index [bound]; there is none when [bound] is 0. *)
Definition earliest_cheapest {A : Arith} (predictions : list (datetime * Q)) (device_power : Q)
    (duration_hours : nat) (hourly_rate : Q) (bound : nat)
    (optimal_time : option datetime) : Prop :=
  match optimal_time with
  | None => bound = 0%nat
  | Some t =>
      exists i, (i < bound)%nat /\
        fst <$> predictions !! i = Some t /\
        (forall j, (j < bound)%nat ->
           (slot_cost predictions device_power duration_hours hourly_rate i
            <= slot_cost predictions device_power duration_hours hourly_rate j)%Q) /\
        (forall j, (j < i)%nat ->
           (slot_cost predictions device_power duration_hours hourly_rate i
            < slot_cost predictions device_power duration_hours hourly_rate j)%Q)
  end.

(** The state of the loop of [find_optimal_time_slot] before the slot at
    index [bound]: nothing chosen yet, or the minimum is the cost of the
    chosen slot, the earliest cheapest one so far. *)
Definition loop_state {A : Arith} (predictions : list (datetime * Q)) (device_power : Q)
    (duration_hours : nat) (hourly_rate : Q) (bound : nat)
    (min_cost : option Q) (optimal_time : option datetime) : Prop :=
  match min_cost, optimal_time with
  | None, None => bound = 0%nat
  | Some c, Some t =>
      exists i, (i < bound)%nat /\
        c = slot_cost predictions device_power duration_hours hourly_rate i /\
        fst <$> predictions !! i = Some t /\
        (forall j, (j < bound)%nat ->
           (slot_cost predictions device_power duration_hours hourly_rate i
            <= slot_cost predictions device_power duration_hours hourly_rate j)%Q) /\
        (forall j, (j < i)%nat ->
           (slot_cost predictions device_power duration_hours hourly_rate i
            < slot_cost predictions device_power duration_hours hourly_rate j)%Q)
  | _, _ => False
  end.

(** ** Commands and camera frames of [SecuritySystem] *)

Module Monitoring.
Import Security.

(** A row of the table [access_logs]. *)
Record AccessRow := mk_access {
  a_user_id : option Z;
  a_method : string;
  a_location : string;
  a_success : bool;
  a_confidence : Q
}.

(** An element of the list [detect_faces_in_frame] returns; [recognized]
    is [user_id is not None]. *)
Record Face := mk_face {
  user_id : option Z;
  face_confidence : Q
}.

Definition recognized (f : Face) : bool :=
  match user_id f with Some _ => true | None => false end.

(** A row of the network's output, reduced to what the code reads of it:
    [class_id = np.argmax(detection[5:])] and the score of that class. *)
Record Detection := mk_detection {
  class_id : nat;
  class_score : Q
}.

(** The security system with the tables that only the camera loop writes:
    [access_logs], and the users whose [last_access] was updated. *)
Record Monitor := mk_monitor {
  sys : SecuritySystem;
  access_logs : list AccessRow;
  last_access_updates : list Z
}.

(** A method of the security system, run on the monitor's state. *)
Definition on_sys {A : Type} (c : M SecuritySystem A) : M Monitor A :=
  fun m => let '(r, s) := c (sys m) in (r, mk_monitor s (access_logs m) (last_access_updates m)).

Section Methods.
Variable now : datetime.
Variable db_error : option exn.
Variable publish_error : option exn.

(** [handle_mqtt_command], on [command.get('type')]; the four methods for
    users, lockdown and status are not defined by the class, so calling
    them raises [AttributeError]. *)
Definition handle_mqtt_command (cmd_type : option string) : M SecuritySystem unit :=
  if bool_decide (cmd_type = Some "ARM_SYSTEM") then
    arm_system now db_error publish_error
  else if bool_decide (cmd_type = Some "DISARM_SYSTEM") then
    disarm_system now db_error publish_error
  else if bool_decide (cmd_type = Some "ADD_USER") then
    raise (Exception "'SecuritySystem' object has no attribute 'add_user_from_command'")
  else if bool_decide (cmd_type = Some "DELETE_USER") then
    raise (Exception "'SecuritySystem' object has no attribute 'delete_user'")
  else if bool_decide (cmd_type = Some "EMERGENCY_LOCKDOWN") then
    raise (Exception "'SecuritySystem' object has no attribute 'emergency_lockdown'")
  else if bool_decide (cmd_type = Some "GET_STATUS") then
    raise (Exception "'SecuritySystem' object has no attribute 'send_system_status'")
  else ret tt.

(** [on_mqtt_message]; [decoded] is what [json.loads] and the lookup of
    the type give: the type, if the object has one, or the exception. *)
Definition on_mqtt_message (decoded : outcome (option string)) : M SecuritySystem unit :=
  try_except
    (match decoded with
     | Returned cmd_type => handle_mqtt_command cmd_type
     | Raised e => raise e
     end)
    (fun e => logger (ERROR ("MQTT message processing error: " +:+ exn_msg e))).

(** The messages [on_mqtt_message] is called with, one after the other. *)
Definition deliver_commands (msgs : list (outcome (option string))) (s : SecuritySystem)
    : SecuritySystem :=
  foldl (fun s msg => exec (on_mqtt_message msg) s) s msgs.

(** [log_security_event] with its [image_path] argument. *)
Definition log_security_event_with (event_type description location : string)
    (severity : Z) (image_path : option string) : M SecuritySystem unit :=
  try_except
    (insert_row db_error
       (add_security_event (mk_event event_type description location severity)) ;;
     s <- get ;;
     mqtt_publish publish_error (topic_alerts s)
       [ ("type", JStr event_type);
         ("description", JStr description);
         ("location", JStr location);
         ("severity", JNum (inject_Z severity));
         ("timestamp", JTime now);
         ("image_path", match image_path with Some p => JStr p | None => JNull end) ])
    (fun e => logger (ERROR ("Error logging security event: " +:+ exn_msg e))).

(** [handle_intrusion] with a frame; [evidence] is what saving the frame
    gives: the path of the image, or the exception of [os.makedirs] or
    [cv2.imwrite]. *)
Definition handle_intrusion_with_frame (location detection_method : string)
    (confidence : Q) (evidence : outcome string) : M SecuritySystem unit :=
  try_except
    (modify (set_intrusion_detected true) ;;
     image_path <- (match evidence with
                    | Returned p => ret p
                    | Raised e => raise e
                    end) ;;
     insert_row db_error (add_intrusion_attempt (location, detection_method, confidence)) ;;
     log_security_event_with "INTRUSION_DETECTED"
       ("Unauthorized access detected in " +:+ location) location 3 (Some image_path) ;;
     trigger_alarm now publish_error ;;
     logger (CRITICAL ("INTRUSION DETECTED: " +:+ location +:+ " via " +:+ detection_method)))
    (fun e => logger (ERROR ("Error handling intrusion: " +:+ exn_msg e))).

(** [log_access_attempt]; a user id of 0 counts as no user in
    [if success and user_id]. *)
Definition log_access_attempt (user : option Z) (method location : string)
    (success : bool) (confidence : Q) : M Monitor unit :=
  try_except
    (match db_error with
     | Some e => raise e
     | None =>
         modify (fun m => mk_monitor (sys m)
                            (access_logs m ++ [mk_access user method location success confidence])
                            (last_access_updates m)) ;;
         match user with
         | Some u =>
             if success && negb (u =? 0)
             then modify (fun m => mk_monitor (sys m) (access_logs m)
                                     (last_access_updates m ++ [u]))
             else ret tt
         | None => ret tt
         end
     end)
    (fun e => on_sys (logger (ERROR ("Error logging access attempt: " +:+ exn_msg e)))).

(** One detection in the loop of [analyze_suspicious_activity]. *)
Definition score_detection (armed : bool) (current_hour : Z)
    (acc : Q * list string) (d : Detection) : Q * list string :=
  if Qgtb (class_score d) (1 # 2) && (class_id d =? 0)%nat then
    let acc1 :=
      if (current_hour <? 6) || (22 <? current_hour)
      then ((fst acc + (3 # 10))%Q, snd acc ++ ["Activity during unusual hours"])
      else acc in
    if armed
    then ((fst acc1 + (1 # 2))%Q, snd acc1 ++ ["Movement while system armed"])
    else acc1
  else acc.

(** [analyze_suspicious_activity]; [outputs] is what the person detector
    gives for the frame: [None] without a detector, else the outputs of
    the network or the exception it raises.  The second component, never
    read by the caller, is the list of reasons. *)
Definition analyze_suspicious_activity (outputs : option (outcome (list (list Detection))))
    : M SecuritySystem (bool * list string) :=
  try_except
    (match outputs with
     | None => ret (false, ["No AI model available"])
     | Some (Raised e) => raise e
     | Some (Returned outs) =>
         s <- get ;;
         let r := foldl (score_detection (system_armed s) (hour (time_of now)))
                    (0%Q, []) (concat outs) in
         ret (Qgtb (fst r) (1 # 2), snd r)
     end)
    (fun e => logger (ERROR ("Suspicious activity analysis error: " +:+ exn_msg e)) ;;
              ret (false, ["Analysis error"])).

(** The faces of one frame in [monitor_camera]. *)
Definition process_faces (camera : string) (evidence : outcome string)
    (faces : list Face) : M Monitor unit :=
  (fix loop (l : list Face) : M Monitor unit :=
     match l with
     | [] => ret tt
     | face :: l' =>
         (if recognized face then
            log_access_attempt (user_id face) "face_recognition" camera true
              (face_confidence face)
          else
            m <- get ;;
            if system_armed (sys m) then
              on_sys (handle_intrusion_with_frame camera "unknown_face"
                        (face_confidence face) evidence)
            else ret tt) ;;
         loop l'
     end) faces.

(** One pass of the loop of [monitor_camera] over a frame that was read:
    [faces] is what [detect_faces_in_frame] returns, [motion] what
    [detect_motion] tells ([None] for the first frame), [outputs] what the
    person detector gives. *)
Definition process_frame (camera : string) (evidence : outcome string)
    (faces : list Face) (motion : option bool)
    (outputs : option (outcome (list (list Detection)))) : M Monitor unit :=
  process_faces camera evidence faces ;;
  match motion with
  | Some true =>
      m <- get ;;
      if system_armed (sys m) then
        r <- on_sys (analyze_suspicious_activity outputs) ;;
        if fst r : bool then
          on_sys (handle_intrusion_with_frame camera "suspicious_motion" (8 # 10) evidence)
        else ret tt
      else ret tt
  | _ => ret tt
  end.

End Methods.

(** The number of persons the code counts in the outputs of the network:
    detections of class 0 with a score above 0.5. *)
Definition persons (outs : list (list Detection)) : nat :=
  length (List.filter (fun d => Qgtb (class_score d) (1 # 2) && (class_id d =? 0)%nat)
            (concat outs)).

(** What one person adds to the score. *)
Definition person_weight (armed : bool) (current_hour : Z) : Q :=
  ((if (current_hour <? 6) || (22 <? current_hour) then 3 # 10 else 0)
   + (if armed then 1 # 2 else 0))%Q.

(** The flags, the published messages and the stored events of [m] are
    those of [s0]. *)
Definition quiet (s0 : SecuritySystem) (m : Monitor) : Prop :=
  system_armed (sys m) = system_armed s0 /\
  intrusion_detected (sys m) = intrusion_detected s0 /\
  outbox (sys m) = outbox s0 /\
  security_events (sys m) = security_events s0.

End Monitoring.

(** ** The weather rule *)

(** [sub in s] on strings. *)
Fixpoint contains (sub s : string) : bool :=
  String.prefix sub s ||
  match s with
  | EmptyString => false
  | String _ s' => contains sub s'
  end.

(** The decoded payload of a message on the weather topic. *)
Record WeatherData := mk_weather_data {
  wd_temperature : option Q;
  wd_humidity : option Q;
  wd_cloud_cover : option Q;
  wd_wind_speed : option Q
}.

(** The value [process_weather_data] gives [self.weather_data]; the empty
    dict of [__init__] is [None] of [option Weather]. *)
Record Weather := mk_weather {
  w_temperature : Q;
  w_humidity : Q;
  w_cloud_cover : Q;
  w_wind_speed : Q;
  w_timestamp : datetime
}.

Section WeatherRule.
Context {C : Type}.
Variable now : datetime.

Local Abbreviation Meth := (M (EMS C)).

(** [is_daytime] *)
Definition is_daytime : bool :=
  (6 <=? hour (time_of now)) && (hour (time_of now) <=? 18).

(** [device['room']] *)
Definition room_of (device : Device) : Meth string :=
  match dev_room device with
  | Some room => ret room
  | None => raise (Exception "'room'")                        (* KeyError *)
  end.

(** The body of the two loops over the lights and the fans. *)
Definition switch_off_if_empty (description : string) (device : Device) : Meth unit :=
  room <- room_of device ;;
  st <- get ;;
  if negb (is_room_occupied st (Some room)) then
    control_device now (dev_id device) false ;;
    log_optimization "weather_based" (dev_id device) description
  else ret tt.

(** The body of the loop over the appliances in hot weather. *)
Definition precool (device : Device) : Meth unit :=
  if contains "air_conditioner" (dev_id device) then
    st <- get ;;
    if negb (is_peak_hour now (config st)) then
      room <- room_of device ;;
      if is_room_occupied st (Some room) then
        control_device now (dev_id device) true ;;
        log_optimization "weather_based" (dev_id device) "predictive_cooling"
      else ret tt
    else ret tt
  else ret tt.

(** [optimize_based_on_weather], [weather_data] being the field
    [self.weather_data]. *)
Definition optimize_based_on_weather (weather_data : option Weather) : Meth unit :=
  try_except
    (match weather_data with
     | None => ret tt
     | Some w =>
         let outdoor_temp := w_temperature w in
         let cloud_cover := w_cloud_cover w in
         st <- get ;;
         (if Qltb cloud_cover 30 && is_daytime then
            for_each (lights (config st)) (switch_off_if_empty "natural_light_available")
          else ret tt) ;;
         if Qltb outdoor_temp 20 then
           for_each (fans (config st)) (switch_off_if_empty "cool_weather_optimization")
         else if Qgtb outdoor_temp 35 then
           for_each (appliances (config st)) precool
         else ret tt
     end)
    (fun e => logger (ERROR ("Weather-based optimization error: " +:+ exn_msg e))).

(** The value [process_weather_data] stores for a payload. *)
Definition weather_of (data : WeatherData) : Weather :=
  mk_weather (default 0%Q (wd_temperature data)) (default 0%Q (wd_humidity data))
    (default 0%Q (wd_cloud_cover data)) (default 0%Q (wd_wind_speed data)) now.

(** [process_weather_data].  The field [self.weather_data] it assigns is
    read by the rule it calls next and, besides, only by the feature
    builder of the prediction pipeline, which is a parameter here; so the
    value is handed to the rule and not kept in the state. *)
Definition process_weather_data (data : WeatherData) : Meth unit :=
  try_except
    (optimize_based_on_weather (Some (weather_of data)))
    (fun e => logger (ERROR ("Error processing weather data: " +:+ exn_msg e))).

End WeatherRule.

(** What [process_weather_data] may publish for the weather [w] while the
    rooms are occupied as [occupied] tells: on the device-control topic,
    one of
    - a light with an empty room switched off, under a cloud cover below
      30 in the daytime;
    - a fan with an empty room switched off, below 20 degrees;
    - an appliance whose id contains [air_conditioner] switched on, its
      room occupied, above 35 degrees and outside the peak hours. *)
Definition weather_command (cfg : Config) (now : datetime) (w : Weather)
    (occupied : option string -> bool) (t : string) (m : Message) : Prop :=
  t = topic_device_control cfg /\
  exists device room,
    dev_room device = Some room /\
    ((m = command_data now (dev_id device) false /\
      In device (lights cfg) /\ occupied (Some room) = false /\
      (w_cloud_cover w < 30)%Q /\ is_daytime now = true) \/
     (m = command_data now (dev_id device) false /\
      In device (fans cfg) /\ occupied (Some room) = false /\
      (w_temperature w < 20)%Q) \/
     (m = command_data now (dev_id device) true /\
      In device (appliances cfg) /\ contains "air_conditioner" (dev_id device) = true /\
      occupied (Some room) = true /\
      (35 < w_temperature w)%Q /\ is_peak_hour now cfg = false)).

(** The occupancy entries are [occ]. *)
Definition occupancy_is {C : Type} (occ : gmap (option string) Occupancy) (st : EMS C)
    : Prop :=
  occupancy_sensors st = occ.

(** ** The energy report *)

(** Python's [max(a, b)] and [min(a, b)] on numbers: the first argument
    unless the second is strictly beyond it. *)
Definition py_max (a b : Q) : Q := if Qgtb b a then b else a.
Definition py_min (a b : Q) : Q := if Qltb b a then b else a.

(** [calculate_daily_cost]; the date is not used. *)
Definition calculate_daily_cost (cfg : Config) (total_consumption_w : Q) : Q :=
  let daily_kwh := (total_consumption_w / 1000)%Q in
  (daily_kwh * normal_rate cfg / 100)%Q.

(** [calculate_efficiency_score] *)
Definition calculate_efficiency_score (total_consumption avg_consumption : Q) : Q :=
  let target_consumption := 20000%Q in
  let efficiency :=
    py_max 0 (100 - Qabs (total_consumption - target_consumption)
                    / target_consumption * 100)%Q in
  py_min 100 efficiency.

(** A row of the query of [generate_energy_report]: a day with the sum,
    the mean, the maximum and the number of its readings. *)
Record DayRow := mk_day_row {
  dr_date : Z;
  dr_total : Q;
  dr_avg : Q;
  dr_peak : Q;
  dr_count : Z
}.

(** An element of [report['daily_breakdown']]. *)
Record DayReport := mk_day_report {
  b_date : Z;
  b_consumption_kwh : Q;
  b_cost : Q;
  b_peak_power : Q;
  b_efficiency_score : Q
}.

(** The report; [period] is its two dates. *)
Record Report := mk_report {
  period : Z * Z;
  total_consumption_kwh : Q;
  total_cost : Q;
  average_daily_consumption : Q;
  peak_consumption : Q;
  efficiency_score : Q;
  cost_savings : Q;
  carbon_footprint : Q;
  daily_breakdown : list DayReport
}.

(** The body of the loop of [generate_energy_report] over the rows. *)
Definition add_day (cfg : Config) (report : Report) (row : DayRow) : Report :=
  let daily_kwh := (dr_total row / 1000)%Q in
  let daily_cost := calculate_daily_cost cfg (dr_total row) in
  mk_report (period report)
    (total_consumption_kwh report + daily_kwh)%Q
    (total_cost report + daily_cost)%Q
    (average_daily_consumption report)
    (py_max (peak_consumption report) (dr_peak row))
    (efficiency_score report)
    (cost_savings report)
    (carbon_footprint report)
    (daily_breakdown report
     ++ [mk_day_report (dr_date row) daily_kwh daily_cost (dr_peak row)
           (calculate_efficiency_score (dr_total row) (dr_avg row))]).

(** [sum(...)] of Python: a left fold from 0. *)
Definition py_sum (l : list Q) : Q := foldl Qplus 0%Q l.

(** The report [generate_energy_report] builds from the rows of its
    query. *)
Definition report_of (cfg : Config) (start_date end_date : Z)
    (consumption_data : list DayRow) : Report :=
  let report :=
    foldl (add_day cfg)
      (mk_report (start_date, end_date) 0 0 0 0 0 0 0 []) consumption_data in
  let report :=
    if (0 <? Z.of_nat (length consumption_data)) then
      mk_report (period report) (total_consumption_kwh report) (total_cost report)
        (total_consumption_kwh report / inject_Z (Z.of_nat (length consumption_data)))%Q
        (peak_consumption report)
        (py_sum (map b_efficiency_score (daily_breakdown report))
         / inject_Z (Z.of_nat (length (daily_breakdown report))))%Q
        (cost_savings report) (carbon_footprint report) (daily_breakdown report)
    else report in
  mk_report (period report) (total_consumption_kwh report) (total_cost report)
    (average_daily_consumption report) (peak_consumption report)
    (efficiency_score report) (cost_savings report)
    (total_consumption_kwh report * (82 # 100))%Q (daily_breakdown report).

(** [datetime.now().date()] as a day number. *)
Definition date_of (dt : datetime) : Z := dt / (seconds_per_day * us_per_second).

(** [generate_energy_report]; [query start_date end_date] is what the
    cursor fetches for the two dates, or the exception the database
    raises. *)
Definition generate_energy_report {C : Type} (now : datetime) (days : Z)
    (query : Z -> Z -> outcome (list DayRow)) : M (EMS C) (option Report) :=
  try_except
    (let end_date := date_of now in
     let start_date := end_date - days in
     match query start_date end_date with
     | Raised e => raise e
     | Returned consumption_data =>
         st <- get ;;
         ret (Some (report_of (config st) start_date end_date consumption_data))
     end)
    (fun e => logger (ERROR ("Report generation error: " +:+ exn_msg e)) ;;
              ret None).

(** * Properties *)

(** ** Time of day *)

Ltac compare_fields :=
  repeat match goal with
         | |- context [Z.compare ?x ?y] => destruct (Z.compare_spec x y)
         | H : context [Z.compare ?x ?y] |- _ => destruct (Z.compare_spec x y)
         end.

Lemma time_le_refl (a : time) : time_le a a = true.
Proof.
  unfold time_le, time_compare. now rewrite !Z.compare_refl.
Qed.

Lemma time_le_total (a b : time) : time_le a b = false -> time_le b a = true.
Proof.
  unfold time_le, time_compare.
  compare_fields; intros; try reflexivity; try discriminate; lia.
Qed.

Lemma time_le_trans (a b c : time) :
  time_le a b = true -> time_le b c = true -> time_le a c = true.
Proof.
  unfold time_le, time_compare.
  compare_fields; intros; try reflexivity; try discriminate; lia.
Qed.

(** The time of day of an instant given by its day, hour, minute, second
    and microsecond. *)
Lemma time_of_at_day (d h m s us : Z) :
  0 <= h < 24 -> 0 <= m < 60 -> 0 <= s < 60 -> 0 <= us < us_per_second ->
  time_of (at_day d h m s + us) = mk_time h m s us.
Proof.
  unfold us_per_second. intros Hh Hm Hs Hus.
  unfold time_of, at_day, us_per_second, seconds_per_day.
  set (S := ((d * 24 + h) * 60 + m) * 60 + s).
  assert (Hdiv : (S * 1000000 + us) / 1000000 = S)
    by (symmetry; apply (Z.div_unique _ _ _ us); lia).
  assert (Hmod : (S * 1000000 + us) mod 1000000 = us)
    by (symmetry; apply (Z.mod_unique _ _ S); lia).
  rewrite Hdiv, Hmod.
  assert (Hsod : S mod 86400 = h * 3600 + m * 60 + s)
    by (symmetry; apply (Z.mod_unique _ _ d); unfold S; lia).
  rewrite Hsod.
  assert (H1 : (h * 3600 + m * 60 + s) / 3600 = h)
    by (symmetry; apply (Z.div_unique _ _ _ (m * 60 + s)); lia).
  assert (H2 : (h * 3600 + m * 60 + s) / 60 = h * 60 + m)
    by (symmetry; apply (Z.div_unique _ _ _ s); lia).
  assert (H3 : (h * 60 + m) mod 60 = m)
    by (symmetry; apply (Z.mod_unique _ _ h); lia).
  assert (H4 : (h * 3600 + m * 60 + s) mod 60 = s)
    by (symmetry; apply (Z.mod_unique _ _ (h * 60 + m)); lia).
  now rewrite H1, H2, H3, H4.
Qed.

Lemma time_of_at_day_0 (d h m s : Z) :
  0 <= h < 24 -> 0 <= m < 60 -> 0 <= s < 60 ->
  time_of (at_day d h m s) = mk_time h m s 0.
Proof.
  intros. rewrite <- (Z.add_0_r (at_day d h m s)).
  apply time_of_at_day; unfold us_per_second; lia.
Qed.

(** ** Tariff windows *)

Lemma is_peak_hour_at_single (cfg : Config) (w : Period) (t : time) :
  peak_hours cfg = [w] ->
  is_peak_hour_at cfg t = time_le (p_start w) t && time_le t (p_end w).
Proof.
  intros E. unfold is_peak_hour_at. rewrite E. simpl. apply orb_false_r.
Qed.

(** C6: with the peak window 18:00 to 22:00, exactly 18:00:00 is peak and
    17:59:59 (with any fraction of a second) is not; the end 22:00:00 is
    peak too, and a time of day is peak exactly when it lies between the
    two ends, both included. *)
Theorem peak_window_inclusive (cfg : Config) :
  peak_hours cfg = [mk_period (hhmm 18 0) (hhmm 22 0)] ->
  (forall d, is_peak_hour (at_day d 18 0 0) cfg = true) /\
  (forall d us, 0 <= us < us_per_second ->
     is_peak_hour (at_day d 17 59 59 + us) cfg = false) /\
  (forall d, is_peak_hour (at_day d 22 0 0) cfg = true) /\
  (forall t, is_peak_hour_at cfg t = true <->
     time_le (hhmm 18 0) t = true /\ time_le t (hhmm 22 0) = true).
Proof.
  intros E. unfold is_peak_hour. repeat split.
  - intros d. rewrite time_of_at_day_0 by lia.
    now rewrite (is_peak_hour_at_single _ _ _ E).
  - intros d us Hus. rewrite time_of_at_day by lia.
    rewrite (is_peak_hour_at_single _ _ _ E). reflexivity.
  - intros d. rewrite time_of_at_day_0 by lia.
    now rewrite (is_peak_hour_at_single _ _ _ E).
  - rewrite (is_peak_hour_at_single _ _ _ E) in H. simpl in H.
    now apply andb_true_iff in H.
  - rewrite (is_peak_hour_at_single _ _ _ E) in H. simpl in H.
    now apply andb_true_iff in H.
  - intros [A B]. rewrite (is_peak_hour_at_single _ _ _ E). simpl.
    now rewrite A, B.
Qed.

Lemma peak_window_inclusive_default :
  is_peak_hour (at_day 19000 18 0 0) default_config = true /\
  is_peak_hour (at_day 19000 17 59 59) default_config = false.
Proof.
  destruct (peak_window_inclusive default_config eq_refl) as (A & B & _).
  split.
  - apply A.
  - rewrite <- (Z.add_0_r (at_day 19000 17 59 59)). apply B. unfold us_per_second. lia.
Defined.

(** A window whose start is not after its end makes every time of day
    off-peak. *)
Lemma off_peak_same_day_window_covers_day (cfg : Config) (w : Period) (t : time) :
  In w (off_peak_hours cfg) ->
  time_le (p_start w) (p_end w) = true ->
  is_off_peak_hour_at cfg t = true.
Proof.
  intros Hin Hle. unfold is_off_peak_hour_at.
  apply existsb_exists. exists w. split; [exact Hin|].
  destruct (time_le (p_start w) t) eqn:E; [reflexivity|]. simpl.
  apply time_le_total in E. eapply time_le_trans; eauto.
Qed.

(** A single window that crosses midnight is the union of its two
    sub-ranges, both ends included. *)
Lemma off_peak_wrapping_window (cfg : Config) (w : Period) (t : time) :
  off_peak_hours cfg = [w] ->
  (is_off_peak_hour_at cfg t = true <->
   time_le (p_start w) t = true \/ time_le t (p_end w) = true).
Proof.
  intros E. unfold is_off_peak_hour_at. rewrite E. simpl.
  rewrite orb_false_r. apply orb_true_iff.
Qed.

(** C4: with the off-peak window 01:00 to 05:00, whose start is before its
    end, [is_off_peak_hour] classifies 12:00 as off-peak although 12:00 is
    not between 01:00 and 05:00. *)
Theorem off_peak_same_day_window_at_noon :
  time_le (hhmm 1 0) (hhmm 5 0) = true /\
  is_off_peak_hour (at_day 19000 12 0 0) night_tariff_config = true /\
  time_le (hhmm 1 0) (hhmm 12 0) && time_le (hhmm 12 0) (hhmm 5 0) = false.
Proof.
  repeat split.
Qed.

(** ** Invariants of method bodies *)

(** [c] keeps [P]: from a state where [P] holds it leaves one where [P]
    holds, whether it returns or raises. *)
Definition preserves {S A : Type} (P : S -> Prop) (c : M S A) : Prop :=
  forall s, P s -> P (snd (c s)).

Section Preserves.
Context {S : Type} (P : S -> Prop).

Lemma preserves_ret {A} (a : A) : preserves P (ret a).
Proof. intros s Hs. exact Hs. Qed.

Lemma preserves_raise {A} (e : exn) : preserves P (@raise S A e).
Proof. intros s Hs. exact Hs. Qed.

Lemma preserves_bind {A B} (c : M S A) (k : A -> M S B) :
  preserves P c -> (forall a, preserves P (k a)) -> preserves P (bind c k).
Proof.
  intros Hc Hk s Hs. unfold bind. specialize (Hc s Hs).
  destruct (c s) as [[a|e] s']; simpl in *; [now apply Hk | exact Hc].
Qed.

Lemma preserves_get_bind {B} (k : S -> M S B) :
  (forall s0, P s0 -> preserves P (k s0)) -> preserves P (bind get k).
Proof. intros Hk s Hs. unfold bind, get. now apply Hk. Qed.

Lemma preserves_try_except {A} (body : M S A) (handler : exn -> M S A) :
  preserves P body -> (forall e, preserves P (handler e)) ->
  preserves P (try_except body handler).
Proof.
  intros Hb Hh s Hs. unfold try_except. specialize (Hb s Hs).
  destruct (body s) as [[a|e] s']; simpl in *; [exact Hb | now apply Hh].
Qed.

Lemma preserves_modify (f : S -> S) :
  (forall s, P s -> P (f s)) -> preserves P (modify f).
Proof. intros Hf s Hs. now apply Hf. Qed.

End Preserves.

Section PreservesEnergy.
Context {C : Type} (P : EMS C -> Prop).

Lemma preserves_for_each {A} (l : list A) (body : A -> M (EMS C) unit) :
  (forall x, preserves P (body x)) -> preserves P (for_each l body).
Proof.
  intros Hb. induction l as [|x l IH]; simpl.
  - apply preserves_ret.
  - apply preserves_bind; [apply Hb | intros _; exact IH].
Qed.

Lemma preserves_call {A} (h : Helper A) :
  (forall c st, P st -> P (set_collab c st)) -> preserves P (call h).
Proof.
  intros Hc st Hst. unfold call. destruct (h (collab st)) as [r c]. simpl.
  now apply Hc.
Qed.

End PreservesEnergy.

(** One step of an invariant proof over a method body; [leaf] closes the
    goals about single state updates. *)
Ltac preserves_step leaf :=
  match goal with
  | |- preserves _ (bind get _) => apply preserves_get_bind; intros ? ?
  | |- preserves _ (bind _ _) => apply preserves_bind; [|intros ?]
  | |- preserves _ (try_except _ _) => apply preserves_try_except; [|intros ?]
  | |- preserves _ (ret _) => apply preserves_ret
  | |- preserves _ (raise _) => apply preserves_raise
  | |- preserves _ (for_each _ _) => apply preserves_for_each; intros ?
  | |- preserves _ (call _) => apply preserves_call; intros ? ? ?; leaf
  | |- preserves _ (logger _) => apply preserves_modify; intros ? ?; leaf
  | |- preserves _ (publish _ _) => apply preserves_modify; intros ? ?; leaf
  | |- preserves _ (modify _) => apply preserves_modify; intros ? ?; leaf
  | |- preserves _ (execute_insert _ _) => unfold execute_insert
  | |- preserves _ (if ?b then _ else _) => destruct b
  | |- preserves _ (match ?x with _ => _ end) => destruct x
  end.

(** ** The security system *)

(** C10: whatever the state, and whether or not the event can be stored
    and published, [disarm_system] returns with the system disarmed and the
    intrusion flag cleared, and [arm_system] returns with the system armed
    and the intrusion flag as it was. *)
Theorem disarm_clears_intrusion_flag (now : datetime) (db_error publish_error : option exn)
    (s : Security.SecuritySystem) :
  (fst (Security.disarm_system now db_error publish_error s) = Returned tt /\
   Security.system_armed (exec (Security.disarm_system now db_error publish_error) s)
   = false /\
   Security.intrusion_detected (exec (Security.disarm_system now db_error publish_error) s)
   = false) /\
  (fst (Security.arm_system now db_error publish_error s) = Returned tt /\
   Security.system_armed (exec (Security.arm_system now db_error publish_error) s)
   = true /\
   Security.intrusion_detected (exec (Security.arm_system now db_error publish_error) s)
   = Security.intrusion_detected s).
Proof.
  destruct db_error as [e1|], publish_error as [e2|]; repeat split.
Qed.

(** An intrusion raises the flag, even when the attempt cannot be stored;
    disarming afterwards clears it. *)
Lemma disarm_after_intrusion (now : datetime) (db_error publish_error : option exn)
    (s : Security.SecuritySystem) (loc how : string) (conf : Q) :
  let s1 := exec (Security.handle_intrusion now db_error publish_error loc how conf) s in
  Security.intrusion_detected s1 = true /\
  Security.intrusion_detected (exec (Security.disarm_system now db_error publish_error) s1)
  = false.
Proof.
  destruct db_error as [e1|], publish_error as [e2|]; repeat split.
Qed.

(** ** Device control *)

Lemma published_on_app (topic : string) (l1 l2 : list (string * Message)) :
  published_on topic (l1 ++ l2) = published_on topic l1 ++ published_on topic l2.
Proof.
  unfold published_on. now rewrite List.filter_app, fmap_app.
Qed.

Lemma published_on_same (topic : string) (m : Message) :
  published_on topic [(topic, m)] = [m].
Proof.
  unfold published_on. simpl. now rewrite String.eqb_refl.
Qed.

Lemma published_on_other (topic topic' : string) (m : Message) :
  topic' <> topic -> published_on topic [(topic', m)] = [].
Proof.
  intros Hne. unfold published_on. simpl.
  destruct (String.eqb_spec topic' topic); [contradiction | reflexivity].
Qed.

(** [control_device] always returns, having published one message and
    logged one record. *)
Lemma control_device_eq {C : Type} (now : datetime) (device_id : string) (state : bool)
    (st : EMS C) :
  control_device now device_id state st
  = (Returned tt,
     set_log (fun l => l ++ [INFO ("Device control: " +:+ device_id +:+ " -> "
                                   +:+ (if state then "ON" else "OFF"))])
       (set_outbox (fun l => l ++ [(topic_device_control (config st),
                                    command_data now device_id state)]) st)).
Proof. reflexivity. Qed.

Lemma command_data_ok (now : datetime) (device_id : string) (state : bool) :
  control_message_ok (command_data now device_id state).
Proof.
  split; [reflexivity|]. destruct state; [left | right]; reflexivity.
Qed.

(** C7, as the code has it: [control_device] keeps no record of what it
    sent, so every dispatch puts its message on the device-control topic,
    whatever was dispatched before and however recently. *)
Theorem every_dispatch_publishes {C : Type} (actions : list Dispatch) (st : EMS C) :
  published_on (topic_device_control (config st)) (outbox (dispatch_all actions st))
  = published_on (topic_device_control (config st)) (outbox st)
    ++ map (fun a => command_data (at_time a) (target a) (to_state a)) actions
  /\ length (published_on (topic_device_control (config st))
               (outbox (dispatch_all actions st)))
     = (length (published_on (topic_device_control (config st)) (outbox st))
        + length actions)%nat.
Proof.
  assert (E : published_on (topic_device_control (config st))
                (outbox (dispatch_all actions st))
              = published_on (topic_device_control (config st)) (outbox st)
                ++ map (fun a => command_data (at_time a) (target a) (to_state a)) actions).
  { revert st. induction actions as [|a actions IH]; intros st; simpl.
    - now rewrite app_nil_r.
    - unfold dispatch_all in *. simpl. unfold exec at 2.
      rewrite control_device_eq. simpl.
      match goal with
      | |- context [foldl _ ?s actions] => specialize (IH s)
      end.
      simpl in IH. rewrite IH, published_on_app, published_on_same, <- app_assoc.
      reflexivity. }
  split; [exact E|]. rewrite E, length_app, length_map. reflexivity.
Qed.

(** C7 fails as stated: two dispatches of the same action at the same
    instant yield two outbound publishes, not one. *)
Lemma duplicate_dispatch_published_twice :
  let a := mk_dispatch (at_day 19000 12 0 0) "hall_light" false in
  let st := dispatch_all [a; a] (initial default_config tt) in
  published_on "energy/control" (outbox st)
  = [ command_data (at_day 19000 12 0 0) "hall_light" false;
      command_data (at_day 19000 12 0 0) "hall_light" false ]
  /\ length (published_on "energy/control" (outbox st)) <> 1%nat.
Proof.
  split; [reflexivity | discriminate].
Qed.

(** ** What travels on the device-control topic *)

Create HintDb control_db.

Ltac control_publish :=
  rewrite published_on_app; apply Forall_app; split; [assumption|];
  repeat match goal with
         | H : config ?s = _ |- context [config ?s] => rewrite H
         end;
  first [ rewrite published_on_same;
          constructor; [apply command_data_ok | constructor]
        | rewrite published_on_other by assumption; constructor ].

Ltac control_leaf :=
  idtac;
  repeat match goal with
         | H : control_inv _ _ |- _ => destruct H as [? ?]
         end;
  split; simpl; [assumption|];
  first [ assumption | control_publish ].

Ltac control_auto :=
  repeat first [ preserves_step control_leaf | solve [auto with control_db] ].

Section ControlTopic.
Context {C : Type} {A : Arith}.
Variable H : Helpers C.
Variable now : datetime.
Variable cfg : Config.
Hypothesis topics_differ : topic_alerts cfg <> topic_device_control cfg.

Lemma control_device_inv (device_id : string) (state : bool) :
  preserves (control_inv (C:=C) cfg) (control_device now device_id state).
Proof. unfold control_device. control_auto. Qed.
Hint Resolve control_device_inv : control_db.

Lemma log_optimization_inv (a b c : string) :
  preserves (control_inv (C:=C) cfg) (log_optimization a b c).
Proof. unfold log_optimization. control_auto. Qed.
Hint Resolve log_optimization_inv : control_db.

Lemma handle_energy_anomaly_inv (device_id : option string) (p score : Q) :
  preserves (control_inv cfg) (handle_energy_anomaly H now device_id p score).
Proof using topics_differ. unfold handle_energy_anomaly. control_auto. Qed.
Hint Resolve handle_energy_anomaly_inv : control_db.

Lemma detect_energy_anomalies_inv (device_id : option string) (p : Q) :
  preserves (control_inv cfg) (detect_energy_anomalies H now device_id p).
Proof using topics_differ. unfold detect_energy_anomalies. control_auto. Qed.
Hint Resolve detect_energy_anomalies_inv : control_db.

Lemma shed_loop_inv (devices : list Device) (load_to_reduce reduced_load : Q) :
  preserves (control_inv cfg) (shed_loop H now devices load_to_reduce reduced_load).
Proof.
  revert reduced_load. induction devices as [|device rest IH]; intros reduced_load; simpl.
  - apply preserves_ret.
  - control_auto; apply IH.
Qed.
Hint Resolve shed_loop_inv : control_db.

Lemma optimize_load_balancing_inv :
  preserves (control_inv cfg) (optimize_load_balancing H now).
Proof. unfold optimize_load_balancing, optimize_load_balancing_body. control_auto. Qed.
Hint Resolve optimize_load_balancing_inv : control_db.

Lemma optimize_cost_efficiency_inv :
  preserves (control_inv cfg) (optimize_cost_efficiency H now).
Proof. unfold optimize_cost_efficiency, optimize_cost_efficiency_body. control_auto. Qed.
Hint Resolve optimize_cost_efficiency_inv : control_db.

Lemma find_optimal_time_slot_inv (predictions : list (datetime * Q)) (p : Q) (d : nat) :
  preserves (control_inv (C:=C) cfg) (find_optimal_time_slot now predictions p d).
Proof. unfold find_optimal_time_slot. control_auto. Qed.
Hint Resolve find_optimal_time_slot_inv : control_db.

Lemma predict_energy_consumption_inv (n : nat) :
  preserves (control_inv cfg) (predict_energy_consumption H n).
Proof. unfold predict_energy_consumption. control_auto. Qed.
Hint Resolve predict_energy_consumption_inv : control_db.

Lemma smart_scheduling_inv :
  preserves (control_inv cfg) (smart_scheduling H now).
Proof. unfold smart_scheduling, smart_scheduling_body. control_auto. Qed.
Hint Resolve smart_scheduling_inv : control_db.

Lemma check_optimization_triggers_inv :
  preserves (control_inv cfg) (check_optimization_triggers H now).
Proof. unfold check_optimization_triggers. control_auto. Qed.
Hint Resolve check_optimization_triggers_inv : control_db.

Lemma run_optimization_cycle_inv :
  preserves (control_inv cfg) (run_optimization_cycle H now).
Proof. unfold run_optimization_cycle, run_optimization_cycle_body. control_auto. Qed.

Lemma process_energy_reading_inv (data : EnergyData) (insert_error : option exn) :
  preserves (control_inv cfg) (process_energy_reading H now data insert_error).
Proof using topics_differ. unfold process_energy_reading. control_auto. Qed.

Lemma occupancy_rule_inv (o : option Occupancy) (b : bool) (cfg' : Config) (device : Device) :
  preserves (control_inv (C:=C) cfg) (occupancy_rule now o b cfg' device).
Proof. unfold occupancy_rule. control_auto. Qed.
Hint Resolve occupancy_rule_inv : control_db.

Lemma optimize_based_on_occupancy_inv (room : option string) :
  preserves (control_inv (C:=C) cfg) (optimize_based_on_occupancy now room).
Proof. unfold optimize_based_on_occupancy. control_auto. Qed.
Hint Resolve optimize_based_on_occupancy_inv : control_db.

Lemma process_occupancy_data_inv (data : OccupancyData) (insert_error : option exn) :
  preserves (control_inv (C:=C) cfg) (process_occupancy_data now data insert_error).
Proof. unfold process_occupancy_data. control_auto. Qed.

End ControlTopic.

(** C9, as the code has it: every message the handlers put on the
    device-control topic is the object of [control_device], with exactly
    the fields [device_id], [command], [timestamp] and [source], the
    command being ["on"] or ["off"]; the alerts go to another topic. *)
Theorem control_topic_messages {C : Type} {A : Arith} (H : Helpers C) (now : datetime) (st : EMS C) :
  topic_alerts (config st) <> topic_device_control (config st) ->
  Forall control_message_ok
    (published_on (topic_device_control (config st)) (outbox st)) ->
  (forall device_id state,
     published_on (topic_device_control (config st))
       (outbox (exec (control_device now device_id state) st))
     = published_on (topic_device_control (config st)) (outbox st)
       ++ [command_data now device_id state]
     /\ control_message_ok (command_data now device_id state)) /\
  (forall data insert_error,
     Forall control_message_ok
       (published_on (topic_device_control (config st))
          (outbox (exec (process_energy_reading H now data insert_error) st)))) /\
  (forall data insert_error,
     Forall control_message_ok
       (published_on (topic_device_control (config st))
          (outbox (exec (process_occupancy_data now data insert_error) st)))) /\
  Forall control_message_ok
    (published_on (topic_device_control (config st))
       (outbox (exec (run_optimization_cycle H now) st))).
Proof.
  intros Hne Hok.
  assert (Hinv : control_inv (config st) st) by (split; [reflexivity | exact Hok]).
  repeat split.
  - unfold exec. rewrite control_device_eq. simpl.
    now rewrite published_on_app, published_on_same.
  - destruct state; [left | right]; reflexivity.
  - intros data insert_error.
    now apply (process_energy_reading_inv H now (config st) Hne data insert_error st).
  - intros data insert_error.
    now apply (process_occupancy_data_inv now (config st) data insert_error st).
  - now apply (run_optimization_cycle_inv H now (config st) st).
Qed.

Lemma control_topic_messages_default :
  Forall control_message_ok
    (published_on "energy/control"
       (outbox (exec (process_occupancy_data (at_day 19000 12 0 0) (room_empty "hall") None)
                  (initial default_config tt)))).
Proof.
  refine (proj1 (proj2 (proj2 (control_topic_messages missing_helpers (at_day 19000 12 0 0)
                                 (initial default_config tt) _ _)))
            (room_empty "hall") None).
  - simpl. discriminate.
  - simpl. constructor.
Defined.

(** C9 fails as stated: the object [control_device] publishes names its
    first field [device_id]; it has no field [entity_id]. *)
Lemma control_message_has_no_entity_id :
  let st := exec (control_device (at_day 19000 12 0 0) "hall_light" false)
              (initial default_config tt) in
  exists m,
    published_on "energy/control" (outbox st) = [m] /\
    keys m = ["device_id"; "command"; "timestamp"; "source"] /\
    field "entity_id" m = None /\
    keys m <> ["entity_id"; "command"; "timestamp"; "source"].
Proof.
  exists (command_data (at_day 19000 12 0 0) "hall_light" false).
  repeat split. discriminate.
Qed.

(** ** Load shedding *)

Lemma Qgtb_true (a b : Q) : Qgtb a b = true <-> (b < a)%Q.
Proof.
  unfold Qgtb. rewrite negb_true_iff. split.
  - intros E. apply Qnot_le_lt. intros Hle. apply Qle_bool_iff in Hle. congruence.
  - intros Hlt. destruct (Qle_bool a b) eqn:E; [|reflexivity].
    apply Qle_bool_iff in E. now apply Qlt_not_le in Hlt.
Qed.

Lemma Qgtb_false (a b : Q) : Qgtb a b = false <-> (a <= b)%Q.
Proof.
  unfold Qgtb. rewrite negb_false_iff. apply Qle_bool_iff.
Qed.

Create HintDb log_db.

Ltac log_leaf :=
  idtac;
  match goal with
  | H : log_extends _ _ |- log_extends _ _ =>
      let r := fresh "r" in
      let E := fresh "E" in
      destruct H as [r E]; simpl;
      first [ exists r; exact E
            | eexists; simpl; rewrite E, <- app_assoc; reflexivity ]
  end.

Ltac log_auto :=
  repeat first [ preserves_step log_leaf | solve [auto with log_db] ].

Section LogGrows.
Context {C : Type} {A : Arith}.
Variable H : Helpers C.
Variable now : datetime.
Variable before : list LogRecord.

Lemma control_device_log (device_id : string) (state : bool) :
  preserves (log_extends (C:=C) before) (control_device now device_id state).
Proof. unfold control_device. log_auto. Qed.
Hint Resolve control_device_log : log_db.

Lemma log_optimization_log (a b c : string) :
  preserves (log_extends (C:=C) before) (log_optimization a b c).
Proof. unfold log_optimization. log_auto. Qed.
Hint Resolve log_optimization_log : log_db.

Lemma shed_loop_log (devices : list Device) (load_to_reduce reduced_load : Q) :
  preserves (log_extends before) (shed_loop H now devices load_to_reduce reduced_load).
Proof.
  revert reduced_load. induction devices as [|device rest IH]; intros reduced_load; simpl.
  - apply preserves_ret.
  - log_auto; apply IH.
Qed.

End LogGrows.

(** With the aggregate power at or below the product of the ceiling and
    0.8, as the program computes it, [optimize_load_balancing] does
    nothing at all. *)
Lemma load_balancing_idle {C : Type} {A : Arith} (H : Helpers C) (now : datetime) (st : EMS C) :
  (total_power st <= py_mul (high_usage_alert (config st)) (float (8 # 10)))%Q ->
  optimize_load_balancing H now st = (Returned tt, st).
Proof.
  intros Hle. apply Qgtb_false in Hle.
  unfold optimize_load_balancing, try_except, optimize_load_balancing_body, bind, get.
  now rewrite Hle.
Qed.

(** Strictly above that product it starts shedding: the first thing it
    does is to log the high load. *)
Lemma load_balancing_starts {C : Type} {A : Arith} (H : Helpers C) (now : datetime) (st : EMS C) :
  (py_mul (high_usage_alert (config st)) (float (8 # 10)) < total_power st)%Q ->
  log_extends
    (log st ++ [INFO "High load detected, initiating load balancing"])
    (exec (optimize_load_balancing H now) st).
Proof.
  intros Hlt. apply Qgtb_true in Hlt.
  set (before := log st ++ [INFO "High load detected, initiating load balancing"]).
  assert (Hpre : preserves (log_extends before)
                   (try_except
                      (non_essential_devices <- call (get_non_essential_devices H) ;;
                       shed_loop H now (sort_by_priority_desc non_essential_devices)
                         (py_sub (total_power st)
                            (py_mul (high_usage_alert (config st)) (float (7 # 10))))
                         0%Q)
                      (fun e => logger (ERROR ("Load balancing optimization error: "
                                               +:+ exn_msg e))))).
  { log_auto. apply shed_loop_log. }
  specialize (Hpre (set_log (fun l => l ++ [INFO "High load detected, initiating load balancing"]) st)).
  unfold exec, optimize_load_balancing, try_except, optimize_load_balancing_body, bind, get.
  rewrite Hlt. unfold logger at 1, modify. simpl.
  unfold try_except, bind in Hpre. apply Hpre.
  exists []. simpl. now rewrite app_nil_r.
Qed.

(** Python's stable sort, as modelled, permutes its argument. *)
Lemma insert_by_priority_perm (d : Device) (l : list Device) :
  insert_by_priority d l ≡ₚ d :: l.
Proof.
  induction l as [|d' l IH]; simpl; [reflexivity|].
  destruct (priority d' <=? priority d); [reflexivity|].
  rewrite IH. apply Permutation_swap.
Qed.

Lemma sort_by_priority_desc_perm (l : list Device) :
  sort_by_priority_desc l ≡ₚ l.
Proof.
  induction l as [|d l IH]; simpl; [reflexivity|].
  unfold sort_by_priority_desc in *. simpl.
  now rewrite insert_by_priority_perm, IH.
Qed.

(** Its result has the highest priority first. *)
Lemma insert_by_priority_sorted (d : Device) (l : list Device) :
  Sorted (fun a b => priority b <= priority a) l ->
  Sorted (fun a b => priority b <= priority a) (insert_by_priority d l).
Proof.
  induction 1 as [|d' l Hs IH Hhd]; simpl.
  - repeat constructor.
  - destruct (Z.leb_spec (priority d') (priority d)) as [Hle|Hgt].
    + constructor; [constructor; assumption | constructor; exact Hle].
    + constructor; [exact IH|].
      destruct l as [|d'' l]; simpl.
      * constructor. lia.
      * destruct (priority d'' <=? priority d); constructor; [lia|].
        now inversion Hhd.
Qed.

Lemma sort_by_priority_desc_sorted (l : list Device) :
  Sorted (fun a b => priority b <= priority a) (sort_by_priority_desc l).
Proof.
  induction l as [|d l IH]; simpl; [constructor|].
  now apply insert_by_priority_sorted.
Qed.

Create HintDb outbox_db.

Ltac outbox_leaf :=
  idtac;
  match goal with
  | H : outbox_extends _ _ |- outbox_extends _ _ =>
      let r := fresh "r" in
      let E := fresh "E" in
      destruct H as [r E]; simpl;
      first [ exists r; exact E
            | eexists; simpl; rewrite E, <- app_assoc; reflexivity ]
  end.

Ltac outbox_auto :=
  repeat first [ preserves_step outbox_leaf | solve [auto with outbox_db] ].

Section OutboxGrows.
Context {C : Type} {A : Arith}.
Variable H : Helpers C.
Variable now : datetime.
Variable before : list (string * Message).

Lemma control_device_outbox (device_id : string) (state : bool) :
  preserves (outbox_extends (C:=C) before) (control_device now device_id state).
Proof. unfold control_device. outbox_auto. Qed.
Hint Resolve control_device_outbox : outbox_db.

Lemma log_optimization_outbox (a b c : string) :
  preserves (outbox_extends (C:=C) before) (log_optimization a b c).
Proof. unfold log_optimization. outbox_auto. Qed.
Hint Resolve log_optimization_outbox : outbox_db.

Lemma shed_loop_outbox (devices : list Device) (load_to_reduce reduced_load : Q) :
  preserves (outbox_extends before) (shed_loop H now devices load_to_reduce reduced_load).
Proof.
  revert reduced_load. induction devices as [|device rest IH]; intros reduced_load; simpl.
  - apply preserves_ret.
  - outbox_auto; apply IH.
Qed.

(** What follows the command in one round of the loop. *)
Lemma shed_round_outbox (device : Device) (devices : list Device)
    (load_to_reduce reduced_load : Q) :
  preserves (outbox_extends before)
    (log_optimization "load_balancing" (dev_id device) "reduced_load" ;;
     call (schedule_device_restoration H (dev_id device) 30) ;;
     shed_loop H now devices load_to_reduce reduced_load).
Proof. outbox_auto. apply shed_loop_outbox. Qed.

End OutboxGrows.

Lemma shed_loop_cons {C : Type} {A : Arith} (H : Helpers C) (now : datetime) (device : Device)
    (rest : list Device) (load_to_reduce reduced_load : Q) :
  shed_loop H now (device :: rest) load_to_reduce reduced_load
  = if Qle_bool load_to_reduce reduced_load then ret tt
    else
      on <- call (is_device_on H (dev_id device)) ;;
      if on : bool then
        control_device now (dev_id device) false ;;
        log_optimization "load_balancing" (dev_id device) "reduced_load" ;;
        call (schedule_device_restoration H (dev_id device) 30) ;;
        shed_loop H now rest load_to_reduce (py_add reduced_load (power_rating device))
      else shed_loop H now rest load_to_reduce reduced_load.
Proof. reflexivity. Qed.

(** With the collaborators of the specification, as long as the load still
    to shed is positive the loop turns off the first candidate that is on:
    its command is the next message published. *)
Lemma shed_loop_first_on {A : Arith} (now : datetime) (delay : Z) (devices : list Device)
    (load_to_reduce reduced_load : Q) (st : EMS Catalog) :
  Qle_bool load_to_reduce reduced_load = false ->
  (exists d, d ∈ devices /\ dev_id d ∈ switched_on (collab st)) ->
  exists d rest,
    d ∈ devices /\
    outbox (exec (shed_loop (catalog_helpers now delay) now devices
                    load_to_reduce reduced_load) st)
    = outbox st ++ (topic_device_control (config st), command_data now (dev_id d) false)
                   :: rest.
Proof.
  revert st. induction devices as [|device devices IH]; intros st Hload (d & Hd & Hon).
  - inversion Hd.
  - unfold exec. rewrite shed_loop_cons, Hload.
    unfold bind at 1.
    change (call (is_device_on (catalog_helpers now delay) (dev_id device)) st)
      with (Returned (bool_decide (dev_id device ∈ switched_on (collab st))),
            set_collab (collab st) st).
    destruct (bool_decide (dev_id device ∈ switched_on (collab st))) eqn:Eon.
    + unfold bind at 1. rewrite control_device_eq.
      match goal with
      | |- context [(bind (log_optimization ?a ?b ?c) ?k) ?s] =>
          destruct (shed_round_outbox (catalog_helpers now delay) now
                      (outbox st ++ [(topic_device_control (config st),
                                      command_data now (dev_id device) false)])
                      device devices load_to_reduce
                      (py_add reduced_load (power_rating device)) s)
            as [rest Hrest]; [exists []; simpl; now rewrite app_nil_r|]
      end.
      exists device, rest. split; [left|].
      rewrite Hrest, <- app_assoc. reflexivity.
    + destruct (IH (set_collab (collab st) st) Hload) as (d' & rest & Hd' & Hout).
      * exists d. split; [|exact Hon].
        apply elem_of_cons in Hd as [->|Hd]; [|exact Hd].
        apply bool_decide_eq_false in Eon. contradiction.
      * exists d', rest. split; [now right | exact Hout].
Qed.

(** With the collaborators of the specification, load to reduce and a
    candidate that is on, [optimize_load_balancing] publishes a command
    exactly when the aggregate power is strictly above the product of the
    ceiling and 0.8. *)
Lemma shedding_iff_strictly_above {A : Arith} (now : datetime) (delay : Z)
    (st : EMS Catalog) :
  (0 < py_sub (total_power st) (py_mul (high_usage_alert (config st)) (float (7 # 10))))%Q ->
  (exists d, d ∈ non_essential (collab st) /\ dev_id d ∈ switched_on (collab st)) ->
  outbox (exec (optimize_load_balancing (catalog_helpers now delay) now) st) <> outbox st
  <-> (py_mul (high_usage_alert (config st)) (float (8 # 10)) < total_power st)%Q.
Proof.
  intros Hpos (d & Hd & Hon). split.
  - intros Hne.
    destruct (Qlt_le_dec (py_mul (high_usage_alert (config st)) (float (8 # 10)))
                (total_power st)) as [Hlt|Hle]; [exact Hlt|].
    exfalso. apply Hne. unfold exec.
    now rewrite (load_balancing_idle _ now st Hle).
  - intros Hlt.
    assert (Hload : Qle_bool (py_sub (total_power st)
                                (py_mul (high_usage_alert (config st)) (float (7 # 10))))
                      0 = false).
    { destruct (Qle_bool _ 0) eqn:E; [|reflexivity].
      apply Qle_bool_iff in E. lra. }
    assert (Hd' : d ∈ sort_by_priority_desc (non_essential (collab st)))
      by now rewrite sort_by_priority_desc_perm.
    set (st0 := logged_info "High load detected, initiating load balancing" st).
    destruct (shed_loop_first_on now delay
                (sort_by_priority_desc (non_essential (collab st)))
                _ 0 (set_collab (collab st0) st0) Hload)
      as (d0 & rest & _ & Hout); [exists d; split; [exact Hd' | exact Hon]|].
    apply Qgtb_true in Hlt.
    unfold exec, optimize_load_balancing, try_except, optimize_load_balancing_body.
    unfold bind at 1, get. rewrite Hlt.
    unfold bind at 1, logger at 1, modify. unfold bind at 1, call at 1. simpl.
    unfold exec in Hout. fold st0.
    destruct (shed_loop _ _ _ _ _ _) as [[[]|e] st1]; simpl in *;
      rewrite Hout; intros E;
      apply (f_equal length) in E; rewrite length_app in E; simpl in E; lia.
Qed.

(** C5, as the code has it: the two comparisons of the aggregate power
    that trigger load shedding are strict.  With the aggregate power at or
    below the product of the ceiling and 0.8, as the program computes it,
    [optimize_load_balancing] leaves the state as it is, and strictly
    above it starts shedding; [check_optimization_triggers] calls it only
    when the aggregate power is strictly above the ceiling itself.  This
    holds whatever the rounding of the arithmetic. *)
Theorem shedding_threshold_is_strict {C : Type} {A : Arith} (H : Helpers C) (now : datetime)
    (st : EMS C) :
  ((total_power st <= py_mul (high_usage_alert (config st)) (float (8 # 10)))%Q ->
   optimize_load_balancing H now st = (Returned tt, st)) /\
  ((py_mul (high_usage_alert (config st)) (float (8 # 10)) < total_power st)%Q ->
   log_extends (log st ++ [INFO "High load detected, initiating load balancing"])
     (exec (optimize_load_balancing H now) st)) /\
  ((total_power st <= high_usage_alert (config st))%Q ->
   check_optimization_triggers H now st
   = if is_peak_hour now (config st)
     then optimize_cost_efficiency H now st
     else (Returned tt, st)) /\
  ((high_usage_alert (config st) < total_power st)%Q ->
   check_optimization_triggers H now st
   = (optimize_load_balancing H now ;;
      if is_peak_hour now (config st) then optimize_cost_efficiency H now else ret tt) st).
Proof.
  split; [apply load_balancing_idle|].
  split; [apply load_balancing_starts|].
  split; intros Hc.
  - apply Qgtb_false in Hc.
    unfold check_optimization_triggers, bind at 1, get. rewrite Hc.
    unfold bind, ret. now destruct (is_peak_hour now (config st)).
  - apply Qgtb_true in Hc.
    unfold check_optimization_triggers, bind at 1, get. now rewrite Hc.
Qed.

Lemma shedding_threshold_is_strict_at_1600 :
  optimize_load_balancing (catalog_helpers (at_day 19000 12 0 0) 0) (at_day 19000 12 0 0)
    (loaded_state 2000 1600)
  = (Returned tt, loaded_state 2000 1600).
Proof.
  apply (proj1 (shedding_threshold_is_strict (catalog_helpers (at_day 19000 12 0 0) 0)
                  (at_day 19000 12 0 0) (loaded_state 2000 1600))).
  vm_compute. discriminate.
Defined.

(** C5 fails as stated: with the ceiling at 2000 W and the aggregate power
    at exactly 1600 W, which is [2000 * 0.8] in binary64 as in the
    rationals, nothing is shed, while at 1601 W B and C are; and a reading
    that brings the aggregate power to exactly the ceiling does not make
    [check_optimization_triggers] shed either, while one watt more does. *)
Lemma no_shedding_at_the_threshold :
  let t := at_day 19000 12 0 0 in
  let H := catalog_helpers t 0 in
  (total_power (loaded_state 2000 1600) == py_mul 2000 (float (8 # 10)))%Q /\
  (total_power (loaded_state 2000 1600) == 2000 * (8 # 10))%Q /\
  outbox (exec (optimize_load_balancing H t) (loaded_state 2000 1600)) = [] /\
  outbox (exec (optimize_load_balancing H t) (loaded_state 2000 1601))
  = [ ("energy/control", command_data t "B" false);
      ("energy/control", command_data t "C" false) ] /\
  outbox (deliver_readings H [mk_delivery t (power_reading "meter" t 2000) None]
            (loaded_state 2000 0))
  = [] /\
  outbox (deliver_readings H [mk_delivery t (power_reading "meter" t 2001) None]
            (loaded_state 2000 0))
  = [ ("energy/control", command_data t "B" false);
      ("energy/control", command_data t "C" false);
      ("energy/control", command_data t "A" false) ].
Proof.
  repeat split; vm_compute; reflexivity.
Qed.

(** C2 fails on the code as it stands: the class defines none of
    [get_non_essential_devices], [is_device_on] and
    [schedule_device_restoration].  Whenever the aggregate power is above
    the product of the ceiling and 0.8, as in the scenario,
    [optimize_load_balancing] logs the high load, raises [AttributeError]
    at the first of them, logs the error and returns: it turns nothing
    off and schedules nothing. *)
Theorem load_shedding_raises_attribute_error {A : Arith} (now : datetime) (st : EMS unit) :
  (py_mul (high_usage_alert (config st)) (float (8 # 10)) < total_power st)%Q ->
  optimize_load_balancing missing_helpers now st
  = (Returned tt,
     logged_error "Load balancing optimization error: "
       (attribute_error "get_non_essential_devices")
       (logged_info "High load detected, initiating load balancing" st))
  /\ outbox (exec (optimize_load_balancing missing_helpers now) st) = outbox st.
Proof.
  intros Hlt. apply Qgtb_true in Hlt.
  assert (E : optimize_load_balancing missing_helpers now st
              = (Returned tt,
                 logged_error "Load balancing optimization error: "
                   (attribute_error "get_non_essential_devices")
                   (logged_info "High load detected, initiating load balancing" st))).
  { unfold optimize_load_balancing, try_except, optimize_load_balancing_body.
    unfold bind at 1, get. rewrite Hlt. now destruct st as [? ? ? ? ? ? ? ? ? ? ? ? []]. }
  split; [exact E|]. unfold exec. now rewrite E.
Qed.

Lemma load_shedding_raises_attribute_error_scenario :
  let run := optimize_load_balancing missing_helpers (at_day 19000 12 0 0)
               scenario_as_it_stands in
  (total_power scenario_as_it_stands == 1000)%Q /\
  high_usage_alert (config scenario_as_it_stands) = 1000%Q /\
  fst run = Returned tt /\
  outbox (snd run) = [] /\
  log (snd run)
  = [ INFO "High load detected, initiating load balancing";
      ERROR ("Load balancing optimization error: "
             +:+ "'EnergyManagementSystem' object has no attribute 'get_non_essential_devices'") ].
Proof.
  destruct (load_shedding_raises_attribute_error (at_day 19000 12 0 0)
              scenario_as_it_stands) as [E _]; [vm_compute; reflexivity|].
  rewrite E. repeat split.
Defined.

(** The product is the one the program computes: with the ceiling at 3 the
    product with 0.8 is the float [2.4000000000000004], not 2.4, and an
    aggregate power of exactly that float sheds nothing. *)
Lemma no_shedding_at_the_computed_product :
  let t := at_day 19000 12 0 0 in
  let power := 1351079888211149 # 562949953421312 in
  (py_mul 3 (float (8 # 10)) == power)%Q /\
  (3 * (8 # 10) < power)%Q /\
  optimize_load_balancing (catalog_helpers t 0) t (loaded_state 3 power)
  = (Returned tt, loaded_state 3 power).
Proof.
  repeat split; vm_compute; reflexivity.
Qed.

(** With the three methods as the specification describes them, the rule
    does in the scenario what the specification expects.  Whatever the
    order in which the catalog lists the candidates A, B and C (or only B
    and C, A being essential), [optimize_load_balancing] returns having
    turned off B, then C, and nothing else, with a restore scheduled 30
    minutes from now for each of the two; A is not commanded. *)
Lemma load_shedding_scenario (candidates : list Device) (now : datetime) (delay : Z) :
  candidates ≡ₚ [entity_A; entity_B; entity_C] \/ candidates ≡ₚ [entity_B; entity_C] ->
  let st := shedding_scenario candidates in
  let run := optimize_load_balancing (catalog_helpers now delay) now st in
  (total_power st == 1000)%Q /\
  high_usage_alert (config st) = 1000%Q /\
  fst run = Returned tt /\
  outbox (snd run)
  = [ ("energy/control", command_data now "B" false);
      ("energy/control", command_data now "C" false) ] /\
  map (fun p => (field "device_id" (snd p), field "command" (snd p))) (outbox (snd run))
  = [ (Some (JStr "B"), Some (JStr "off")); (Some (JStr "C"), Some (JStr "off")) ] /\
  scheduled (collab (snd run))
  = [ mk_task "B" (plus_minutes now 30); mk_task "C" (plus_minutes now 30) ] /\
  count_commands "energy/control" "A" "off" (outbox (snd run)) = 0%nat.
Proof.
  intros [Hp|Hp]; symmetry in Hp; apply permutations_Permutation in Hp;
    vm_compute in Hp;
    repeat (apply elem_of_cons in Hp; destruct Hp as [->|Hp]; [repeat split|]);
    inversion Hp.
Qed.

Lemma load_shedding_scenario_as_listed :
  let run := optimize_load_balancing (catalog_helpers (at_day 19000 12 0 0) 0)
               (at_day 19000 12 0 0)
               (shedding_scenario [entity_A; entity_B; entity_C]) in
  outbox (snd run)
  = [ ("energy/control", command_data (at_day 19000 12 0 0) "B" false);
      ("energy/control", command_data (at_day 19000 12 0 0) "C" false) ] /\
  scheduled (collab (snd run))
  = [ mk_task "B" (at_day 19000 12 30 0); mk_task "C" (at_day 19000 12 30 0) ].
Proof.
  destruct (load_shedding_scenario [entity_A; entity_B; entity_C] (at_day 19000 12 0 0) 0)
    as (_ & _ & _ & Hout & _ & Hsched & _).
  - left. reflexivity.
  - split; [exact Hout | exact Hsched].
Defined.

(** ** Failure isolation in the optimization cycle *)

(** A [try] block whose handler only logs always returns; when the block
    raises, what it did until then stays and one error record is added. *)
Lemma try_logged_returns {C : Type} (body : M (EMS C) unit) (prefix : string)
    (st : EMS C) :
  fst (try_except body (fun e => logger (ERROR (prefix +:+ exn_msg e))) st) = Returned tt.
Proof.
  unfold try_except. destruct (body st) as [[[]|e] st']; reflexivity.
Qed.

Lemma try_logged_raised {C : Type} (body : M (EMS C) unit) (prefix : string)
    (st st1 : EMS C) (e : exn) :
  body st = (Raised e, st1) ->
  try_except body (fun e => logger (ERROR (prefix +:+ exn_msg e))) st
  = (Returned tt, logged_error prefix e st1).
Proof.
  intros E. unfold try_except. now rewrite E.
Qed.

Lemma try_logged_returned {C : Type} (body : M (EMS C) unit) (prefix : string)
    (st st1 : EMS C) :
  body st = (Returned tt, st1) ->
  try_except body (fun e => logger (ERROR (prefix +:+ exn_msg e))) st
  = (Returned tt, st1).
Proof.
  intros E. unfold try_except. now rewrite E.
Qed.

(** A computation that returns is the pair of [tt] and its final state. *)
Lemma returns_exec {S : Type} (c : M S unit) (s : S) :
  fst (c s) = Returned tt -> c s = (Returned tt, exec c s).
Proof.
  unfold exec. destruct (c s) as [r s']. simpl. now intros ->.
Qed.

(** C8: [run_optimization_cycle] never raises.  With automatic
    optimization on, its final state is that of the three rules run one
    after the other, each from the state its predecessor left, whether
    that one failed or not; and a rule whose body raises returns normally,
    keeping what the body had done and adding one error record to the
    log. *)
Theorem rule_failure_is_isolated {C : Type} {A : Arith} (H : Helpers C) (now : datetime) (st : EMS C) :
  fst (run_optimization_cycle H now st) = Returned tt /\
  (auto_optimization_enabled st = true ->
   exec (run_optimization_cycle H now) st
   = logged_info "Optimization cycle completed"
       (exec (smart_scheduling H now)
          (exec (optimize_cost_efficiency H now)
             (exec (optimize_load_balancing H now)
                (logged_info "Starting optimization cycle" st))))) /\
  (forall s e s1,
     optimize_load_balancing_body H now s = (Raised e, s1) ->
     optimize_load_balancing H now s
     = (Returned tt, logged_error "Load balancing optimization error: " e s1)) /\
  (forall s e s1,
     optimize_cost_efficiency_body H now s = (Raised e, s1) ->
     optimize_cost_efficiency H now s
     = (Returned tt, logged_error "Cost efficiency optimization error: " e s1)) /\
  (forall s e s1,
     smart_scheduling_body H now s = (Raised e, s1) ->
     smart_scheduling H now s
     = (Returned tt, logged_error "Smart scheduling error: " e s1)).
Proof.
  split; [apply try_logged_returns|].
  split; [|repeat split; intros s e s1 E; now apply try_logged_raised].
  intros Hauto.
  unfold exec at 1, run_optimization_cycle, try_except, run_optimization_cycle_body.
  unfold bind at 1, logger at 1, modify. unfold bind at 1, get. simpl.
  rewrite Hauto.
  set (s0 := logged_info "Starting optimization cycle" st).
  change (set_log (fun l => l ++ [INFO "Starting optimization cycle"]) st) with s0.
  unfold bind.
  rewrite (returns_exec (optimize_load_balancing H now) s0)
    by apply try_logged_returns.
  rewrite (returns_exec (optimize_cost_efficiency H now))
    by apply try_logged_returns.
  rewrite (returns_exec (smart_scheduling H now))
    by apply try_logged_returns.
  reflexivity.
Qed.

Lemma rule_failure_is_isolated_evening :
  let t := at_day 19000 19 0 0 in
  let st' := exec (run_optimization_cycle (helpers_without_candidates t 180) t)
               evening_state in
  In (ERROR ("Load balancing optimization error: "
             +:+ "'EnergyManagementSystem' object has no attribute 'get_non_essential_devices'"))
     (log st') /\
  outbox st' = [ ("energy/control", command_data t "washing_machine" false) ] /\
  scheduled (collab st') = [ mk_task "washing_machine" (at_day 19000 22 0 0) ].
Proof.
  intros t st'. unfold st'.
  rewrite (proj1 (proj2 (rule_failure_is_isolated (helpers_without_candidates t 180) t
                           evening_state)) eq_refl).
  vm_compute. repeat split. right. right. left. reflexivity.
Defined.

(** ** The occupancy rule *)

Lemma count_commands_app (topic device_id command : string)
    (l1 l2 : list (string * Message)) :
  count_commands topic device_id command (l1 ++ l2)
  = (count_commands topic device_id command l1
     + count_commands topic device_id command l2)%nat.
Proof.
  unfold count_commands. now rewrite List.filter_app, length_app.
Qed.

Lemma count_commands_command_data (topic device_id : string) (now : datetime)
    (device_id' : string) :
  count_commands topic device_id "off" [(topic, command_data now device_id' false)]
  = if String.eqb device_id' device_id then 1%nat else 0%nat.
Proof.
  unfold count_commands. simpl. rewrite String.eqb_refl.
  unfold is_command. simpl.
  destruct (String.eqb device_id' device_id); reflexivity.
Qed.

(** A device whose name does not end in ["_light"] is not the light. *)
Lemma not_the_light (device_id light_id : string) :
  endswith light_id "_light" = true ->
  endswith device_id "_light" = false ->
  String.eqb device_id light_id = false.
Proof.
  intros Hl Hd. destruct (String.eqb_spec device_id light_id) as [->|]; congruence.
Qed.

Section OccupancyRule.
Context {C : Type}.
Variable now : datetime.
Variable cfg : Config.
Variable light_id : string.
Hypothesis light_name : endswith light_id "_light" = true.
Hypothesis off_peak : is_peak_hour now cfg = false.

(** In an empty room, outside the peak hours, the rule for one device
    returns, keeps the configuration, and commands the light off once if
    the device is the light, not at all otherwise. *)
Lemma occupancy_rule_empty_room (occupancy : option Occupancy) (device : Device)
    (st : EMS C) :
  let r := occupancy_rule now occupancy false cfg device st in
  fst r = Returned tt /\
  config (snd r) = config st /\
  count_commands (topic_device_control (config st)) light_id "off" (outbox (snd r))
  = (count_commands (topic_device_control (config st)) light_id "off" (outbox st)
     + if String.eqb (dev_id device) light_id then 1 else 0)%nat.
Proof.
  unfold occupancy_rule. rewrite off_peak. simpl.
  destruct (endswith (dev_id device) "_light") eqn:El.
  - unfold bind. rewrite control_device_eq. simpl.
    repeat split.
    now rewrite count_commands_app, count_commands_command_data.
  - rewrite (not_the_light _ _ light_name El), Nat.add_0_r.
    destruct (endswith (dev_id device) "_fan"); [|now repeat split].
    destruct (600 <? timedelta_seconds now (from_option o_timestamp now occupancy));
      [|now repeat split].
    unfold bind. rewrite control_device_eq. simpl.
    repeat split.
    rewrite count_commands_app, count_commands_command_data.
    now rewrite (not_the_light _ _ light_name El), Nat.add_0_r.
Qed.

Lemma for_each_occupancy_rule (occupancy : option Occupancy) (devices : list Device)
    (st : EMS C) :
  let r := for_each devices (occupancy_rule now occupancy false cfg) st in
  fst r = Returned tt /\
  config (snd r) = config st /\
  count_commands (topic_device_control (config st)) light_id "off" (outbox (snd r))
  = (count_commands (topic_device_control (config st)) light_id "off" (outbox st)
     + length (List.filter (fun d => String.eqb (dev_id d) light_id) devices))%nat.
Proof.
  revert st. induction devices as [|device devices IH]; intros st; simpl.
  - repeat split. now rewrite Nat.add_0_r.
  - destruct (occupancy_rule_empty_room occupancy device st) as (Hr & Hc & Hn).
    unfold bind.
    destruct (occupancy_rule now occupancy false cfg device st) as [r st1].
    simpl in Hr, Hc, Hn. subst r.
    destruct (IH st1) as (Hr' & Hc' & Hn'). rewrite Hc in Hc', Hn'.
    repeat split; [exact Hr' | exact Hc' |].
    rewrite Hn', Hn.
    destruct (String.eqb (dev_id device) light_id); simpl; lia.
Qed.

End OccupancyRule.

(** One occupancy message that reports the room empty, outside the peak
    hours: when its row is stored, every entry of the room under the
    light's name is commanded off; when the INSERT raises, nothing is
    published. *)
Lemma process_occupancy_data_empty_room {C : Type} (now : datetime)
    (data : OccupancyData) (insert_error : option exn) (light_id : string) (st : EMS C) :
  endswith light_id "_light" = true ->
  reports_empty data = true ->
  is_peak_hour now (config st) = false ->
  let st' := exec (process_occupancy_data now data insert_error) st in
  config st' = config st /\
  count_commands (topic_device_control (config st)) light_id "off" (outbox st')
  = (count_commands (topic_device_control (config st)) light_id "off" (outbox st)
     + match insert_error with
       | None => length (List.filter (fun d => String.eqb (dev_id d) light_id)
                           (get_devices_in_room (config st) (od_room data)))
       | Some _ => 0
       end)%nat.
Proof.
  intros Hl He Hp. unfold reports_empty in He.
  apply andb_true_iff in He as [Hm Hc].
  apply negb_true_iff in Hm. apply negb_true_iff in Hc.
  destruct insert_error as [e|]; [simpl; split; [reflexivity | lia]|].
  cbv [exec process_occupancy_data optimize_based_on_occupancy try_except bind
       modify get execute_insert].
  simpl. rewrite lookup_insert_eq. unfold is_occupied_of. simpl. rewrite Hm, Hc. simpl.
  match goal with
  | |- context [for_each ?l (occupancy_rule now ?o false ?c) ?s] =>
      destruct (for_each_occupancy_rule now c light_id Hl Hp o l s) as (Hr & Hcfg & Hn);
      destruct (for_each l (occupancy_rule now o false c) s) as [r st1]
  end.
  simpl in Hr, Hcfg, Hn. subst r. simpl. split; [exact Hcfg | exact Hn].
Qed.

(** C3, as the code has it: the occupancy rule keeps no cooldown.  Each
    message that reports the room empty outside the peak hours and whose
    row is stored commands off every light of the room, however soon it
    comes after the one before: [n] such messages make [n] commands for
    each entry of the light in the room.  A message whose INSERT raises
    does not reach the rule and publishes nothing. *)
Theorem occupancy_rule_fires_on_every_event {C : Type} (room : option string)
    (light_id : string) (events : list (Delivery OccupancyData)) (st : EMS C) :
  endswith light_id "_light" = true ->
  Forall (fun ev => od_room (payload ev) = room /\
                    reports_empty (payload ev) = true /\
                    is_peak_hour (arrival ev) (config st) = false) events ->
  count_commands (topic_device_control (config st)) light_id "off"
    (outbox (deliver_occupancy events st))
  = (count_commands (topic_device_control (config st)) light_id "off" (outbox st)
     + length (List.filter stored events)
       * length (List.filter (fun d => String.eqb (dev_id d) light_id)
                   (get_devices_in_room (config st) room)))%nat.
Proof.
  intros Hl. revert st.
  induction events as [|[now data insert_error] events IH]; intros st Hev.
  - simpl. lia.
  - apply Forall_cons in Hev as [(Hroom & Hempty & Hpeak) Hev]. simpl in *.
    destruct (process_occupancy_data_empty_room now data insert_error light_id st
                Hl Hempty Hpeak) as [Hcfg Hn].
    unfold deliver_occupancy in *. simpl.
    specialize (IH (exec (process_occupancy_data now data insert_error) st)).
    rewrite Hcfg in IH. rewrite IH by exact Hev.
    rewrite Hn, Hroom.
    destruct insert_error as [e|]; unfold stored at 2; simpl; lia.
Qed.

Lemma occupancy_rule_fires_on_every_event_hall :
  count_commands "energy/control" "hall_light" "off"
    (outbox (deliver_occupancy
               [ mk_delivery (at_day 19000 12 0 0) (room_empty "hall") None;
                 mk_delivery (at_day 19000 12 0 1) (room_empty "hall")
                   (Some (Exception "database is locked"));
                 mk_delivery (at_day 19000 12 0 2) (room_empty "hall") None ]
               (initial default_config tt)))
  = 2%nat.
Proof.
  apply (occupancy_rule_fires_on_every_event (Some "hall") "hall_light"
           [ mk_delivery (at_day 19000 12 0 0) (room_empty "hall") None;
             mk_delivery (at_day 19000 12 0 1) (room_empty "hall")
               (Some (Exception "database is locked"));
             mk_delivery (at_day 19000 12 0 2) (room_empty "hall") None ]
           (initial default_config tt)).
  - reflexivity.
  - repeat constructor.
Defined.

(** C3 fails as stated: two qualifying events for the hall one second
    apart, far less than the five minutes of the cooldown, turn the hall
    light off twice. *)
Lemma occupancy_rule_fires_twice_within_cooldown :
  let st := deliver_occupancy
              [ mk_delivery (at_day 19000 12 0 0) (room_empty "hall") None;
                mk_delivery (at_day 19000 12 0 1) (room_empty "hall") None ]
              (initial default_config tt) in
  published_on "energy/control" (outbox st)
  = [ command_data (at_day 19000 12 0 0) "hall_light" false;
      command_data (at_day 19000 12 0 1) "hall_light" false ]
  /\ count_commands "energy/control" "hall_light" "off" (outbox st) <> 1%nat.
Proof.
  split; [reflexivity | discriminate].
Qed.

(** ** The snapshot of current readings *)

Create HintDb snapshot_db.

Ltac snapshot_leaf :=
  idtac;
  match goal with
  | H : snapshot_is _ _ |- snapshot_is _ _ => exact H
  end.

Ltac snapshot_auto :=
  repeat first [ preserves_step snapshot_leaf | solve [auto with snapshot_db] ].

Section SnapshotFrame.
Context {C : Type} {A : Arith}.
Variable H : Helpers C.
Variable now : datetime.
Variable m : gmap (option string) Reading.

Lemma control_device_snapshot (device_id : string) (state : bool) :
  preserves (snapshot_is (C:=C) m) (control_device now device_id state).
Proof. unfold control_device. snapshot_auto. Qed.
Hint Resolve control_device_snapshot : snapshot_db.

Lemma log_optimization_snapshot (a b c : string) :
  preserves (snapshot_is (C:=C) m) (log_optimization a b c).
Proof. unfold log_optimization. snapshot_auto. Qed.
Hint Resolve log_optimization_snapshot : snapshot_db.

Lemma handle_energy_anomaly_snapshot (device_id : option string) (p score : Q) :
  preserves (snapshot_is m) (handle_energy_anomaly H now device_id p score).
Proof. unfold handle_energy_anomaly. snapshot_auto. Qed.
Hint Resolve handle_energy_anomaly_snapshot : snapshot_db.

Lemma detect_energy_anomalies_snapshot (device_id : option string) (p : Q) :
  preserves (snapshot_is m) (detect_energy_anomalies H now device_id p).
Proof. unfold detect_energy_anomalies. snapshot_auto. Qed.
Hint Resolve detect_energy_anomalies_snapshot : snapshot_db.

Lemma shed_loop_snapshot (devices : list Device) (load_to_reduce reduced_load : Q) :
  preserves (snapshot_is m) (shed_loop H now devices load_to_reduce reduced_load).
Proof.
  revert reduced_load. induction devices as [|device rest IH]; intros reduced_load; simpl.
  - apply preserves_ret.
  - snapshot_auto; apply IH.
Qed.
Hint Resolve shed_loop_snapshot : snapshot_db.

Lemma optimize_load_balancing_snapshot :
  preserves (snapshot_is m) (optimize_load_balancing H now).
Proof. unfold optimize_load_balancing, optimize_load_balancing_body. snapshot_auto. Qed.
Hint Resolve optimize_load_balancing_snapshot : snapshot_db.

Lemma optimize_cost_efficiency_snapshot :
  preserves (snapshot_is m) (optimize_cost_efficiency H now).
Proof. unfold optimize_cost_efficiency, optimize_cost_efficiency_body. snapshot_auto. Qed.
Hint Resolve optimize_cost_efficiency_snapshot : snapshot_db.

Lemma check_optimization_triggers_snapshot :
  preserves (snapshot_is m) (check_optimization_triggers H now).
Proof. unfold check_optimization_triggers. snapshot_auto. Qed.

End SnapshotFrame.

(** [process_energy_reading] stores the reading under its device, whatever
    its timestamp and whatever is stored there, unless the INSERT of its
    row raises: then the snapshot stays as it is. *)
Lemma process_energy_reading_overwrites {C : Type} {A : Arith} (H : Helpers C)
    (now : datetime) (data : EnergyData) (insert_error : option exn) (st : EMS C) :
  current_readings (exec (process_energy_reading H now data insert_error) st)
  = match insert_error with
    | None => <[d_device_id data := reading_of now data]> (current_readings st)
    | Some _ => current_readings st
    end.
Proof.
  destruct insert_error as [e|]; [reflexivity|].
  set (m := <[d_device_id data := reading_of now data]> (current_readings st)).
  assert (Hpre : preserves (snapshot_is m)
            (try_except
               (detect_energy_anomalies H now (d_device_id data)
                  (default 0%Q (d_power_consumption data)) ;;
                st <- get ;;
                if auto_optimization_enabled st
                then check_optimization_triggers H now else ret tt)
               (fun e => logger (ERROR ("Error processing energy reading: "
                                        +:+ exn_msg e))))).
  { snapshot_auto.
    - apply detect_energy_anomalies_snapshot.
    - apply check_optimization_triggers_snapshot. }
  exact (Hpre (reading_stored now data st) eq_refl).
Qed.

Lemma deliver_readings_snapshot {C : Type} {A : Arith} (H : Helpers C)
    (msgs : list (Delivery EnergyData)) (st : EMS C) :
  current_readings (deliver_readings H msgs st)
  = overwrite_all msgs (current_readings st).
Proof.
  revert st. induction msgs as [|[now data insert_error] msgs IH]; intros st;
    [reflexivity|].
  unfold deliver_readings, overwrite_all in *. simpl.
  rewrite IH, process_energy_reading_overwrites.
  unfold stored. simpl. now destruct insert_error.
Qed.

(** Sorting readings that are already in timestamp order changes
    nothing. *)
Lemma sort_by_timestamp_in_order (msgs : list (Delivery EnergyData)) :
  in_timestamp_order msgs = true -> sort_by_timestamp msgs = msgs.
Proof.
  induction msgs as [|msg msgs IH]; [reflexivity|].
  intros Hord. unfold sort_by_timestamp in *. simpl in *.
  destruct msgs as [|msg' msgs]; [reflexivity|].
  apply andb_true_iff in Hord as [Hle Hord].
  rewrite (IH Hord). simpl. now rewrite Hle.
Qed.

Lemma insert_by_timestamp_perm (msg : Delivery EnergyData)
    (l : list (Delivery EnergyData)) :
  insert_by_timestamp msg l ≡ₚ msg :: l.
Proof.
  induction l as [|msg' l IH]; simpl; [reflexivity|].
  destruct (timestamp_of msg <=? timestamp_of msg'); [reflexivity|].
  rewrite IH. apply Permutation_swap.
Qed.

Lemma sort_by_timestamp_perm (l : list (Delivery EnergyData)) :
  sort_by_timestamp l ≡ₚ l.
Proof.
  induction l as [|msg l IH]; [reflexivity|].
  unfold sort_by_timestamp in *. simpl.
  now rewrite insert_by_timestamp_perm, IH.
Qed.

(** Moving a reading back to its place by timestamp does not change the
    snapshot when the stored readings it passes belong to other devices. *)
Lemma overwrite_all_insert (msg : Delivery EnergyData)
    (l : list (Delivery EnergyData)) (m : gmap (option string) Reading) :
  Forall (fun msg' => stored msg = true -> stored msg' = true ->
                      d_device_id (payload msg') = d_device_id (payload msg) ->
                      timestamp_of msg <= timestamp_of msg') l ->
  overwrite_all (insert_by_timestamp msg l) m = overwrite_all (msg :: l) m.
Proof.
  revert m. induction l as [|msg' l IH]; intros m Hl; [reflexivity|].
  apply Forall_cons in Hl as [Hhd Hl]. simpl.
  destruct (Z.leb_spec (timestamp_of msg) (timestamp_of msg')) as [Hle|Hgt];
    [reflexivity|].
  unfold overwrite_all in *. simpl. rewrite (IH _ Hl). simpl.
  f_equal.
  destruct (stored msg) eqn:Es, (stored msg') eqn:Es'; try reflexivity.
  assert (Hne : d_device_id (payload msg') <> d_device_id (payload msg))
    by (intros E; specialize (Hhd eq_refl eq_refl E); lia).
  now apply insert_insert_ne.
Qed.

Lemma overwrite_all_sort (l : list (Delivery EnergyData))
    (m : gmap (option string) Reading) :
  per_device_in_order l ->
  overwrite_all (sort_by_timestamp l) m = overwrite_all l m.
Proof.
  revert m. induction l as [|msg l IH]; intros m Hl; [reflexivity|].
  destruct Hl as [Hhd Hl].
  change (sort_by_timestamp (msg :: l))
    with (insert_by_timestamp msg (sort_by_timestamp l)).
  rewrite overwrite_all_insert.
  - unfold overwrite_all in *. simpl. now apply IH.
  - now rewrite sort_by_timestamp_perm.
Qed.

(** Readings that arrive in timestamp order arrive in order for each
    device. *)
Lemma in_timestamp_order_later (msg : Delivery EnergyData)
    (l : list (Delivery EnergyData)) :
  in_timestamp_order (msg :: l) = true ->
  Forall (fun msg' => timestamp_of msg <= timestamp_of msg') l.
Proof.
  revert msg. induction l as [|msg' l IH]; intros msg Hord; [constructor|].
  simpl in Hord. apply andb_true_iff in Hord as [Hle Hord].
  apply Z.leb_le in Hle. constructor; [exact Hle|].
  specialize (IH msg' Hord). eapply Forall_impl; [exact IH|].
  simpl. intros; lia.
Qed.

Lemma in_timestamp_order_per_device (l : list (Delivery EnergyData)) :
  in_timestamp_order l = true -> per_device_in_order l.
Proof.
  induction l as [|msg l IH]; intros Hord; [exact I|].
  split.
  - eapply Forall_impl; [exact (in_timestamp_order_later msg l Hord)|].
    simpl. intros; assumption.
  - apply IH. simpl in Hord. destruct l as [|msg' l]; [reflexivity|].
    now apply andb_true_iff in Hord as [_ Hord].
Qed.




(** * Further properties of the code *)

(** ** What the rules leave alone *)

Create HintDb frame_db.

Ltac frame_leaf :=
  idtac;
  match goal with
  | Hs : rule_stable ?P, H : ?P ?s |- ?P _ =>
      first [ apply (proj1 (Hs s H))
            | apply (proj1 (proj2 (Hs s H)))
            | apply (proj1 (proj2 (proj2 (Hs s H))))
            | apply (proj2 (proj2 (proj2 (Hs s H)))) ]
  end.

Ltac frame_auto :=
  repeat first [ preserves_step frame_leaf | solve [auto with frame_db] ].

Section Frame.
Context {C : Type} {A : Arith}.
Variable H : Helpers C.
Variable now : datetime.
Variable P : EMS C -> Prop.
Hypothesis stable : rule_stable P.

Lemma control_device_frame (device_id : string) (state : bool) :
  preserves P (control_device now device_id state).
Proof using stable. unfold control_device. frame_auto. Qed.
Hint Resolve control_device_frame : frame_db.

Lemma log_optimization_frame (a b c : string) :
  preserves P (log_optimization a b c).
Proof using stable. unfold log_optimization. frame_auto. Qed.
Hint Resolve log_optimization_frame : frame_db.

Lemma handle_energy_anomaly_frame (device_id : option string) (p score : Q) :
  preserves P (handle_energy_anomaly H now device_id p score).
Proof using stable. unfold handle_energy_anomaly. frame_auto. Qed.
Hint Resolve handle_energy_anomaly_frame : frame_db.

Lemma detect_energy_anomalies_frame (device_id : option string) (p : Q) :
  preserves P (detect_energy_anomalies H now device_id p).
Proof using stable. unfold detect_energy_anomalies. frame_auto. Qed.
Hint Resolve detect_energy_anomalies_frame : frame_db.

Lemma shed_loop_frame (devices : list Device) (load_to_reduce reduced_load : Q) :
  preserves P (shed_loop H now devices load_to_reduce reduced_load).
Proof using stable.
  revert reduced_load. induction devices as [|device rest IH]; intros reduced_load; simpl.
  - apply preserves_ret.
  - frame_auto; apply IH.
Qed.
Hint Resolve shed_loop_frame : frame_db.

Lemma optimize_load_balancing_frame :
  preserves P (optimize_load_balancing H now).
Proof using stable.
  unfold optimize_load_balancing, optimize_load_balancing_body. frame_auto.
Qed.
Hint Resolve optimize_load_balancing_frame : frame_db.

Lemma optimize_cost_efficiency_frame :
  preserves P (optimize_cost_efficiency H now).
Proof using stable.
  unfold optimize_cost_efficiency, optimize_cost_efficiency_body. frame_auto.
Qed.
Hint Resolve optimize_cost_efficiency_frame : frame_db.

Lemma find_optimal_time_slot_frame (predictions : list (datetime * Q)) (p : Q) (d : nat) :
  preserves P (find_optimal_time_slot now predictions p d).
Proof using stable. unfold find_optimal_time_slot. frame_auto. Qed.
Hint Resolve find_optimal_time_slot_frame : frame_db.

Lemma predict_energy_consumption_frame (n : nat) :
  preserves P (predict_energy_consumption H n).
Proof using stable. unfold predict_energy_consumption. frame_auto. Qed.
Hint Resolve predict_energy_consumption_frame : frame_db.

Lemma smart_scheduling_frame :
  preserves P (smart_scheduling H now).
Proof using stable. unfold smart_scheduling, smart_scheduling_body. frame_auto. Qed.
Hint Resolve smart_scheduling_frame : frame_db.

Lemma check_optimization_triggers_frame :
  preserves P (check_optimization_triggers H now).
Proof using stable. unfold check_optimization_triggers. frame_auto. Qed.
Hint Resolve check_optimization_triggers_frame : frame_db.

Lemma run_optimization_cycle_frame :
  preserves P (run_optimization_cycle H now).
Proof using stable.
  unfold run_optimization_cycle, run_optimization_cycle_body. frame_auto.
Qed.

Lemma occupancy_rule_frame (o : option Occupancy) (b : bool) (cfg : Config) (device : Device) :
  preserves P (occupancy_rule now o b cfg device).
Proof using stable. unfold occupancy_rule. frame_auto. Qed.
Hint Resolve occupancy_rule_frame : frame_db.

Lemma optimize_based_on_occupancy_frame (room : option string) :
  preserves P (optimize_based_on_occupancy now room).
Proof using stable. unfold optimize_based_on_occupancy. frame_auto. Qed.

(** What [process_energy_reading] does after its three stores. *)
Lemma after_the_stores_frame (data : EnergyData) :
  preserves P
    (try_except
       (detect_energy_anomalies H now (d_device_id data)
          (default 0%Q (d_power_consumption data)) ;;
        st <- get ;;
        if auto_optimization_enabled st
        then check_optimization_triggers H now else ret tt)
       (fun e => logger (ERROR ("Error processing energy reading: " +:+ exn_msg e)))).
Proof using stable. frame_auto. Qed.

End Frame.

(** What the rules do not write is, after [process_energy_reading], as the
    three stores left it, or as it was when the INSERT raised. *)
Lemma process_energy_reading_stores {C : Type} {A : Arith} (H : Helpers C) (now : datetime)
    (data : EnergyData) (insert_error : option exn) (st : EMS C) (P : EMS C -> Prop) :
  rule_stable P ->
  P (match insert_error with
     | None => reading_stored now data st
     | Some _ => st
     end) ->
  P (exec (process_energy_reading H now data insert_error) st).
Proof.
  intros Hs HP. destruct insert_error as [e|].
  - exact (proj1 (proj2 (Hs st HP)) _).
  - exact (after_the_stores_frame H now P Hs data _ HP).
Qed.

(** ** The history and the table of readings *)

(** Appending to a deque that holds the last [n] elements of [a] gives
    the last [n] elements of [a] with the new element. *)
Lemma deque_append_last {A : Type} (n : nat) (x : A) (a : list A) :
  deque_append n x (drop (length a - n) a)
  = drop (length (a ++ [x]) - n) (a ++ [x]).
Proof.
  unfold deque_append. rewrite !length_app, length_drop. simpl.
  destruct (Nat.le_gt_cases n (length a)) as [Hle|Hgt].
  - replace (length a - (length a - n) + 1 - n)%nat with 1%nat by lia.
    replace (length a + 1 - n)%nat with (length a - n + 1)%nat by lia.
    rewrite <- drop_drop. f_equal.
    rewrite drop_app_le by lia. reflexivity.
  - replace (length a - n)%nat with 0%nat by lia. simpl.
    f_equal. lia.
Qed.

Lemma process_energy_reading_history {C : Type} {A : Arith} (H : Helpers C)
    (msg : Delivery EnergyData) (st : EMS C) :
  consumption_history
    (exec (process_energy_reading H (arrival msg) (payload msg) (insert_raises msg)) st)
  = if stored msg
    then deque_append 1000 (history_entry_of msg) (consumption_history st)
    else consumption_history st.
Proof.
  apply (process_energy_reading_stores H (arrival msg) (payload msg) (insert_raises msg) st
           (fun s => consumption_history s
                     = if stored msg
                       then deque_append 1000 (history_entry_of msg)
                              (consumption_history st)
                       else consumption_history st)).
  - intros s Hs. repeat split; intros; exact Hs.
  - unfold stored. now destruct (insert_raises msg).
Qed.

Lemma process_energy_reading_rows {C : Type} {A : Arith} (H : Helpers C)
    (msg : Delivery EnergyData) (st : EMS C) :
  energy_readings
    (exec (process_energy_reading H (arrival msg) (payload msg) (insert_raises msg)) st)
  = if stored msg
    then energy_readings st ++ [energy_row_of msg]
    else energy_readings st.
Proof.
  apply (process_energy_reading_stores H (arrival msg) (payload msg) (insert_raises msg) st
           (fun s => energy_readings s
                     = if stored msg
                       then energy_readings st ++ [energy_row_of msg]
                       else energy_readings st)).
  - intros s Hs. repeat split; intros; exact Hs.
  - unfold stored. now destruct (insert_raises msg).
Qed.

(** X1: the history is a sliding window.  Starting from the last 1000
    entries of what was recorded before, after any readings it holds the
    last 1000 entries of what was recorded before followed by one entry
    per reading whose row was stored, in arrival order; a reading whose
    INSERT raises leaves no entry; it never holds more than 1000. *)
Theorem history_is_sliding_window {C : Type} {A : Arith} (H : Helpers C)
    (msgs : list (Delivery EnergyData)) (recorded : list HistoryEntry) (st : EMS C) :
  consumption_history st = drop (length recorded - 1000) recorded ->
  let all := recorded ++ map history_entry_of (List.filter stored msgs) in
  consumption_history (deliver_readings H msgs st) = drop (length all - 1000) all /\
  (length (consumption_history (deliver_readings H msgs st)) <= 1000)%nat.
Proof.
  intros Hst all.
  assert (E : consumption_history (deliver_readings H msgs st)
              = drop (length all - 1000) all).
  { unfold all. clear all. revert recorded st Hst.
    induction msgs as [|msg msgs IH]; intros recorded st Hst.
    - simpl. now rewrite app_nil_r.
    - unfold deliver_readings in *. cbn [foldl List.filter].
      destruct (stored msg) eqn:Es.
      + rewrite (IH (recorded ++ [history_entry_of msg])).
        * cbn [map]. now rewrite <- app_assoc.
        * rewrite process_energy_reading_history, Es, Hst. apply deque_append_last.
      + apply IH. now rewrite process_energy_reading_history, Es. }
  split; [exact E|]. rewrite E, length_drop. lia.
Qed.

Lemma history_is_sliding_window_fresh :
  let t := at_day 19000 12 0 0 in
  consumption_history
    (deliver_readings missing_helpers
       [ mk_delivery t (power_reading "hall_light" t 60) None;
         mk_delivery t (power_reading "meter" t 9223372036854775808)
           (Some (Exception "Python int too large to convert to SQLite INTEGER"));
         mk_delivery t (power_reading "hall_fan" t 75) None ]
       (initial default_config tt))
  = [ mk_history t (Some "hall_light") 60; mk_history t (Some "hall_fan") 75 ].
Proof.
  intros t.
  apply (proj1 (history_is_sliding_window missing_helpers
                  [ mk_delivery t (power_reading "hall_light" t 60) None;
                    mk_delivery t (power_reading "meter" t 9223372036854775808)
                      (Some (Exception "Python int too large to convert to SQLite INTEGER"));
                    mk_delivery t (power_reading "hall_fan" t 75) None ]
                  [] (initial default_config tt) eq_refl)).
Defined.


(** ** The aggregate power *)

Lemma foldl_sum_exact (l : list Reading) (a : Q) :
  (foldl Qplus a (r_power <$> l)
   == a + foldr (fun reading acc => r_power reading + acc) 0 l)%Q.
Proof.
  revert a. induction l as [|r l IH]; intros a; simpl.
  - lra.
  - rewrite IH. lra.
Qed.

Lemma sum_power_perm (l1 l2 : list (option string * Reading)) :
  l1 ≡ₚ l2 -> (sum_power l1 == sum_power l2)%Q.
Proof.
  induction 1 as [|x l1 l2 _ IH|x y l|l1 l2 l3 _ IH1 _ IH2]; unfold sum_power in *; simpl.
  - reflexivity.
  - now rewrite IH.
  - lra.
  - now rewrite IH1.
Qed.

Lemma omap_lookup_ext (keys : list (option string))
    (m m' : gmap (option string) Reading) :
  (forall k, k ∈ keys -> m !! k = m' !! k) ->
  omap (fun k => m !! k) keys = omap (fun k => m' !! k) keys.
Proof.
  induction keys as [|k keys IH]; intros Hext; [reflexivity|].
  cbn [omap list_omap]. rewrite (Hext k) by left.
  rewrite IH by (intros k' Hk'; apply Hext; now right). reflexivity.
Qed.

(** The values of a dict, read in the order of its keys, are those of its
    entries. *)
Lemma values_in_order_sum (keys : list (option string))
    (m : gmap (option string) Reading) :
  NoDup keys -> (forall k, k ∈ keys <-> is_Some (m !! k)) ->
  (foldr (fun reading acc => r_power reading + acc) 0 (omap (fun k => m !! k) keys)
   == sum_power (map_to_list m))%Q.
Proof.
  revert m. induction keys as [|k keys IH]; intros m Hnd Hdom.
  - assert (Hm : m = ∅).
    { apply map_empty. intros k. destruct (m !! k) eqn:E; [|reflexivity].
      assert (Hin : k ∈ []) by (apply Hdom; now rewrite E). inversion Hin. }
    subst m. rewrite map_to_list_empty. reflexivity.
  - apply NoDup_cons in Hnd as [Hk Hnd].
    destruct (proj1 (Hdom k) ltac:(left)) as [v Hv].
    assert (Hothers : omap (fun k' => m !! k') keys
                      = omap (fun k' => delete k m !! k') keys).
    { apply omap_lookup_ext. intros k' Hk'.
      rewrite lookup_delete_ne by (intros ->; contradiction). reflexivity. }
    cbn [omap list_omap]. rewrite Hv. cbn [foldr].
    rewrite Hothers, (IH (delete k m) Hnd).
    + rewrite <- (insert_id _ _ _ Hv) at 2. rewrite <- insert_delete_eq.
      rewrite (sum_power_perm _ _ (map_to_list_insert _ _ _ (lookup_delete_eq _ _))).
      unfold sum_power. simpl. lra.
    + intros k'. split.
      * intros Hin. rewrite lookup_delete_ne by (intros ->; contradiction).
        apply Hdom. now right.
      * intros [v' Hv']. apply lookup_delete_Some in Hv' as [Hne Hv'].
        assert (Hin : k' ∈ k :: keys) by (apply Hdom; now rewrite Hv').
        apply elem_of_cons in Hin as [->|Hin]; [contradiction | exact Hin].
Qed.

(** In exact arithmetic the aggregate power of a dict is the sum over its
    entries. *)
Lemma total_power_sum {C : Type} (st : EMS C) :
  dict_ok st ->
  (total_power (A:=exact) st == sum_power (map_to_list (current_readings st)))%Q.
Proof.
  intros [Hnd Hdom]. unfold total_power, readings_in_order. cbn [builtin_sum exact].
  rewrite foldl_sum_exact, (values_in_order_sum _ _ Hnd Hdom). lra.
Qed.

(** The aggregate power depends on the snapshot only. *)
Lemma total_power_snapshot {C : Type} {A : Arith} (s s' : EMS C) :
  reading_keys s = reading_keys s' -> current_readings s = current_readings s' ->
  total_power s = total_power s'.
Proof. intros Hk Hm. unfold total_power, readings_in_order. now rewrite Hk, Hm. Qed.

(** The snapshot after [process_energy_reading] is that of the stores, or
    as it was when the INSERT raised. *)
Lemma process_energy_reading_snapshot {C : Type} {A : Arith} (H : Helpers C)
    (now : datetime) (data : EnergyData) (insert_error : option exn) (st : EMS C) :
  let st0 := match insert_error with
             | None => reading_stored now data st
             | Some _ => st
             end in
  reading_keys (exec (process_energy_reading H now data insert_error) st)
  = reading_keys st0 /\
  current_readings (exec (process_energy_reading H now data insert_error) st)
  = current_readings st0.
Proof.
  intros st0.
  apply (process_energy_reading_stores H now data insert_error st
           (fun s => reading_keys s = reading_keys st0
                     /\ current_readings s = current_readings st0)).
  - intros s Hs. repeat split; intros; apply Hs.
  - split; reflexivity.
Qed.

(** Storing a reading keeps the key list that of a dict. *)
Lemma reading_stored_dict_ok {C : Type} (now : datetime) (data : EnergyData) (st : EMS C) :
  dict_ok st -> dict_ok (reading_stored now data st).
Proof.
  intros [Hnd Hdom]. unfold dict_ok, reading_stored, store_reading. simpl.
  destruct (current_readings st !! d_device_id data) as [r|] eqn:E.
  - split; [exact Hnd|]. intros k.
    destruct (decide (k = d_device_id data)) as [->|Hne].
    + rewrite lookup_insert_eq. split; [eauto|]. intros _. apply Hdom. now rewrite E.
    + rewrite lookup_insert_ne by congruence. apply Hdom.
  - assert (Hk : d_device_id data ∉ reading_keys st).
    { intros Hin. apply Hdom in Hin as [v Hv]. congruence. }
    split.
    + apply NoDup_app. split; [exact Hnd|]. split.
      * intros k Hin Hin'. apply list_elem_of_singleton in Hin'. now subst k.
      * apply NoDup_singleton.
    + intros k. rewrite elem_of_app, list_elem_of_singleton.
      destruct (decide (k = d_device_id data)) as [->|Hne].
      * rewrite lookup_insert_eq. split; [eauto | now right].
      * rewrite lookup_insert_ne by congruence. rewrite <- Hdom. tauto.
Qed.

(** X3: the aggregate power after a reading.  A reading whose INSERT
    raises leaves it as it was, whatever the arithmetic.  In exact
    arithmetic (numbers being exact) the aggregate is the sum over the
    devices of their latest reading: a stored reading replaces the
    device's share and adds to what all other devices draw. *)
Theorem total_power_after_reading {C : Type} {A : Arith} (H : Helpers C) (now : datetime)
    (data : EnergyData) (st : EMS C) :
  dict_ok st ->
  let device_id := d_device_id data in
  let power := default 0%Q (d_power_consumption data) in
  let others := sum_power (map_to_list (delete device_id (current_readings st))) in
  (forall e, total_power (exec (process_energy_reading H now data (Some e)) st)
             = total_power st) /\
  (total_power (A:=exact) (exec (process_energy_reading (A:=exact) H now data None) st)
   == others + power)%Q /\
  (total_power (A:=exact) st
   == others + from_option r_power 0 (current_readings st !! device_id))%Q.
Proof.
  intros Hok device_id power others.
  split; [|split].
  - intros e.
    destruct (process_energy_reading_snapshot H now data (Some e) st) as [Hk Hm].
    now apply total_power_snapshot.
  - destruct (process_energy_reading_snapshot (A:=exact) H now data None st) as [Hk Hm].
    rewrite (total_power_snapshot _ _ Hk Hm).
    rewrite (total_power_sum _ (reading_stored_dict_ok now data st Hok)).
    unfold reading_stored, store_reading. simpl. fold device_id.
    rewrite <- insert_delete_eq.
    rewrite (sum_power_perm _ _ (map_to_list_insert _ _ _ (lookup_delete_eq _ _))).
    unfold others, power, sum_power. simpl. lra.
  - rewrite (total_power_sum _ Hok).
    destruct (current_readings st !! device_id) as [r|] eqn:E; simpl.
    + rewrite <- (insert_id _ _ _ E) at 1. rewrite <- insert_delete_eq.
      rewrite (sum_power_perm _ _ (map_to_list_insert _ _ _ (lookup_delete_eq _ _))).
      unfold others, sum_power. simpl. lra.
    + unfold others. rewrite delete_id by exact E. lra.
Qed.

Lemma total_power_after_reading_first :
  let t := at_day 19000 12 0 0 in
  (total_power (A:=exact)
     (exec (process_energy_reading (A:=exact) missing_helpers t
              (power_reading "hall_light" t 60) None)
        (initial default_config tt))
   == 0 + 60)%Q.
Proof.
  intros t.
  apply (proj1 (proj2 (total_power_after_reading (A:=exact) missing_helpers t
                         (power_reading "hall_light" t 60) (initial default_config tt)
                         ltac:(split; [constructor
                                      | intros k; split;
                                        [intros Hk; inversion Hk
                                        | intros [x Hx]; discriminate Hx]])))).
Defined.

(** ** What the rules publish *)

Lemma publishes_only_stable {C : Type} (cfg : Config) (before : list (string * Message))
    (okp : string -> Message -> Prop) :
  publish_stable (C:=C) cfg okp (publishes_only cfg before okp).
Proof.
  intros st [Hc (rest & Ho & Hf)].
  split; [exact Hc|].
  repeat split; try exact Hc; intros; simpl; try (exists rest; split; assumption).
  exists (rest ++ [(t, m)]). split.
  - rewrite Ho, <- app_assoc. reflexivity.
  - apply Forall_app. split; [exact Hf|]. constructor; [assumption | constructor].
Qed.

Lemma publishes_only_start {C : Type} (okp : string -> Message -> Prop) (st : EMS C) :
  publishes_only (config st) (outbox st) okp st.
Proof.
  split; [reflexivity|]. exists []. split; [now rewrite app_nil_r | constructor].
Qed.

Create HintDb publish_db.

Ltac publish_leaf :=
  idtac;
  match goal with
  | Hs : publish_stable _ _ ?P, H : ?P ?s |- ?P (_ _ ?s) =>
      first [ apply (proj1 (proj2 (Hs s H)))
            | apply (proj1 (proj2 (proj2 (Hs s H))))
            | apply (proj1 (proj2 (proj2 (proj2 (Hs s H)))))
            | apply (proj2 (proj2 (proj2 (proj2 (Hs s H)))));
              repeat match goal with
                     | H0 : P ?s0 |- context [config ?s0] =>
                         rewrite (proj1 (Hs s0 H0))
                     end;
              solve [auto] ]
  end.

Ltac publish_auto :=
  repeat first [ preserves_step publish_leaf | solve [auto with publish_db] ].

Section Publish.
Context {C : Type} {A : Arith}.
Variable H : Helpers C.
Variable now : datetime.
Variable cfg : Config.
Variable okp : string -> Message -> Prop.
Variable P : EMS C -> Prop.
Hypothesis stable : publish_stable cfg okp P.

Lemma control_device_pub (device_id : string) (state : bool) :
  okp (topic_device_control cfg) (command_data now device_id state) ->
  preserves P (control_device now device_id state).
Proof using stable. intros Hok. unfold control_device. publish_auto. Qed.

Lemma log_optimization_pub (a b c : string) :
  preserves P (log_optimization a b c).
Proof using stable. unfold log_optimization. publish_auto. Qed.
Hint Resolve log_optimization_pub : publish_db.

Lemma find_optimal_time_slot_pub (predictions : list (datetime * Q)) (p : Q) (d : nat) :
  preserves P (find_optimal_time_slot now predictions p d).
Proof using stable. unfold find_optimal_time_slot. publish_auto. Qed.
Hint Resolve find_optimal_time_slot_pub : publish_db.

Lemma predict_energy_consumption_pub (n : nat) :
  preserves P (predict_energy_consumption H n).
Proof using stable. unfold predict_energy_consumption. publish_auto. Qed.
Hint Resolve predict_energy_consumption_pub : publish_db.

Lemma smart_scheduling_pub :
  preserves P (smart_scheduling H now).
Proof using stable. unfold smart_scheduling, smart_scheduling_body. publish_auto. Qed.
Hint Resolve smart_scheduling_pub : publish_db.

Section OffCommands.
Hypothesis off_ok :
  forall device_id, okp (topic_device_control cfg) (command_data now device_id false).

Lemma control_device_off_pub (device_id : string) :
  preserves P (control_device now device_id false).
Proof using stable off_ok. apply control_device_pub, off_ok. Qed.
Hint Resolve control_device_off_pub : publish_db.

Lemma shed_loop_pub (devices : list Device) (load_to_reduce reduced_load : Q) :
  preserves P (shed_loop H now devices load_to_reduce reduced_load).
Proof using stable off_ok.
  revert reduced_load. induction devices as [|device rest IH]; intros reduced_load; simpl.
  - apply preserves_ret.
  - publish_auto; apply IH.
Qed.
Hint Resolve shed_loop_pub : publish_db.

Lemma optimize_load_balancing_pub :
  preserves P (optimize_load_balancing H now).
Proof using stable off_ok.
  unfold optimize_load_balancing, optimize_load_balancing_body. publish_auto.
Qed.
Hint Resolve optimize_load_balancing_pub : publish_db.

Lemma optimize_cost_efficiency_pub :
  preserves P (optimize_cost_efficiency H now).
Proof using stable off_ok.
  unfold optimize_cost_efficiency, optimize_cost_efficiency_body. publish_auto.
Qed.
Hint Resolve optimize_cost_efficiency_pub : publish_db.

Lemma check_optimization_triggers_pub :
  preserves P (check_optimization_triggers H now).
Proof using stable off_ok. unfold check_optimization_triggers. publish_auto. Qed.
Hint Resolve check_optimization_triggers_pub : publish_db.

Lemma run_optimization_cycle_pub :
  preserves P (run_optimization_cycle H now).
Proof using stable off_ok.
  unfold run_optimization_cycle, run_optimization_cycle_body. publish_auto.
Qed.

Section Alerts.
Hypothesis alert_ok :
  forall device_id power score,
    okp (topic_alerts cfg) (anomaly_alert now device_id power score).

Lemma handle_energy_anomaly_pub (device_id : option string) (p score : Q) :
  preserves P (handle_energy_anomaly H now device_id p score).
Proof using stable alert_ok.
  unfold handle_energy_anomaly. publish_auto.
  apply preserves_modify. intros s Hs.
  apply (proj2 (proj2 (proj2 (proj2 (stable s Hs))))).
  match goal with
  | H0 : P ?s0 |- context [config ?s0] => rewrite (proj1 (stable s0 H0))
  end.
  apply alert_ok.
Qed.
Hint Resolve handle_energy_anomaly_pub : publish_db.

Lemma detect_energy_anomalies_pub (device_id : option string) (p : Q) :
  preserves P (detect_energy_anomalies H now device_id p).
Proof using stable off_ok alert_ok. unfold detect_energy_anomalies. publish_auto. Qed.
Hint Resolve detect_energy_anomalies_pub : publish_db.

Lemma after_the_stores_pub (data : EnergyData) :
  preserves P
    (try_except
       (detect_energy_anomalies H now (d_device_id data)
          (default 0%Q (d_power_consumption data)) ;;
        st <- get ;;
        if auto_optimization_enabled st
        then check_optimization_triggers H now else ret tt)
       (fun e => logger (ERROR ("Error processing energy reading: " +:+ exn_msg e)))).
Proof using stable off_ok alert_ok. publish_auto. Qed.

End Alerts.
End OffCommands.
End Publish.

Lemma publish_stable_and {C : Type} (cfg : Config) (okp : string -> Message -> Prop)
    (P Q : EMS C -> Prop) :
  publish_stable cfg okp P -> rule_stable Q ->
  publish_stable cfg okp (fun s => P s /\ Q s).
Proof.
  intros HP HQ s [Hp Hq]. destruct (HP s Hp) as (Hc & Hl & Ho & Hco & Hpub).
  destruct (HQ s Hq) as (Qo & Ql & Qop & Qc).
  split; [exact Hc|]. repeat split; intros; auto.
Qed.

Lemma off_command_ok (cfg : Config) (now : datetime) (device_id : string) :
  off_command cfg (topic_device_control cfg) (command_data now device_id false).
Proof. split; [reflexivity|]. now exists now, device_id. Qed.

(** X4: whatever the collaborators do, an optimization cycle publishes
    nothing but commands that switch devices off, on the device-control
    topic; it never switches anything on. *)
Theorem cycle_only_switches_off {C : Type} {A : Arith} (H : Helpers C) (now : datetime) (st : EMS C) :
  exists published,
    outbox (exec (run_optimization_cycle H now) st) = outbox st ++ published /\
    Forall (fun p => off_command (config st) (fst p) (snd p)) published.
Proof.
  pose proof (run_optimization_cycle_pub H now (config st) (off_command (config st))
                (publishes_only (config st) (outbox st) (off_command (config st)))
                (publishes_only_stable _ _ _)
                (off_command_ok (config st) now) st (publishes_only_start _ st))
    as [_ Hp].
  exact Hp.
Qed.

(** X5: [smart_scheduling] publishes nothing: whatever the predictions and
    the collaborators, it leaves the published messages, the snapshot and
    the history as they are. *)
Theorem smart_scheduling_publishes_nothing {C : Type} {A : Arith} (H : Helpers C) (now : datetime)
    (st : EMS C) :
  outbox (exec (smart_scheduling H now) st) = outbox st /\
  current_readings (exec (smart_scheduling H now) st) = current_readings st /\
  consumption_history (exec (smart_scheduling H now) st) = consumption_history st.
Proof.
  split; [|split].
  - pose proof (smart_scheduling_pub H now (config st) (fun _ _ => False)
                  (publishes_only (config st) (outbox st) (fun _ _ => False))
                  (publishes_only_stable _ _ _) st (publishes_only_start _ st))
      as [_ (rest & E & Hf)].
    destruct rest as [|p rest]; [now rewrite app_nil_r in E|].
    now inversion Hf.
  - apply (smart_scheduling_frame H now (fun s => current_readings s = current_readings st));
      [intros s Hs; repeat split; intros; exact Hs | reflexivity].
  - apply (smart_scheduling_frame H now
             (fun s => consumption_history s = consumption_history st));
      [intros s Hs; repeat split; intros; exact Hs | reflexivity].
Qed.

(** ** Anomaly detection *)

(** Without an entry for the detector, the lookup raises [KeyError]:
    [detect_energy_anomalies] logs it and does nothing else. *)
Lemma detect_energy_anomalies_no_detector {C : Type} {A : Arith} (H : Helpers C) (now : datetime)
    (device_id : option string) (power : Q) (st : EMS C) :
  ml_models st !! "anomaly_detector" = None ->
  detect_energy_anomalies H now device_id power st
  = (Returned tt,
     logged_error "Anomaly detection error: " (Exception "'anomaly_detector'") st).
Proof.
  intros E. unfold detect_energy_anomalies, try_except, bind, get. now rewrite E.
Qed.

Lemma no_detector_stable {C : Type} :
  rule_stable (C:=C) (fun s => ml_models s !! "anomaly_detector" = None).
Proof. intros s Hs. repeat split; intros; exact Hs. Qed.

Lemma process_energy_reading_no_detector {C : Type} {A : Arith} (H : Helpers C) (now : datetime)
    (data : EnergyData) (insert_error : option exn) (cfg : Config)
    (before : list (string * Message)) (st : EMS C) :
  publishes_only cfg before (off_command cfg) st ->
  ml_models st !! "anomaly_detector" = None ->
  publishes_only cfg before (off_command cfg)
    (exec (process_energy_reading H now data insert_error) st)
  /\ ml_models (exec (process_energy_reading H now data insert_error) st)
     !! "anomaly_detector" = None.
Proof.
  intros Hp Hm.
  set (P := fun s : EMS C => publishes_only cfg before (off_command cfg) s
                             /\ ml_models s !! "anomaly_detector" = None).
  assert (Hs : publish_stable cfg (off_command cfg) P)
    by (apply publish_stable_and; [apply publishes_only_stable | apply no_detector_stable]).
  assert (Hpre : preserves P
            (try_except
               (detect_energy_anomalies H now (d_device_id data)
                  (default 0%Q (d_power_consumption data)) ;;
                st <- get ;;
                if auto_optimization_enabled st
                then check_optimization_triggers H now else ret tt)
               (fun e => logger (ERROR ("Error processing energy reading: "
                                        +:+ exn_msg e))))).
  { apply preserves_try_except.
    - apply preserves_bind.
      + intros s [Hps Hms]. rewrite detect_energy_anomalies_no_detector by exact Hms.
        apply (proj1 (proj2 (Hs s (conj Hps Hms)))).
      + intros _. apply preserves_get_bind. intros s0 _.
        destruct (auto_optimization_enabled s0); [|apply preserves_ret].
        apply (check_optimization_triggers_pub H now cfg (off_command cfg) P Hs).
        intros device_id. apply off_command_ok.
    - intros e. apply preserves_modify. intros s Hps.
      apply (proj1 (proj2 (Hs s Hps))). }
  destruct insert_error as [e|].
  - exact (proj1 (proj2 (Hs st (conj Hp Hm))) _).
  - apply (Hpre (reading_stored now data st)). split; [|exact Hm].
    destruct Hp as [Hc (rest & E & Hf)]. split; [exact Hc|]. now exists rest.
Qed.

(** X6: a system whose [ml_models] has no entry for the anomaly detector,
    as [__init__] leaves it, never raises an anomaly alert: whatever
    readings arrive, all it publishes are commands that switch devices
    off. *)
Theorem no_detector_no_alert {C : Type} {A : Arith} (H : Helpers C)
    (msgs : list (Delivery EnergyData)) (st : EMS C) :
  ml_models st !! "anomaly_detector" = None ->
  exists published,
    outbox (deliver_readings H msgs st) = outbox st ++ published /\
    Forall (fun p => off_command (config st) (fst p) (snd p)) published.
Proof.
  intros Hm.
  enough (Hall : publishes_only (config st) (outbox st) (off_command (config st))
                   (deliver_readings H msgs st)) by exact (proj2 Hall).
  pose proof (publishes_only_start (off_command (config st)) st) as Hp.
  generalize dependent (outbox st). generalize dependent (config st).
  revert st Hm.
  induction msgs as [|[now data insert_error] msgs IH]; intros st Hm cfg before Hp.
  - exact Hp.
  - unfold deliver_readings in *. simpl.
    destruct (process_energy_reading_no_detector H now data insert_error cfg before st
                Hp Hm) as [Hp' Hm'].
    now apply IH.
Qed.

Lemma no_detector_no_alert_fresh :
  let t := at_day 19000 12 0 0 in
  exists published,
    outbox (deliver_readings (catalog_helpers t 0)
              [ mk_delivery t (power_reading "meter" t 2500) None ] (loaded_state 2000 0))
    = [] ++ published /\
    Forall (fun p => off_command (config_with_ceiling 2000) (fst p) (snd p)) published.
Proof.
  intros t.
  apply (no_detector_no_alert (catalog_helpers t 0)
           [ mk_delivery t (power_reading "meter" t 2500) None ] (loaded_state 2000 0)).
  reflexivity.
Defined.

(** ** The cost-efficiency rule *)

Lemma preserves_for_each_in {C A : Type} (P : EMS C -> Prop) (l : list A)
    (body : A -> M (EMS C) unit) :
  (forall x, In x l -> preserves P (body x)) -> preserves P (for_each l body).
Proof.
  induction l as [|x l IH]; intros Hb; simpl.
  - apply preserves_ret.
  - apply preserves_bind; [apply Hb; now left | intros _].
    apply IH. intros y Hy. apply Hb. now right.
Qed.

(** Outside the peak and the off-peak hours the rule does nothing. *)
Lemma optimize_cost_efficiency_idle {C : Type} {A : Arith} (H : Helpers C) (now : datetime)
    (st : EMS C) :
  is_peak_hour now (config st) = false ->
  is_off_peak_hour now (config st) = false ->
  optimize_cost_efficiency H now st = (Returned tt, st).
Proof.
  intros Hp Ho.
  unfold optimize_cost_efficiency, try_except, optimize_cost_efficiency_body, bind, get.
  now rewrite Hp, Ho.
Qed.

(** X7: the cost-efficiency rule switches nothing on, and the only devices
    it switches off are appliances of the configuration that are not
    always on and have priority 3 or more; outside the peak hours it
    publishes nothing, and outside the peak and off-peak hours it leaves
    the whole state as it is. *)
Theorem cost_rule_defers_only_low_priority {C : Type} {A : Arith} (H : Helpers C) (now : datetime)
    (st : EMS C) :
  (exists published,
     outbox (exec (optimize_cost_efficiency H now) st) = outbox st ++ published /\
     Forall (fun p => deferral_command (config st) now (fst p) (snd p)) published) /\
  (is_peak_hour now (config st) = false ->
   outbox (exec (optimize_cost_efficiency H now) st) = outbox st) /\
  (is_peak_hour now (config st) = false ->
   is_off_peak_hour now (config st) = false ->
   optimize_cost_efficiency H now st = (Returned tt, st)).
Proof.
  split; [|split; [|apply optimize_cost_efficiency_idle]].
  - set (cfg := config st).
    set (P := publishes_only (C:=C) cfg (outbox st) (deferral_command cfg now)).
    assert (Hs : publish_stable cfg (deferral_command cfg now) P)
      by apply publishes_only_stable.
    assert (Hpre : preserves P (optimize_cost_efficiency H now)).
    { unfold optimize_cost_efficiency, optimize_cost_efficiency_body.
      apply preserves_try_except; [|intros e; publish_auto].
      apply preserves_get_bind. intros s0 Hs0.
      rewrite (proj1 (Hs s0 Hs0)).
      destruct (is_peak_hour now cfg); [|publish_auto].
      apply preserves_bind; [publish_auto|intros _].
      apply preserves_for_each_in. intros device Hin.
      destruct (negb (always_on device) && (3 <=? priority device)) eqn:Econd;
        [|apply preserves_ret].
      apply andb_true_iff in Econd as [Ea Ep].
      apply negb_true_iff in Ea. apply Z.leb_le in Ep.
      assert (Hok : deferral_command cfg now (topic_device_control cfg)
                      (command_data now (dev_id device) false))
        by (split; [reflexivity | exists device; auto]).
      pose proof (control_device_pub now cfg _ P Hs (dev_id device) false Hok).
      publish_auto. apply (log_optimization_pub cfg _ P Hs). }
    exact (proj2 (Hpre st (publishes_only_start _ st))).
  - intros Hp.
    set (P := publishes_only (C:=C) (config st) (outbox st) (fun _ _ => False)).
    assert (Hs : publish_stable (config st) (fun _ _ => False) P)
      by apply publishes_only_stable.
    assert (Hpre : preserves P (optimize_cost_efficiency H now)).
    { unfold optimize_cost_efficiency, optimize_cost_efficiency_body.
      apply preserves_try_except; [|intros e; publish_auto].
      apply preserves_get_bind. intros s0 Hs0.
      rewrite (proj1 (Hs s0 Hs0)), Hp. publish_auto. }
    destruct (Hpre st (publishes_only_start _ st)) as [_ (rest & E & Hf)].
    destruct rest as [|p rest]; [now rewrite app_nil_r in E | now inversion Hf].
Qed.

Lemma cost_rule_defers_only_low_priority_noon :
  optimize_cost_efficiency missing_helpers (at_day 19000 12 0 0)
    (initial default_config tt)
  = (Returned tt, initial default_config tt).
Proof.
  apply (proj2 (proj2 (cost_rule_defers_only_low_priority missing_helpers
                         (at_day 19000 12 0 0) (initial default_config tt))));
    reflexivity.
Defined.

(** ** The anomaly alert *)

Lemma anomaly_severity_medium (now : datetime) (device_id : option string)
    (power score : Q) :
  field "severity" (anomaly_alert now device_id power score) = Some (JStr "medium")
  <-> (Qabs score < 1 # 2)%Q.
Proof.
  change (field "severity" (anomaly_alert now device_id power score))
    with (Some (JStr (if Qgtb (1 # 2) (Qabs score) then "medium" else "high"))).
  destruct (Qgtb (1 # 2) (Qabs score)) eqn:E.
  - apply Qgtb_true in E. split; [intros _; exact E | reflexivity].
  - apply Qgtb_false in E. split; [discriminate | intros Hlt; lra].
Qed.

Lemma anomaly_severity_high (now : datetime) (device_id : option string)
    (power score : Q) :
  (1 # 2 <= Qabs score)%Q ->
  field "severity" (anomaly_alert now device_id power score) = Some (JStr "high").
Proof.
  intros Hle.
  change (field "severity" (anomaly_alert now device_id power score))
    with (Some (JStr (if Qgtb (1 # 2) (Qabs score) then "medium" else "high"))).
  apply Qgtb_false in Hle. now rewrite Hle.
Qed.

(** X8: [handle_energy_anomaly] always returns and always publishes exactly
    one alert, before it asks for any shutdown.  The alert is of medium
    severity exactly when the score is below 0.5 in absolute value; the
    emergency shutdown is requested exactly when it is above 0.7, so a
    score from 0.5 to 0.7 gives a high-severity alert without a shutdown,
    and a failing shutdown leaves the alert published. *)
Theorem anomaly_alert_and_shutdown {C : Type} {A : Arith} (H : Helpers C) (now : datetime)
    (device_id : option string) (power score : Q) (st : EMS C) :
  let r := handle_energy_anomaly H now device_id power score st in
  fst r = Returned tt /\
  outbox (snd r)
  = outbox st ++ [(topic_alerts (config st), anomaly_alert now device_id power score)] /\
  (field "severity" (anomaly_alert now device_id power score) = Some (JStr "medium")
   <-> (Qabs score < 1 # 2)%Q) /\
  ((Qabs score <= 7 # 10)%Q -> collab (snd r) = collab st) /\
  ((7 # 10 < Qabs score)%Q ->
   collab (snd r) = snd (emergency_device_shutdown H device_id (collab st)) /\
   field "severity" (anomaly_alert now device_id power score) = Some (JStr "high")).
Proof.
  intros r.
  assert (Hr : fst r = Returned tt /\
               outbox (snd r)
               = outbox st ++ [(topic_alerts (config st),
                                anomaly_alert now device_id power score)] /\
               collab (snd r)
               = if Qgtb (Qabs score) (7 # 10)
                 then snd (emergency_device_shutdown H device_id (collab st))
                 else collab st).
  { unfold r, handle_energy_anomaly, try_except.
    cbv [bind logger publish modify get]. 
    destruct (Qgtb (Qabs score) (7 # 10)); [|now repeat split].
    unfold call. simpl.
    destruct (emergency_device_shutdown H device_id (collab st)) as [[[]|e] c];
      now repeat split. }
  destruct Hr as (Hf & Ho & Hc).
  split; [exact Hf|]. split; [exact Ho|].
  split; [apply anomaly_severity_medium|].
  split.
  - intros Hle. apply Qgtb_false in Hle. now rewrite Hle in Hc.
  - intros Hgt. split.
    + apply Qgtb_true in Hgt. now rewrite Hgt in Hc.
    + apply anomaly_severity_high. lra.
Qed.

Lemma anomaly_alert_and_shutdown_mild :
  let r := handle_energy_anomaly missing_helpers (at_day 19000 12 0 0)
             (Some "water_heater") 2600 (- (6 # 10)) (initial default_config tt) in
  collab (snd r) = tt /\
  field "severity" (anomaly_alert (at_day 19000 12 0 0) (Some "water_heater") 2600
                      (- (6 # 10)))
  = Some (JStr "high").
Proof.
  intros r. split.
  - apply (proj1 (proj2 (proj2 (proj2 (anomaly_alert_and_shutdown missing_helpers
             (at_day 19000 12 0 0) (Some "water_heater") 2600 (- (6 # 10))
             (initial default_config tt)))))).
    vm_compute. discriminate.
  - reflexivity.
Defined.

(** ** The order and the extent of load shedding *)

Lemma bind_eq {S A B : Type} (c : M S A) (k : A -> M S B) (s : S) :
  bind c k s
  = match c s with
    | (Returned a, s') => k a s'
    | (Raised e, s') => (Raised e, s')
    end.
Proof. reflexivity. Qed.

Lemma call_eq {C A : Type} (h : @Helper C A) (st : EMS C) :
  call h st = (fst (h (collab st)), set_collab (snd (h (collab st))) st).
Proof. unfold call. now destruct (h (collab st)). Qed.

Lemma log_optimization_eq {C : Type} (a b c : string) (st : EMS C) :
  log_optimization a b c st
  = (Returned tt,
     set_log (fun l => l ++ [INFO ("Optimization logged: " +:+ a +:+ " - "
                                   +:+ b +:+ " - " +:+ c)])
       (set_optimization_logs (fun l => l ++ [(a, b)]) st)).
Proof. reflexivity. Qed.

(** Whatever the collaborators do, the loop switches off a subsequence of
    its candidates, in their order, and none once the target is reached:
    before each device it sheds, what it has shed so far is below the
    target. *)
Lemma shed_loop_sheds {C : Type} {A : Arith} (H : Helpers C) (now : datetime) (devices : list Device)
    (load_to_reduce reduced_load : Q) (st : EMS C) :
  exists shed,
    sublist shed devices /\
    config (exec (shed_loop H now devices load_to_reduce reduced_load) st) = config st /\
    outbox (exec (shed_loop H now devices load_to_reduce reduced_load) st)
    = outbox st ++ shed_commands (config st) now shed /\
    (forall a d b, shed = a ++ d :: b ->
                   (reduced_after reduced_load a < load_to_reduce)%Q).
Proof.
  revert reduced_load st.
  induction devices as [|device devices IH]; intros reduced_load st.
  - exists []. simpl. repeat split; [constructor | now rewrite app_nil_r |].
    intros a d b E. now destruct a.
  - unfold exec. rewrite shed_loop_cons.
    assert (Hnone : forall s : EMS C,
              config s = config st -> outbox s = outbox st ->
              exists shed, sublist shed (device :: devices) /\
                config s = config st /\
                outbox s = outbox st ++ shed_commands (config st) now shed /\
                (forall a d b, shed = a ++ d :: b ->
                               (reduced_after reduced_load a < load_to_reduce)%Q)).
    { intros s Hc Ho. exists []. repeat split; [apply sublist_nil_l | exact Hc | |].
      - simpl. now rewrite app_nil_r.
      - intros a d b E. now destruct a. }
    destruct (Qle_bool load_to_reduce reduced_load) eqn:Eload; [now apply Hnone|].
    assert (Hlt : (reduced_load < load_to_reduce)%Q).
    { apply Qnot_le_lt. intros Hle. apply Qle_bool_iff in Hle. congruence. }
    rewrite bind_eq, call_eq.
    destruct (is_device_on H (dev_id device) (collab st)) as [[on|e] c1]; simpl;
      [|now apply Hnone].
    destruct on.
    + rewrite bind_eq, control_device_eq, bind_eq, log_optimization_eq, bind_eq, call_eq.
      simpl.
      destruct (schedule_device_restoration H (dev_id device) 30 c1) as [[[]|e] c2]; simpl.
      * match goal with
        | |- context [shed_loop H now devices load_to_reduce ?r ?s] =>
            destruct (IH r s) as (shed & Hsub & Hc & Ho & Hstop)
        end.
        unfold exec in Hc, Ho. simpl in Hc, Ho.
        exists (device :: shed). repeat split.
        -- now apply sublist_skip.
        -- exact Hc.
        -- rewrite Ho, <- app_assoc. reflexivity.
        -- intros a d b E. destruct a as [|d0 a]; simpl in *.
           ++ exact Hlt.
           ++ injection E as -> ->. exact (Hstop a d b eq_refl).
      * exists [device]. repeat split.
        -- apply sublist_skip, sublist_nil_l.
        -- intros a d b E. destruct a as [|d0 a]; simpl in *; [exact Hlt|].
           injection E as _ E. now destruct a.
    + destruct (IH reduced_load (set_collab c1 st)) as (shed & Hsub & Hc & Ho & Hstop).
      exists shed. repeat split; [now apply sublist_cons | exact Hc | exact Ho | exact Hstop].
Qed.

Lemma priority_order_transitive :
  Transitive (fun a b : Device => priority b <= priority a).
Proof. intros a b c Hab Hbc. lia. Qed.

Lemma Forall_sublist_of {A : Type} (P : A -> Prop) (l1 l2 : list A) :
  sublist l1 l2 -> Forall P l2 -> Forall P l1.
Proof.
  induction 1 as [|x l1 l2 Hsub IH|x l1 l2 Hsub IH]; intros Hall.
  - constructor.
  - inversion Hall; subst. constructor; [assumption | now apply IH].
  - inversion Hall; subst. now apply IH.
Qed.

Lemma StronglySorted_sublist_of {A : Type} (R : A -> A -> Prop) (l1 l2 : list A) :
  sublist l1 l2 -> StronglySorted R l2 -> StronglySorted R l1.
Proof.
  induction 1 as [|x l1 l2 Hsub IH|x l1 l2 Hsub IH]; intros Hs.
  - constructor.
  - apply StronglySorted_inv in Hs as [Hs Hall]. constructor; [now apply IH|].
    eapply Forall_sublist_of; eauto.
  - apply StronglySorted_inv in Hs as [Hs _]. now apply IH.
Qed.


(** The load to reduce is the one the program computes: with the ceiling
    and the aggregate power at 3 it is [3 - 3 * 0.7] in binary64, a little
    above the float 0.9, so shedding a device rated 0.9 does not reach it
    and a second device is shed, although in the rationals 0.9 reaches
    [3 - 3 * 0.7]. *)
Lemma shedding_continues_below_the_computed_target :
  let t := at_day 19000 12 0 0 in
  let first := mk_device "first" (float (9 # 10)) None 2 false None in
  let second := mk_device "second" (1 # 2) None 1 false None in
  let st := mk_ems (config_with_ceiling 3) (<[Some "meter" := watts 0 3]> ∅)
              [Some "meter"] [] ∅ ∅ true [] [] [] [] []
              (mk_catalog [first; second] ["first"; "second"] []) in
  (float (9 # 10) < py_sub (total_power st) (py_mul 3 (float (7 # 10))))%Q /\
  (3 - 3 * (7 # 10) <= 9 # 10)%Q /\
  outbox (exec (optimize_load_balancing (catalog_helpers t 0) t) st)
  = [ ("energy/control", command_data t "first" false);
      ("energy/control", command_data t "second" false) ].
Proof.
  split; [vm_compute; reflexivity|].
  split; [vm_compute; discriminate | vm_compute; reflexivity].
Qed.

(** ** What the occupancy rule publishes *)

Lemma Qltb_true (a b : Q) : Qltb a b = true <-> (a < b)%Q.
Proof. apply (Qgtb_true b a). Qed.

Lemma occupancy_rule_pub {C : Type} (now : datetime) (cfg : Config)
    (room : option string) (occupancy : option Occupancy) (device : Device)
    (P : EMS C -> Prop) :
  publish_stable cfg (occupancy_command cfg now room occupancy) P ->
  In device (get_devices_in_room cfg room) ->
  preserves P (occupancy_rule now occupancy (is_occupied_of occupancy) cfg device).
Proof.
  intros Hs Hin. unfold occupancy_rule.
  assert (Hcmd : forall state,
            (exists device0, In device0 (get_devices_in_room cfg room) /\
               ((command_data now (dev_id device) state
                 = command_data now (dev_id device0) false /\
                 endswith (dev_id device0) "_light" = true /\
                 is_occupied_of occupancy = false /\ is_peak_hour now cfg = false) \/
                (command_data now (dev_id device) state
                 = command_data now (dev_id device0) true /\
                 endswith (dev_id device0) "_light" = false /\
                 endswith (dev_id device0) "_fan" = true /\
                 is_occupied_of occupancy = true /\
                 (28 < from_option temperature 25 occupancy)%Q) \/
                (command_data now (dev_id device) state
                 = command_data now (dev_id device0) false /\
                 endswith (dev_id device0) "_light" = false /\
                 endswith (dev_id device0) "_fan" = true /\
                 is_occupied_of occupancy = true /\
                 (from_option temperature 25 occupancy < 22)%Q) \/
                (command_data now (dev_id device) state
                 = command_data now (dev_id device0) false /\
                 endswith (dev_id device0) "_light" = false /\
                 endswith (dev_id device0) "_fan" = true /\
                 is_occupied_of occupancy = false /\
                 600 < timedelta_seconds now (from_option o_timestamp now occupancy)))) ->
            preserves P (control_device now (dev_id device) state)).
  { intros state Hex. apply (control_device_pub now cfg _ P Hs).
    split; [reflexivity | exact Hex]. }
  destruct (endswith (dev_id device) "_light") eqn:El.
  - destruct (is_occupied_of occupancy) eqn:Eo; simpl; [apply preserves_ret|].
    destruct (is_peak_hour now cfg) eqn:Ep; simpl; [apply preserves_ret|].
    apply preserves_bind; [|intros _; apply (log_optimization_pub cfg _ P Hs)].
    apply Hcmd. exists device. split; [exact Hin|]. left. auto.
  - destruct (endswith (dev_id device) "_fan") eqn:Ef; [|apply preserves_ret].
    destruct (is_occupied_of occupancy) eqn:Eo.
    + destruct (Qgtb (from_option temperature 25%Q occupancy) 28) eqn:Ehot.
      * apply Hcmd. exists device. split; [exact Hin|]. right. left.
        apply Qgtb_true in Ehot. auto.
      * destruct (Qltb (from_option temperature 25%Q occupancy) 22) eqn:Ecold;
          [|apply preserves_ret].
        apply Hcmd. exists device. split; [exact Hin|]. right. right. left.
        apply Qltb_true in Ecold. auto.
    + destruct (600 <? timedelta_seconds now (from_option o_timestamp now occupancy))
        eqn:Et; [|apply preserves_ret].
      apply Z.ltb_lt in Et.
      apply preserves_bind; [|intros _; apply (log_optimization_pub cfg _ P Hs)].
      apply Hcmd. exists device. split; [exact Hin|]. right. right. right. auto.
Qed.

(** What [optimize_based_on_occupancy] publishes: commands for devices of
    the room, each for its reason. *)
Lemma optimize_based_on_occupancy_publishes {C : Type} (now : datetime) (room : option string)
    (st : EMS C) :
  exists published,
    outbox (exec (optimize_based_on_occupancy now room) st) = outbox st ++ published /\
    Forall (fun p => occupancy_command (config st) now room (occupancy_sensors st !! room)
                       (fst p) (snd p)) published.
Proof.
  set (cfg := config st). set (occupancy := occupancy_sensors st !! room).
  set (P := publishes_only (C:=C) cfg (outbox st)
              (occupancy_command cfg now room occupancy)).
  assert (Hs : publish_stable cfg (occupancy_command cfg now room occupancy) P)
    by apply publishes_only_stable.
  assert (Hpre : preserves P
            (try_except
               (for_each (get_devices_in_room cfg room)
                  (occupancy_rule now occupancy (is_occupied_of occupancy) cfg))
               (fun e => logger (ERROR ("Occupancy-based optimization error: "
                                        +:+ exn_msg e))))).
  { apply preserves_try_except; [|intros e; publish_auto].
    apply preserves_for_each_in. intros device Hin.
    now apply (occupancy_rule_pub now cfg room occupancy device P Hs). }
  exact (proj2 (Hpre st (publishes_only_start _ st))).
Qed.

(** X10: [optimize_based_on_occupancy] publishes only commands for devices
    of the room, each for its reason: a light is only ever switched off
    (never on), in an empty room outside the peak hours; a fan is switched
    on only in an occupied room above 28 degrees, and off only below 22
    degrees when occupied or after more than 600 seconds when empty. *)
Theorem occupancy_rule_commands {C : Type} (now : datetime) (room : option string)
    (st : EMS C) :
  exists published,
    outbox (exec (optimize_based_on_occupancy now room) st) = outbox st ++ published /\
    Forall (fun p => occupancy_command (config st) now room (occupancy_sensors st !! room)
                       (fst p) (snd p)) published.
Proof. apply optimize_based_on_occupancy_publishes. Qed.

(** The seconds field of a time difference forgets whole days. *)
Lemma timedelta_seconds_wraps (last k e us : Z) :
  0 <= e < seconds_per_day -> 0 <= us < us_per_second ->
  timedelta_seconds (last + ((k * seconds_per_day + e) * us_per_second + us)) last = e.
Proof.
  unfold timedelta_seconds, seconds_per_day, us_per_second. intros He Hus.
  replace (last + ((k * 86400 + e) * 1000000 + us) - last)
    with ((k * 86400 + e) * 1000000 + us) by lia.
  assert (Hdiv : ((k * 86400 + e) * 1000000 + us) / 1000000 = k * 86400 + e)
    by (symmetry; apply (Z.div_unique _ _ _ us); lia).
  rewrite Hdiv. symmetry. apply (Z.mod_unique _ _ k); lia.
Qed.

(** In an empty room whose entry is at most 600 seconds old, in the
    seconds field, the rule publishes commands for lights only. *)
Lemma empty_room_publishes_lights_only {C : Type} (now : datetime) (room : option string)
    (occupancy : Occupancy) (k e us : Z) (st : EMS C) :
  occupancy_sensors st !! room = Some occupancy ->
  is_occupied_of (Some occupancy) = false ->
  0 <= e <= 600 -> 0 <= us < us_per_second ->
  now = o_timestamp occupancy + ((k * seconds_per_day + e) * us_per_second + us) ->
  exists published,
    outbox (exec (optimize_based_on_occupancy now room) st) = outbox st ++ published /\
    Forall (fun p => light_off_command (config st) now room (fst p) (snd p)) published.
Proof.
  intros Hocc Hempty He Hus Hnow.
  destruct (optimize_based_on_occupancy_publishes now room st) as (published & Ho & Hall).
  exists published. split; [exact Ho|].
  eapply Forall_impl; [exact Hall|].
  intros [t m]. simpl. rewrite Hocc.
  intros [Ht (device & Hin & Hcase)]. split; [exact Ht|].
  exists device. split; [exact Hin|].
  destruct Hcase as [(Hm & Hl & _)|[(_ & _ & _ & Hoc & _)|[(_ & _ & _ & Hoc & _)
                    |(_ & _ & _ & _ & Hlate)]]].
  - split; assumption.
  - congruence.
  - congruence.
  - simpl in Hlate. rewrite Hnow, timedelta_seconds_wraps in Hlate;
      unfold seconds_per_day in *; lia.
Qed.

(** X11: a fan in an empty room keeps running when the seconds field of
    the time since the room's entry was stored is at most 600, however
    many whole days have passed: the rule then publishes nothing but
    commands that switch lights off. *)
Theorem empty_room_fans_keep_running {C : Type} (now : datetime) (room : option string)
    (occupancy : Occupancy) (k e us : Z) (st : EMS C) :
  occupancy_sensors st !! room = Some occupancy ->
  is_occupied_of (Some occupancy) = false ->
  0 <= e <= 600 -> 0 <= us < us_per_second ->
  now = o_timestamp occupancy + ((k * seconds_per_day + e) * us_per_second + us) ->
  exists published,
    outbox (exec (optimize_based_on_occupancy now room) st) = outbox st ++ published /\
    Forall (fun p => light_off_command (config st) now room (fst p) (snd p)) published.
Proof. apply empty_room_publishes_lights_only. Qed.

Lemma empty_room_fans_keep_running_next_day :
  let stored := mk_occupancy 0 false 24 (at_day 19000 12 0 0) in
  let st := set_occupancy_sensors <[Some "hall" := stored]> (initial default_config tt) in
  exists published,
    outbox (exec (optimize_based_on_occupancy (at_day 19001 12 5 0) (Some "hall")) st)
    = outbox st ++ published /\
    Forall (fun p => light_off_command default_config (at_day 19001 12 5 0) (Some "hall")
                       (fst p) (snd p)) published.
Proof.
  intros stored st.
  apply (empty_room_fans_keep_running (at_day 19001 12 5 0) (Some "hall") stored
           1 300 0 st).
  - reflexivity.
  - reflexivity.
  - lia.
  - unfold us_per_second. lia.
  - reflexivity.
Defined.

(** ** Occupancy messages *)

(** A [try] block that returns is not affected by its handler. *)
Lemma try_except_returned {S A : Type} (body : M S A) (handler : exn -> M S A) (s : S)
    (a : A) :
  fst (body s) = Returned a -> try_except body handler s = body s.
Proof.
  unfold try_except. destruct (body s) as [[a0|e] s']; simpl; [reflexivity | discriminate].
Qed.

(** [process_occupancy_data] stores the entry, then the row, and then runs
    the rule; when the INSERT raises, the entry is stored, the error is
    logged and the rule does not run. *)
Lemma process_occupancy_data_eq {C : Type} (now : datetime) (data : OccupancyData)
    (insert_error : option exn) (st : EMS C) :
  exec (process_occupancy_data now data insert_error) st
  = match insert_error with
    | None =>
        exec (optimize_based_on_occupancy now (od_room data))
          (set_occupancy_data
             (fun rows => rows ++ [mk_occupancy_row (od_room data)
                                     (default 0 (od_occupancy_count data))
                                     (default false (od_motion_detected data))
                                     (default 0%Q (od_temperature data))])
             (set_occupancy_sensors <[od_room data := occupancy_of now data]> st))
    | Some e =>
        logged_error "Error processing occupancy data: " e
          (set_occupancy_sensors <[od_room data := occupancy_of now data]> st)
    end.
Proof.
  destruct insert_error as [e|]; [reflexivity|].
  unfold exec at 1, process_occupancy_data.
  rewrite (try_except_returned _ _ _ tt); [reflexivity|].
  apply (try_logged_returns _ "Occupancy-based optimization error: ").
Qed.

(** X12: an occupancy message is stored under its room, with 0, False and
    0.0 for the missing keys and the time of arrival, and the rule that
    runs next does not touch it: afterwards [is_room_occupied] tells what
    the message said for this room, and what it told before for every
    other room.  This holds also when the INSERT of its row raises. *)
Theorem occupancy_message_is_stored {C : Type} (now : datetime) (data : OccupancyData)
    (insert_error : option exn) (st : EMS C) :
  let st' := exec (process_occupancy_data now data insert_error) st in
  occupancy_sensors st' = <[od_room data := occupancy_of now data]> (occupancy_sensors st) /\
  is_room_occupied st' (od_room data)
  = default false (od_motion_detected data) || (0 <? default 0 (od_occupancy_count data)) /\
  (forall room, room <> od_room data ->
     is_room_occupied st' room = is_room_occupied st room).
Proof.
  intros st'.
  assert (E : occupancy_sensors st'
              = <[od_room data := occupancy_of now data]> (occupancy_sensors st)).
  { unfold st'. rewrite process_occupancy_data_eq.
    destruct insert_error as [e|]; [reflexivity|].
    apply (optimize_based_on_occupancy_frame now
             (fun s => occupancy_sensors s
                       = <[od_room data := occupancy_of now data]> (occupancy_sensors st))).
    - intros s Hs. repeat split; intros; exact Hs.
    - reflexivity. }
  split; [exact E|]. unfold is_room_occupied. rewrite E. split.
  - now rewrite lookup_insert_eq.
  - intros room Hne. now rewrite lookup_insert_ne by congruence.
Qed.

(** X13: an occupancy message that reports the room empty switches no fan
    off and nothing on: the entry it stores is stamped with the time of
    arrival, so no time has passed when the rule looks at it, and all that
    is published are commands that switch the lights of the room off (and
    nothing at all when the INSERT of its row raises). *)
Theorem empty_room_message_switches_lights_only {C : Type} (now : datetime)
    (data : OccupancyData) (insert_error : option exn) (st : EMS C) :
  reports_empty data = true ->
  exists published,
    outbox (exec (process_occupancy_data now data insert_error) st)
    = outbox st ++ published /\
    Forall (fun p => light_off_command (config st) now (od_room data) (fst p) (snd p))
      published.
Proof.
  intros Hempty. rewrite process_occupancy_data_eq.
  destruct insert_error as [e|];
    [exists []; split; [simpl; now rewrite app_nil_r | constructor]|].
  match goal with
  | |- context [exec (optimize_based_on_occupancy now ?r) ?s] =>
      apply (empty_room_publishes_lights_only now r (occupancy_of now data) 0 0 0 s)
  end.
  - simpl. apply lookup_insert_eq.
  - unfold reports_empty in Hempty. apply andb_true_iff in Hempty as [Hm Hc].
    apply negb_true_iff in Hm. apply negb_true_iff in Hc.
    unfold is_occupied_of, occupancy_of. simpl. now rewrite Hm, Hc.
  - lia.
  - unfold us_per_second. lia.
  - unfold occupancy_of, seconds_per_day, us_per_second. simpl. lia.
Qed.

Lemma empty_room_message_switches_lights_only_hall :
  exists published,
    outbox (exec (process_occupancy_data (at_day 19000 12 0 0) (room_empty "hall") None)
              (initial default_config tt))
    = [] ++ published /\
    Forall (fun p => light_off_command default_config (at_day 19000 12 0 0) (Some "hall")
                       (fst p) (snd p)) published.
Proof.
  apply (empty_room_message_switches_lights_only (at_day 19000 12 0 0)
           (room_empty "hall") None (initial default_config tt)).
  reflexivity.
Defined.

(** ** The choice of a time slot *)

Section FindSlot.
Context {A : Arith}.
Variable predictions : list (datetime * Q).
Variable device_power : Q.
Variable duration_hours : nat.
Variable hourly_rate : Q.
Hypothesis positive_duration : (1 <= duration_hours)%nat.

Local Abbreviation cost := (slot_cost predictions device_power duration_hours hourly_rate).
Local Abbreviation loop_state_at := (loop_state predictions device_power duration_hours hourly_rate).

Lemma find_slot_loop (len a : nat) (min_cost : option Q) (optimal_time : option datetime) :
  (a + len <= length predictions - duration_hours)%nat ->
  loop_state_at a min_cost optimal_time ->
  exists min_cost' optimal_time',
    find_slot (seq a len) predictions device_power duration_hours hourly_rate
      min_cost optimal_time = Returned optimal_time' /\
    loop_state_at (a + len) min_cost' optimal_time'.
Proof using positive_duration.
  revert a min_cost optimal_time.
  induction len as [|len IH]; intros a min_cost optimal_time Hlen Hinv.
  - exists min_cost, optimal_time. simpl. now rewrite Nat.add_0_r.
  - simpl.
    assert (Hslot : exists t q rest,
              take duration_hours (drop a predictions) = (t, q) :: rest /\
              fst <$> predictions !! a = Some t).
    { destruct (predictions !! a) as [[t q]|] eqn:Ea.
      - exists t, q.
        destruct (drop a predictions) as [|p l] eqn:Ed.
        + apply (f_equal length) in Ed. rewrite length_drop in Ed. simpl in Ed. lia.
        + assert (Hp : p = (t, q)).
          { pose proof (lookup_drop predictions a 0) as Hl.
            rewrite Ed, Nat.add_0_r, Ea in Hl. simpl in Hl. congruence. }
          subst p. destruct duration_hours as [|d]; [lia|].
          simpl. eauto.
      - apply lookup_ge_None in Ea. lia. }
    destruct Hslot as (t & q & rest & Eslot & Et).
    fold (slot_cost predictions device_power duration_hours hourly_rate a).
    rewrite Eslot.
    replace (a + S len)%nat with (S a + len)%nat by lia.
    destruct min_cost as [c|], optimal_time as [t0|]; simpl in Hinv; try contradiction.
    + destruct Hinv as (i & Hi & Hc & Hti & Hmin & Hfirst).
      destruct (Qltb (cost a) c) eqn:Elt.
      * apply Qltb_true in Elt. apply IH; [lia|].
        simpl. exists a. repeat split; [lia | exact Et | |].
        -- intros j Hj. destruct (Nat.eq_dec j a) as [->|Hne]; [lra|].
           specialize (Hmin j ltac:(lia)). subst c. lra.
        -- intros j Hj. specialize (Hmin j ltac:(lia)). subst c. lra.
      * assert (Hle : (c <= cost a)%Q).
        { apply Qnot_lt_le. intros Hlt. apply Qltb_true in Hlt. congruence. }
        apply IH; [lia|].
        simpl. exists i. repeat split; [lia | exact Hc | exact Hti | | exact Hfirst].
        intros j Hj. destruct (Nat.eq_dec j a) as [->|Hne]; [subst c; lra|].
        apply Hmin. lia.
    + subst a. apply IH; [lia|].
      simpl. exists 0%nat. repeat split; [lia | exact Et | |].
      * intros j Hj. assert (j = 0%nat) as -> by lia. lra.
      * intros j Hj. lia.
Qed.

Lemma find_slot_result :
  exists optimal_time,
    find_slot (seq 0 (length predictions - duration_hours)) predictions device_power
      duration_hours hourly_rate None None = Returned optimal_time /\
    earliest_cheapest predictions device_power duration_hours hourly_rate
      (length predictions - duration_hours) optimal_time.
Proof using positive_duration.
  destruct (find_slot_loop (length predictions - duration_hours) 0 None None)
    as (min_cost' & optimal_time' & Hrun & Hinv); [lia | reflexivity|].
  exists optimal_time'. split; [exact Hrun|].
  simpl in Hinv. unfold loop_state in Hinv. unfold earliest_cheapest.
  destruct min_cost' as [c|], optimal_time' as [t|]; try contradiction.
  - destruct Hinv as (i & Hi & _ & Ht & Hmin & Hfirst). exists i. auto.
  - exact Hinv.
Qed.

End FindSlot.

(** X14: for a duration of at least one hour [find_optimal_time_slot]
    returns without touching the state.  The slots it considers start at
    the indices below the number of predictions less the duration, so the
    last slot that would still fit is never considered, and it returns
    [None] exactly when there are no more predictions than hours.
    Otherwise it returns the start of a slot of least cost among those, the
    earliest such slot, the cost of a slot being the one the program
    computes, with its rounding: of two slots of equal exact cost the
    later is returned when its computed cost is the smaller. *)
Theorem find_optimal_time_slot_earliest_cheapest {C : Type} {A : Arith} (now : datetime)
    (predictions : list (datetime * Q)) (device_power : Q) (duration_hours : nat)
    (st : EMS C) :
  (1 <= duration_hours)%nat ->
  exists optimal_time,
    find_optimal_time_slot now predictions device_power duration_hours st
    = (Returned optimal_time, st) /\
    earliest_cheapest predictions device_power duration_hours
      (get_hourly_rate now (config st)) (length predictions - duration_hours)
      optimal_time /\
    (optimal_time = None <-> (length predictions <= duration_hours)%nat).
Proof.
  intros Hd.
  destruct (find_slot_result predictions device_power duration_hours
              (get_hourly_rate now (config st)) Hd) as (optimal_time & Hrun & Hbest).
  exists optimal_time. split; [|split; [exact Hbest|]].
  - unfold find_optimal_time_slot, try_except. rewrite bind_eq. unfold get.
    now rewrite Hrun.
  - unfold earliest_cheapest in Hbest. destruct optimal_time as [t|].
    + destruct Hbest as (i & Hi & _). split; [discriminate | lia].
    + split; [lia | reflexivity].
Qed.

(** Two slots of equal exact cost: in binary64 the cost of the second is
    the smaller, and it is the one returned. *)
Lemma find_optimal_time_slot_earliest_cheapest_example :
  find_optimal_time_slot (at_day 19000 12 0 0)
    [ (at_day 19000 13 0 0, 10%Q); (at_day 19000 14 0 0, 20%Q);
      (at_day 19000 15 0 0, 30%Q); (at_day 19000 16 0 0, 10%Q);
      (at_day 19000 17 0 0, 999%Q) ]
    (4001 # 2) 3 (initial default_config tt)
  = (Returned (Some (at_day 19000 14 0 0)), initial default_config tt).
Proof.
  destruct (find_optimal_time_slot_earliest_cheapest (at_day 19000 12 0 0)
              [ (at_day 19000 13 0 0, 10%Q); (at_day 19000 14 0 0, 20%Q);
                (at_day 19000 15 0 0, 30%Q); (at_day 19000 16 0 0, 10%Q);
                (at_day 19000 17 0 0, 999%Q) ]
              (4001 # 2) 3 (initial default_config tt)) as (r & Hr & _ & _); [lia|].
  rewrite Hr. vm_compute in Hr. injection Hr as Hr. now rewrite <- Hr.
Defined.

(** In exact arithmetic the two slots tie and the first is returned. *)
Lemma find_optimal_time_slot_exact_tie :
  fst (find_optimal_time_slot (A:=exact) (at_day 19000 12 0 0)
         [ (at_day 19000 13 0 0, 10%Q); (at_day 19000 14 0 0, 20%Q);
           (at_day 19000 15 0 0, 30%Q); (at_day 19000 16 0 0, 10%Q);
           (at_day 19000 17 0 0, 999%Q) ]
         (4001 # 2) 3 (initial default_config tt))
  = Returned (Some (at_day 19000 13 0 0)).
Proof. vm_compute. reflexivity. Qed.

(** X15: with a duration of zero hours and at least one prediction,
    [find_optimal_time_slot] takes the first element of an empty slot: the
    [IndexError] is caught and logged, and the result is [None]. *)
Theorem find_optimal_time_slot_zero_duration {C : Type} {A : Arith} (now : datetime)
    (predictions : list (datetime * Q)) (device_power : Q) (st : EMS C) :
  predictions <> [] ->
  find_optimal_time_slot now predictions device_power 0 st
  = (Returned None,
     logged_error "Error finding optimal time slot: "
       (Exception "list index out of range") st).
Proof.
  intros Hne. destruct predictions as [|p l]; [contradiction|].
  unfold find_optimal_time_slot, try_except. rewrite bind_eq. unfold get.
  reflexivity.
Qed.

Lemma find_optimal_time_slot_zero_duration_example :
  fst (find_optimal_time_slot (at_day 19000 12 0 0) [ (at_day 19000 13 0 0, 900%Q) ]
         2000 0 (initial default_config tt))
  = Returned None.
Proof.
  rewrite (find_optimal_time_slot_zero_duration (C:=unit) (at_day 19000 12 0 0)
             [ (at_day 19000 13 0 0, 900%Q) ] 2000 (initial default_config tt));
    [reflexivity | discriminate].
Defined.

(** ** Commands to the security system *)

Section MonitoringFacts.
Import Security Monitoring.

(** X16: [on_mqtt_message] never raises, and a message that is neither
    ARM_SYSTEM nor DISARM_SYSTEM (an unknown or missing type, a payload
    that cannot be decoded, or one of the four commands whose methods the
    class does not define) changes neither flag, publishes nothing and
    stores no event. *)
Theorem other_commands_change_nothing (now : datetime) (db_error publish_error : option exn)
    (decoded : outcome (option string)) (s : SecuritySystem) :
  decoded <> Returned (Some "ARM_SYSTEM") ->
  decoded <> Returned (Some "DISARM_SYSTEM") ->
  let r := on_mqtt_message now db_error publish_error decoded s in
  fst r = Returned tt /\
  system_armed (snd r) = system_armed s /\
  intrusion_detected (snd r) = intrusion_detected s /\
  outbox (snd r) = outbox s /\
  security_events (snd r) = security_events s.
Proof.
  intros Harm Hdisarm r. unfold r, on_mqtt_message, try_except.
  destruct decoded as [cmd_type|e]; [|now repeat split].
  unfold handle_mqtt_command.
  repeat case_bool_decide; subst; try congruence; now repeat split.
Qed.

Lemma other_commands_change_nothing_status :
  let s := mk_security "security/alerts" "security/commands" true true [] [] [] [] in
  outbox (exec (on_mqtt_message (at_day 19000 12 0 0) None None
                  (Returned (Some "GET_STATUS"))) s) = [].
Proof.
  intros s.
  apply (other_commands_change_nothing (at_day 19000 12 0 0) None None
           (Returned (Some "GET_STATUS")) s); discriminate.
Defined.

Lemma on_mqtt_message_flags (now : datetime) (db_error publish_error : option exn)
    (decoded : outcome (option string)) (s : SecuritySystem) :
  let s' := exec (on_mqtt_message now db_error publish_error decoded) s in
  (decoded = Returned (Some "ARM_SYSTEM") ->
   system_armed s' = true /\ intrusion_detected s' = intrusion_detected s) /\
  (decoded = Returned (Some "DISARM_SYSTEM") ->
   system_armed s' = false /\ intrusion_detected s' = false) /\
  (intrusion_detected s' = true -> intrusion_detected s = true).
Proof.
  intros s'. unfold s'. repeat split.
  - subst decoded. destruct db_error, publish_error; reflexivity.
  - subst decoded. destruct db_error, publish_error; reflexivity.
  - subst decoded. destruct db_error, publish_error; reflexivity.
  - subst decoded. destruct db_error, publish_error; reflexivity.
  - unfold exec, on_mqtt_message, try_except.
    destruct decoded as [cmd_type|e]; [|now simpl].
    unfold handle_mqtt_command.
    repeat case_bool_decide; subst; destruct db_error, publish_error; simpl;
      congruence.
Qed.

(** X17: commands never raise the intrusion flag: after any sequence of
    messages it is set only if it was set before; and after a sequence
    that ends in DISARM_SYSTEM the system is disarmed with the flag
    cleared, after one that ends in ARM_SYSTEM it is armed. *)
Theorem commands_never_raise_intrusion (now : datetime) (db_error publish_error : option exn)
    (msgs : list (outcome (option string))) (s : SecuritySystem) :
  (intrusion_detected (deliver_commands now db_error publish_error msgs s) = true ->
   intrusion_detected s = true) /\
  (forall before,
     msgs = before ++ [Returned (Some "DISARM_SYSTEM")] ->
     system_armed (deliver_commands now db_error publish_error msgs s) = false /\
     intrusion_detected (deliver_commands now db_error publish_error msgs s) = false) /\
  (forall before,
     msgs = before ++ [Returned (Some "ARM_SYSTEM")] ->
     system_armed (deliver_commands now db_error publish_error msgs s) = true).
Proof.
  split; [|split].
  - revert s. induction msgs as [|msg msgs IH]; intros s; [trivial|].
    unfold deliver_commands in *. simpl. intros Hset.
    apply IH in Hset.
    now apply (on_mqtt_message_flags now db_error publish_error msg s).
  - intros before ->. unfold deliver_commands. rewrite foldl_app. simpl.
    now apply (on_mqtt_message_flags now db_error publish_error).
  - intros before ->. unfold deliver_commands. rewrite foldl_app. simpl.
    now apply (on_mqtt_message_flags now db_error publish_error).
Qed.

Lemma commands_never_raise_intrusion_example :
  let s := mk_security "security/alerts" "security/commands" true true [] [] [] [] in
  system_armed (deliver_commands (at_day 19000 12 0 0) None None
                  [ Returned (Some "ARM_SYSTEM"); Returned None;
                    Returned (Some "DISARM_SYSTEM") ] s) = false /\
  intrusion_detected (deliver_commands (at_day 19000 12 0 0) None None
                        [ Returned (Some "ARM_SYSTEM"); Returned None;
                          Returned (Some "DISARM_SYSTEM") ] s) = false.
Proof.
  intros s.
  apply (proj1 (proj2 (commands_never_raise_intrusion (at_day 19000 12 0 0) None None
                         [ Returned (Some "ARM_SYSTEM"); Returned None;
                           Returned (Some "DISARM_SYSTEM") ] s))
           [ Returned (Some "ARM_SYSTEM"); Returned None ]).
  reflexivity.
Defined.

(** ** Intrusions *)




(** ** Suspicious activity *)

Lemma score_detections (armed : bool) (current_hour : Z) (l : list Detection)
    (acc : Q * list string) :
  (fst (foldl (score_detection armed current_hour) acc l)
   == fst acc
      + inject_Z (Z.of_nat
          (length (List.filter
                     (fun d => Qgtb (class_score d) (1 # 2) && (class_id d =? 0)%nat) l)))
        * person_weight armed current_hour)%Q.
Proof.
  revert acc. induction l as [|d l IH]; intros acc.
  - simpl. change (inject_Z (Z.of_nat 0)) with 0%Q. lra.
  - simpl foldl. rewrite IH. simpl List.filter. unfold score_detection, person_weight.
    destruct (Qgtb (class_score d) (1 # 2) && (class_id d =? 0)%nat).
    + simpl length. rewrite Nat2Z.inj_succ, <- Z.add_1_r, inject_Z_plus.
      change (inject_Z 1) with 1%Q.
      destruct ((current_hour <? 6) || (22 <? current_hour)), armed; simpl fst; lra.
    + lra.
Qed.

(** X19: with a person detector, [analyze_suspicious_activity] returns
    without changing the state, and it finds the activity suspicious
    exactly when the score exceeds 0.5: one person suffices only when the
    system is armed and the hour is before 6 or after 22; otherwise, armed
    or at such an hour, it takes two, so that a single person in daytime is
    not suspicious although the system is armed; and disarmed in daytime
    nothing is.  Without a detector nothing is suspicious. *)
Theorem suspicious_activity_threshold (now : datetime) (outs : list (list Detection))
    (s : SecuritySystem) :
  let night := (hour (time_of now) <? 6) || (22 <? hour (time_of now)) in
  let r := analyze_suspicious_activity now (Some (Returned outs)) s in
  snd r = s /\
  (exists reasons,
     fst r = Returned
               ((system_armed s && night && (1 <=? persons outs)%nat)
                || ((system_armed s || night) && (2 <=? persons outs)%nat),
                reasons)) /\
  fst (analyze_suspicious_activity now None s) = Returned (false, ["No AI model available"]).
Proof.
  intros night r. split; [reflexivity|]. split; [|reflexivity].
  unfold r, analyze_suspicious_activity, try_except. rewrite bind_eq. unfold get, ret.
  set (res := foldl (score_detection (system_armed s) (hour (time_of now)))
                (0%Q, []) (concat outs)).
  exists (snd res). cbn [fst].
  enough (Hb : Qgtb (fst res) (1 # 2)
               = (system_armed s && night && (1 <=? persons outs)%nat)
                 || ((system_armed s || night) && (2 <=? persons outs)%nat))
    by now rewrite Hb.
  pose proof (score_detections (system_armed s) (hour (time_of now)) (concat outs)
                (0%Q, [])) as Hscore.
  fold res in Hscore. fold (persons outs) in Hscore. cbn [fst] in Hscore.
  unfold person_weight in Hscore. fold night in Hscore.
  assert (Hn : (inject_Z 0 <= inject_Z (Z.of_nat (persons outs)))%Q)
    by (rewrite <- Zle_Qle; lia).
  change (inject_Z 0) with 0%Q in Hn.
  destruct (persons outs) as [|[|n]] eqn:En.
  - cbn [Nat.leb]. rewrite !andb_false_r. cbn [orb].
    apply Qgtb_false. rewrite Hscore.
    change (inject_Z (Z.of_nat 0)) with 0%Q. lra.
  - cbn [Nat.leb]. rewrite andb_false_r, orb_false_r, andb_true_r.
    change (inject_Z (Z.of_nat 1)) with 1%Q in Hscore.
    destruct (system_armed s), night; cbn [andb].
    + apply Qgtb_true. rewrite Hscore. lra.
    + apply Qgtb_false. rewrite Hscore. lra.
    + apply Qgtb_false. rewrite Hscore. lra.
    + apply Qgtb_false. rewrite Hscore. lra.
  - cbn [Nat.leb]. rewrite !andb_true_r.
    assert (H2 : (inject_Z 2 <= inject_Z (Z.of_nat (S (S n))))%Q)
      by (rewrite <- Zle_Qle; lia).
    change (inject_Z 2) with 2%Q in H2.
    destruct (system_armed s), night; cbn [andb orb].
    + apply Qgtb_true. rewrite Hscore. nra.
    + apply Qgtb_true. rewrite Hscore. nra.
    + apply Qgtb_true. rewrite Hscore. nra.
    + apply Qgtb_false. rewrite Hscore. nra.
Qed.

(** ** Camera frames *)

Lemma log_access_attempt_sys (db_error : option exn) (user : option Z)
    (method location : string) (success : bool) (confidence : Q) (m : Monitor) :
  let r := log_access_attempt db_error user method location success confidence m in
  fst r = Returned tt /\
  system_armed (sys (snd r)) = system_armed (sys m) /\
  intrusion_detected (sys (snd r)) = intrusion_detected (sys m) /\
  outbox (sys (snd r)) = outbox (sys m) /\
  security_events (sys (snd r)) = security_events (sys m).
Proof.
  unfold log_access_attempt, try_except.
  destruct db_error as [e|]; [now repeat split|].
  destruct user as [u|]; simpl; [|now repeat split].
  destruct (success && negb (u =? 0)); now repeat split.
Qed.

Lemma log_access_attempt_quiet (s0 : SecuritySystem) (db_error : option exn)
    (user : option Z) (method location : string) (success : bool) (confidence : Q) :
  preserves (quiet s0)
    (log_access_attempt db_error user method location success confidence).
Proof.
  intros m (Ha & Hi & Ho & He).
  destruct (log_access_attempt_sys db_error user method location success confidence m)
    as (_ & Ha' & Hi' & Ho' & He').
  unfold quiet. now rewrite Ha', Hi', Ho', He'.
Qed.

Lemma process_faces_quiet (s0 : SecuritySystem) (now : datetime)
    (db_error publish_error : option exn) (camera : string) (evidence : outcome string)
    (faces : list Face) :
  system_armed s0 = false \/ Forall (fun f => recognized f = true) faces ->
  preserves (quiet s0) (process_faces now db_error publish_error camera evidence faces).
Proof.
  intros Hcase. induction faces as [|face faces IH]; [apply preserves_ret|].
  simpl. apply preserves_bind.
  - destruct (recognized face) eqn:Er; [apply log_access_attempt_quiet|].
    apply preserves_get_bind. intros m0 (Ha & _).
    destruct Hcase as [Hoff|Hall].
    + rewrite Ha, Hoff. apply preserves_ret.
    + apply Forall_cons in Hall as [Hr _]. congruence.
  - intros _. apply IH. destruct Hcase as [Hoff|Hall]; [now left | right].
    now apply Forall_cons in Hall as [_ Hall].
Qed.

(** X20: while the system is disarmed no frame is an intrusion: whatever
    faces, motion and detections a frame brings, [process_frame] leaves
    the intrusion flag as it is, publishes nothing and stores no event.
    The same holds while armed for a frame whose faces are all recognized
    and which shows no motion. *)
Theorem quiet_frames (now : datetime) (db_error publish_error : option exn)
    (camera : string) (evidence : outcome string) (faces : list Face)
    (motion : option bool) (outputs : option (outcome (list (list Detection))))
    (m : Monitor) :
  system_armed (sys m) = false \/
  (Forall (fun f => recognized f = true) faces /\ motion <> Some true) ->
  let m' := exec (process_frame now db_error publish_error camera evidence faces motion
                    outputs) m in
  system_armed (sys m') = system_armed (sys m) /\
  intrusion_detected (sys m') = intrusion_detected (sys m) /\
  outbox (sys m') = outbox (sys m) /\
  security_events (sys m') = security_events (sys m).
Proof.
  intros Hcase m'.
  assert (Hpre : preserves (quiet (sys m))
            (process_frame now db_error publish_error camera evidence faces motion outputs)).
  { unfold process_frame. apply preserves_bind.
    - apply process_faces_quiet. destruct Hcase as [Hoff|[Hall _]]; auto.
    - intros _. destruct motion as [[|]|]; try apply preserves_ret.
      apply preserves_get_bind. intros m0 (Ha & _).
      destruct Hcase as [Hoff|[_ Hmotion]]; [|congruence].
      rewrite Ha, Hoff. apply preserves_ret. }
  apply (Hpre m). now repeat split.
Qed.

Lemma quiet_frames_disarmed :
  let s := mk_security "security/alerts" "security/commands" false false [] [] [] [] in
  let m := mk_monitor s [] [] in
  outbox (sys (exec (process_frame (at_day 19000 3 0 0) None None "camera_0"
                       (Returned "evidence/intrusion.jpg")
                       [ mk_face None (2 # 10) ] (Some true)
                       (Some (Returned [[ mk_detection 0 (9 # 10) ]]))) m)) = [].
Proof.
  intros s m.
  apply (quiet_frames (at_day 19000 3 0 0) None None "camera_0"
           (Returned "evidence/intrusion.jpg") [ mk_face None (2 # 10) ] (Some true)
           (Some (Returned [[ mk_detection 0 (9 # 10) ]])) m).
  left. reflexivity.
Defined.

Lemma handle_intrusion_with_frame_publishes (now : datetime) (location how path : string)
    (confidence : Q) (s : SecuritySystem) :
  let r := handle_intrusion_with_frame now None None location how confidence
             (Returned path) s in
  fst r = Returned tt /\
  system_armed (snd r) = system_armed s /\
  intrusion_detected (snd r) = true /\
  length (outbox (snd r)) = (length (outbox s) + 2)%nat.
Proof.
  repeat split. simpl. rewrite !length_app. simpl. lia.
Qed.

(** X21: while the system is armed and the database, the broker and the
    evidence directory work, every face of a frame that is not recognized
    is handled as an intrusion of its own: each publishes an alert and an
    alarm command, however many there are in the frame, and the intrusion
    flag is set as soon as there is one. *)
Theorem every_unknown_face_alarms (now : datetime) (camera path : string)
    (faces : list Face) (m : Monitor) :
  system_armed (sys m) = true ->
  let m' := exec (process_faces now None None camera (Returned path) faces) m in
  system_armed (sys m') = true /\
  length (outbox (sys m'))
  = (length (outbox (sys m))
     + 2 * length (List.filter (fun f => negb (recognized f)) faces))%nat /\
  (Exists (fun f => recognized f = false) faces -> intrusion_detected (sys m') = true).
Proof.
  revert m. induction faces as [|face faces IH]; intros m Harmed m'.
  - unfold m'. cbn [process_faces]. unfold exec, ret. simpl.
    repeat split; [exact Harmed | lia |]. intros Hex. inversion Hex.
  - unfold m', exec. simpl. rewrite bind_eq.
    destruct (recognized face) eqn:Er.
    + destruct (log_access_attempt_sys None (user_id face) "face_recognition" camera true
                  (face_confidence face) m) as (Hr & Ha & Hi & Ho & _).
      destruct (log_access_attempt None (user_id face) "face_recognition" camera true
                  (face_confidence face) m) as [r m1].
      simpl in *. subst r.
      destruct (IH m1 ltac:(congruence)) as (Ha' & Hn & Hflag).
      unfold exec in *. repeat split; [exact Ha' | rewrite Hn, Ho; reflexivity |].
      intros Hex. apply Hflag. apply Exists_cons in Hex as [Hf|Hex]; [congruence | exact Hex].
    + rewrite bind_eq. unfold get. rewrite Harmed. unfold on_sys.
      destruct (handle_intrusion_with_frame_publishes now camera "unknown_face" path
                  (face_confidence face) (sys m)) as (Hr & Ha & Hi & Ho).
      destruct (handle_intrusion_with_frame now None None camera "unknown_face"
                  (face_confidence face) (Returned path) (sys m)) as [r s1].
      simpl in *. subst r.
      set (m1 := mk_monitor s1 (access_logs m) (last_access_updates m)).
      destruct (IH m1 ltac:(simpl; congruence)) as (Ha' & Hn & _).
      unfold exec in *. repeat split; [exact Ha' | rewrite Hn; simpl; lia |].
      intros _.
      assert (Hkeep : preserves (fun m => intrusion_detected (sys m) = true)
                        (process_faces now None None camera (Returned path) faces)).
      { clear. induction faces as [|f faces IHf]; [apply preserves_ret|].
        simpl. apply preserves_bind; [|intros _; exact IHf].
        destruct (recognized f).
        - intros m0 Hm0.
          destruct (log_access_attempt_sys None (user_id f) "face_recognition" camera
                      true (face_confidence f) m0) as (_ & _ & Hi0 & _).
          now rewrite Hi0.
        - apply preserves_get_bind. intros m0 _.
          destruct (system_armed (sys m0)); [|apply preserves_ret].
          intros m1 _. unfold on_sys.
          destruct (handle_intrusion_with_frame_publishes now camera "unknown_face" path
                      (face_confidence f) (sys m1)) as (_ & _ & Hi1 & _).
          destruct (handle_intrusion_with_frame now None None camera "unknown_face"
                      (face_confidence f) (Returned path) (sys m1)) as [r1 s2].
          exact Hi1. }
      apply (Hkeep m1). exact Hi.
Qed.

Lemma every_unknown_face_alarms_two :
  let s := mk_security "security/alerts" "security/commands" true false [] [] [] [] in
  let m := mk_monitor s [] [] in
  length (outbox (sys (exec (process_faces (at_day 19000 3 0 0) None None "camera_0"
                               (Returned "evidence/intrusion.jpg")
                               [ mk_face None (2 # 10); mk_face (Some 7) (9 # 10);
                                 mk_face None (3 # 10) ]) m)))
  = 4%nat.
Proof.
  intros s m.
  apply (proj1 (proj2 (every_unknown_face_alarms (at_day 19000 3 0 0) "camera_0"
                         "evidence/intrusion.jpg"
                         [ mk_face None (2 # 10); mk_face (Some 7) (9 # 10);
                           mk_face None (3 # 10) ] m eq_refl))).
Defined.

End MonitoringFacts.

(** ** The weather rule *)

Lemma occupancy_is_stable {C : Type} (occ : gmap (option string) Occupancy) :
  rule_stable (C:=C) (occupancy_is occ).
Proof. intros st Hst. repeat split; intros; exact Hst. Qed.

Section WeatherCommands.
Context {C : Type}.
Variable now : datetime.
Variable cfg : Config.
Variable w : Weather.
Variable occ : gmap (option string) Occupancy.
Variable P : EMS C -> Prop.

Local Abbreviation occupied := (fun room => is_occupied_of (occ !! room)).

Hypothesis stable : publish_stable cfg (weather_command cfg now w occupied) P.
Hypothesis keeps : forall st, P st -> occupancy_sensors st = occ.

Lemma room_of_pub (device : Device) (k : string -> M (EMS C) unit) :
  (forall room, dev_room device = Some room -> preserves P (k room)) ->
  preserves P (room <- room_of device ;; k room).
Proof using Type.
  intros Hk. unfold room_of. destruct (dev_room device) as [room|] eqn:Er.
  - intros st Hst. unfold bind, ret. apply (Hk room eq_refl st Hst).
  - intros st Hst. exact Hst.
Qed.

Lemma switch_off_if_empty_pub (description : string) (device : Device) :
  (In device (lights cfg) /\ (w_cloud_cover w < 30)%Q /\ is_daytime now = true) \/
  (In device (fans cfg) /\ (w_temperature w < 20)%Q) ->
  preserves P (switch_off_if_empty now description device).
Proof using stable keeps.
  intros Hcase. unfold switch_off_if_empty. apply room_of_pub. intros room Er.
  apply preserves_get_bind. intros st Hst.
  unfold is_room_occupied. rewrite (keeps st Hst).
  destruct (is_occupied_of (occ !! Some room)) eqn:Eo; [apply preserves_ret|]. simpl.
  apply preserves_bind; [|intros _; apply (log_optimization_pub cfg _ P stable)].
  apply (control_device_pub now cfg _ P stable).
  split; [reflexivity|]. exists device, room. split; [exact Er|].
  destruct Hcase as [(Hin & Hc & Hd)|(Hin & Ht)]; [left | right; left]; auto.
Qed.

Lemma precool_pub (device : Device) :
  In device (appliances cfg) -> (35 < w_temperature w)%Q ->
  preserves P (precool now device).
Proof using stable keeps.
  intros Hin Hhot. unfold precool.
  destruct (contains "air_conditioner" (dev_id device)) eqn:Ec; [|apply preserves_ret].
  apply preserves_get_bind. intros st Hst.
  rewrite (proj1 (stable st Hst)).
  destruct (is_peak_hour now cfg) eqn:Ep; [apply preserves_ret|]. simpl.
  apply room_of_pub. intros room Er.
  unfold is_room_occupied. rewrite (keeps st Hst).
  destruct (is_occupied_of (occ !! Some room)) eqn:Eo; [|apply preserves_ret].
  apply preserves_bind; [|intros _; apply (log_optimization_pub cfg _ P stable)].
  apply (control_device_pub now cfg _ P stable).
  split; [reflexivity|]. exists device, room. split; [exact Er|].
  right; right. repeat split; auto.
Qed.

Lemma optimize_based_on_weather_pub :
  preserves P (optimize_based_on_weather now (Some w)).
Proof using stable keeps.
  unfold optimize_based_on_weather.
  apply preserves_try_except; [|intros e; publish_auto].
  apply preserves_get_bind. intros st Hst. rewrite (proj1 (stable st Hst)).
  apply preserves_bind.
  - destruct (Qltb (w_cloud_cover w) 30) eqn:Ecloud; [|apply preserves_ret].
    destruct (is_daytime now) eqn:Eday; [|apply preserves_ret]. simpl.
    apply Qltb_true in Ecloud.
    apply preserves_for_each_in. intros device Hin.
    apply switch_off_if_empty_pub. left. auto.
  - intros _. destruct (Qltb (w_temperature w) 20) eqn:Ecold.
    + apply Qltb_true in Ecold.
      apply preserves_for_each_in. intros device Hin.
      apply switch_off_if_empty_pub. right. auto.
    + destruct (Qgtb (w_temperature w) 35) eqn:Ehot; [|apply preserves_ret].
      apply Qgtb_true in Ehot.
      apply preserves_for_each_in. intros device Hin.
      now apply precool_pub.
Qed.

End WeatherCommands.

(** X22: [process_weather_data] publishes only commands on the
    device-control topic, each for its reason: a light is switched off
    only in an empty room under a cloud cover below 30 in the daytime, a
    fan is switched off only in an empty room below 20 degrees, and the
    only devices ever switched on are appliances whose id contains
    [air_conditioner], in an occupied room above 35 degrees outside the
    peak hours.  A field missing from the message counts as 0. *)
Theorem weather_rule_commands {C : Type} (now : datetime) (data : WeatherData)
    (st : EMS C) :
  exists published,
    outbox (exec (process_weather_data now data) st) = outbox st ++ published /\
    Forall (fun p => weather_command (config st) now (weather_of now data)
                       (is_room_occupied st) (fst p) (snd p)) published.
Proof.
  set (cfg := config st). set (w := weather_of now data).
  set (occ := occupancy_sensors st).
  set (okp := weather_command cfg now w (fun room => is_occupied_of (occ !! room))).
  set (P := fun s : EMS C => publishes_only cfg (outbox st) okp s /\ occupancy_is occ s).
  assert (Hs : publish_stable cfg okp P)
    by (apply publish_stable_and; [apply publishes_only_stable | apply occupancy_is_stable]).
  assert (Hpre : preserves P (process_weather_data now data)).
  { unfold process_weather_data.
    apply preserves_try_except; [|intros e; publish_auto].
    apply (optimize_based_on_weather_pub now cfg w occ P Hs).
    intros s [_ Hocc]. exact Hocc. }
  destruct (Hpre st) as [[_ Hp] _]; [|exact Hp].
  split; [apply publishes_only_start | reflexivity].
Qed.

Lemma for_each_switch_off_fans {C : Type} (now : datetime) (description : string)
    (l : list Device) (st : EMS C) :
  Forall (fun d => exists room, dev_room d = Some room /\
                                is_room_occupied st (Some room) = false) l ->
  exists st',
    for_each l (switch_off_if_empty now description) st = (Returned tt, st') /\
    outbox st' = outbox st ++ shed_commands (config st) now l /\
    config st' = config st /\ occupancy_sensors st' = occupancy_sensors st.
Proof.
  revert st. induction l as [|d l IH]; intros st Hall.
  - exists st. simpl. now rewrite app_nil_r.
  - apply Forall_cons in Hall as [(room & Er & Eo) Hall].
    set (st1 := snd (switch_off_if_empty now description d st)).
    assert (H1 : switch_off_if_empty now description d st = (Returned tt, st1) /\
                 outbox st1 = outbox st ++ shed_commands (config st) now [d] /\
                 config st1 = config st /\ occupancy_sensors st1 = occupancy_sensors st).
    { unfold st1, switch_off_if_empty, room_of. rewrite Er.
      cbv [bind ret get]. rewrite Eo. simpl. repeat split. }
    destruct H1 as (E1 & Ho1 & Hc1 & Hocc1).
    destruct (IH st1) as (st' & E' & Ho' & Hc' & Hocc').
    { eapply Forall_impl; [exact Hall|]. intros d0 (room0 & Er0 & Eo0).
      exists room0. split; [exact Er0|]. unfold is_room_occupied in *.
      now rewrite Hocc1. }
    exists st'. simpl for_each. rewrite bind_eq, E1. simpl. rewrite E'.
    split; [reflexivity|]. split; [|split; congruence].
    rewrite Ho', Ho1, Hc1, <- app_assoc. reflexivity.
Qed.

(** X23: a weather message without a temperature is handled as 0
    degrees, not as the 25 the rule names as its default: outside the
    daytime it switches off every fan of the configuration whose room is
    empty, here all of them, in the order of the configuration. *)
Theorem weather_without_temperature_is_cold {C : Type} (now : datetime)
    (data : WeatherData) (st : EMS C) :
  wd_temperature data = None ->
  is_daytime now = false ->
  Forall (fun d => exists room, dev_room d = Some room /\
                                is_room_occupied st (Some room) = false)
    (fans (config st)) ->
  outbox (exec (process_weather_data now data) st)
  = outbox st ++ shed_commands (config st) now (fans (config st)).
Proof.
  intros Ht Hnight Hfans.
  destruct (for_each_switch_off_fans now "cool_weather_optimization" _ st Hfans)
    as (st' & E & Ho & _).
  unfold exec, process_weather_data, optimize_based_on_weather, weather_of.
  rewrite Ht, Hnight, andb_false_r. cbn [w_temperature w_cloud_cover default].
  unfold try_except at 1 2. cbv [bind get ret]. simpl.
  rewrite E. exact Ho.
Qed.

Lemma weather_without_temperature_is_cold_night :
  outbox (exec (process_weather_data (at_day 19000 23 0 0)
                  (mk_weather_data None (Some 60%Q) (Some 10%Q) None))
            (initial default_config tt))
  = shed_commands default_config (at_day 19000 23 0 0) (fans default_config).
Proof.
  apply (weather_without_temperature_is_cold (at_day 19000 23 0 0)
           (mk_weather_data None (Some 60%Q) (Some 10%Q) None)
           (initial default_config tt)).
  - reflexivity.
  - reflexivity.
  - repeat constructor; eexists; split; reflexivity.
Defined.

(** ** The energy report *)

Lemma py_max_spec (a b : Q) : (a <= py_max a b /\ b <= py_max a b)%Q /\
                              (py_max a b = a \/ py_max a b = b).
Proof.
  unfold py_max. destruct (Qgtb b a) eqn:E.
  - apply Qgtb_true in E. split; [split; lra | now right].
  - assert (~ (a < b)%Q) by (intros Hlt; apply Qgtb_true in Hlt; congruence).
    split; [split; lra | now left].
Qed.

Lemma py_min_spec (a b : Q) : (py_min a b <= a /\ py_min a b <= b)%Q /\
                              (py_min a b = a \/ py_min a b = b).
Proof.
  unfold py_min. destruct (Qltb b a) eqn:E.
  - apply Qltb_true in E. split; [split; lra | now right].
  - assert (~ (b < a)%Q) by (intros Hlt; apply Qltb_true in Hlt; congruence).
    split; [split; lra | now left].
Qed.

Lemma efficiency_score_range_aux (total_consumption avg_consumption : Q) :
  (0 <= calculate_efficiency_score total_consumption avg_consumption <= 100)%Q.
Proof.
  unfold calculate_efficiency_score.
  set (x := (100 - Qabs (total_consumption - 20000) / 20000 * 100)%Q).
  destruct (py_max_spec 0 x) as [[Hm0 _] _].
  destruct (py_min_spec 100 (py_max 0 x)) as [[Hn100 _] Hn].
  split; [|exact Hn100]. destruct Hn as [-> | ->]; [lra | exact Hm0].
Qed.

(** X24: the efficiency score lies between 0 and 100 whatever the
    consumption; it is 0 for a day without consumption as for a day with
    twice the target of 20000 or more, and in between it falls off evenly
    on both sides of the target (numbers being exact). *)
Theorem efficiency_score_range (total_consumption avg_consumption : Q) :
  let score := calculate_efficiency_score total_consumption avg_consumption in
  (0 <= score <= 100)%Q /\
  ((total_consumption <= 0 \/ 40000 <= total_consumption)%Q -> (score == 0)%Q) /\
  ((0 <= total_consumption <= 40000)%Q ->
   (score == 100 - Qabs (total_consumption - 20000) / 200)%Q).
Proof.
  intros score. unfold score, calculate_efficiency_score.
  set (a := Qabs (total_consumption - 20000)).
  set (x := (100 - a / 20000 * 100)%Q).
  assert (Hx : (x == 100 - a * (1 # 200))%Q) by (unfold x; field).
  assert (Hdiv : (100 - a / 200 == 100 - a * (1 # 200))%Q) by field.
  assert (Habs : (0 <= a)%Q) by apply Qabs_nonneg.
  destruct (py_max_spec 0 x) as [[Hm0 Hmx] Hm].
  destruct (py_min_spec 100 (py_max 0 x)) as [[Hn100 Hnm] Hn].
  assert (Hmax100 : (py_max 0 x <= 100)%Q) by (destruct Hm as [-> | ->]; lra).
  assert (Hmin : (py_min 100 (py_max 0 x) == py_max 0 x)%Q).
  { destruct Hn as [E | E]; [rewrite E in *; lra | rewrite E; reflexivity]. }
  split; [split; [rewrite Hmin; exact Hm0 | exact Hn100]|].
  split.
  - intros Hout. rewrite Hmin.
    assert (Hbig : (20000 <= a)%Q).
    { unfold a. destruct Hout as [Hlow | Hhigh].
      - rewrite Qabs_neg by lra. lra.
      - rewrite Qabs_pos by lra. lra. }
    destruct Hm as [-> | E]; [reflexivity|]. rewrite E in *. lra.
  - intros [Hlo Hhi]. rewrite Hmin, Hdiv.
    assert (Hsmall : (a <= 20000)%Q).
    { unfold a. apply Qabs_Qle_condition. split; lra. }
    destruct Hm as [E | ->]; [|exact Hx]. rewrite E in *. lra.
Qed.

Lemma foldl_Qplus (l : list Q) (a : Q) :
  (foldl Qplus a l == a + foldr Qplus 0 l)%Q.
Proof.
  revert a. induction l as [|x l IH]; intros a; simpl; [lra|].
  rewrite IH. lra.
Qed.

Lemma mean_in_range (l : list Q) (lo hi : Q) :
  Forall (fun x => (lo <= x <= hi)%Q) l -> l <> [] ->
  (lo <= py_sum l / inject_Z (Z.of_nat (length l)) <= hi)%Q.
Proof.
  intros Hall Hne.
  assert (Hsum : (lo * inject_Z (Z.of_nat (length l)) <= foldr Qplus 0 l
                  <= hi * inject_Z (Z.of_nat (length l)))%Q).
  { clear Hne. induction Hall as [|x l Hx Hall IH].
    - simpl. change (inject_Z (Z.of_nat 0)) with 0%Q. lra.
    - cbn [length foldr]. rewrite Nat2Z.inj_succ. unfold Z.succ.
      rewrite inject_Z_plus. change (inject_Z 1) with 1%Q. lra. }
  assert (Hn : (0 < inject_Z (Z.of_nat (length l)))%Q).
  { destruct l as [|x l]; [congruence|].
    change 0%Q with (inject_Z 0). rewrite <- Zlt_Qlt. simpl length. lia. }
  unfold py_sum. rewrite foldl_Qplus.
  set (n := inject_Z (Z.of_nat (length l))) in *.
  set (s := foldr Qplus 0%Q l) in *.
  split.
  - apply Qle_shift_div_l; [exact Hn | lra].
  - apply Qle_shift_div_r; [exact Hn | lra].
Qed.

(** The loop of the report, from any report on. *)
Lemma add_days (cfg : Config) (rows : list DayRow) (r0 : Report) :
  let r := foldl (add_day cfg) r0 rows in
  period r = period r0 /\
  (total_consumption_kwh r
   == total_consumption_kwh r0 + foldr Qplus 0 (map dr_total rows) / 1000)%Q /\
  (total_cost r
   == total_cost r0 + foldr Qplus 0 (map dr_total rows) / 1000 * normal_rate cfg / 100)%Q /\
  cost_savings r = cost_savings r0 /\
  daily_breakdown r
  = daily_breakdown r0
    ++ map (fun row => mk_day_report (dr_date row) (dr_total row / 1000)%Q
                         (calculate_daily_cost cfg (dr_total row)) (dr_peak row)
                         (calculate_efficiency_score (dr_total row) (dr_avg row))) rows.
Proof.
  revert r0. induction rows as [|row rows IH]; intros r0; cbn zeta.
  - simpl. rewrite app_nil_r. repeat split; field.
  - cbn [foldl]. destruct (IH (add_day cfg r0 row)) as (Hp & Hk & Hc & Hs & Hb).
    cbn zeta in *. split; [exact Hp|]. split; [|split; [|split; [exact Hs|]]].
    + rewrite Hk. cbn [add_day total_consumption_kwh map foldr]. field.
    + rewrite Hc. cbn [add_day total_cost map foldr]. unfold calculate_daily_cost. field.
    + rewrite Hb. cbn [add_day daily_breakdown map]. rewrite <- app_assoc. reflexivity.
Qed.

(** X25: when the query succeeds, [generate_energy_report] returns a
    report and leaves the state as it is.  The report has one entry per
    row of the query, in their order; its total cost is its total
    consumption at the normal rate, whatever the hours of the readings;
    its efficiency score lies between 0 and 100; its cost savings are
    always 0; and its carbon footprint is 0.82 per unit of the total
    (numbers being exact). *)
Theorem report_totals {C : Type} (now : datetime) (days : Z)
    (query : Z -> Z -> outcome (list DayRow)) (rows : list DayRow) (st : EMS C) :
  query (date_of now - days) (date_of now) = Returned rows ->
  exists report,
    generate_energy_report now days query st = (Returned (Some report), st) /\
    map b_date (daily_breakdown report) = map dr_date rows /\
    (total_consumption_kwh report == foldr Qplus 0 (map dr_total rows) / 1000)%Q /\
    (total_cost report
     == total_consumption_kwh report * normal_rate (config st) / 100)%Q /\
    (0 <= efficiency_score report <= 100)%Q /\
    (cost_savings report == 0)%Q /\
    (carbon_footprint report == total_consumption_kwh report * (82 # 100))%Q.
Proof.
  intros Hq.
  exists (report_of (config st) (date_of now - days) (date_of now) rows).
  split.
  { unfold generate_energy_report, try_except. cbn zeta. rewrite Hq. reflexivity. }
  unfold report_of.
  destruct (add_days (config st) rows
              (mk_report (date_of now - days, date_of now) 0 0 0 0 0 0 0 []))
    as (_ & Hk & Hc & Hs & Hb).
  cbn zeta in *.
  set (r := foldl (add_day (config st))
              (mk_report (date_of now - days, date_of now) 0 0 0 0 0 0 0 []) rows) in *.
  cbn [total_consumption_kwh total_cost cost_savings daily_breakdown] in Hk, Hc, Hs, Hb.
  assert (Hdates : map b_date (daily_breakdown r) = map dr_date rows).
  { rewrite Hb. cbn [app]. rewrite map_map. reflexivity. }
  assert (Hcost : (total_cost r == total_consumption_kwh r * normal_rate (config st) / 100)%Q).
  { rewrite Hc, Hk. field. }
  destruct rows as [|row rows].
  - simpl in *. subst r. simpl. repeat split; try reflexivity; lra.
  - assert (Hpos : (0 <? Z.of_nat (length (row :: rows))) = true)
      by (apply Z.ltb_lt; simpl length; lia).
    rewrite Hpos.
    cbn [period total_consumption_kwh total_cost average_daily_consumption
         peak_consumption efficiency_score cost_savings carbon_footprint daily_breakdown].
    split; [exact Hdates|]. split; [rewrite Hk; field|]. split; [exact Hcost|].
    split; [|split; [rewrite Hs; reflexivity | reflexivity]].
    rewrite <- (length_map b_efficiency_score).
    apply mean_in_range.
    + rewrite Hb. cbn [app]. rewrite map_map. apply Forall_map.
      apply Forall_forall. intros row0 _. cbn [b_efficiency_score].
      apply (efficiency_score_range_aux (dr_total row0) (dr_avg row0)).
    + rewrite Hb. discriminate.
Qed.

Lemma report_totals_two_days :
  exists report,
    generate_energy_report (at_day 19000 12 0 0) 7
      (fun _ _ => Returned [ mk_day_row 18998 18000 750 2100 24;
                             mk_day_row 18999 30000 1250 3500 24 ])
      (initial default_config tt)
    = (Returned (Some report), initial default_config tt) /\
    (total_cost report == 48 / 10)%Q /\ (efficiency_score report == 70)%Q.
Proof.
  destruct (report_totals (C:=unit) (at_day 19000 12 0 0) 7
              (fun _ _ => Returned [ mk_day_row 18998 18000 750 2100 24;
                                     mk_day_row 18999 30000 1250 3500 24 ])
              [ mk_day_row 18998 18000 750 2100 24; mk_day_row 18999 30000 1250 3500 24 ]
              (initial default_config tt) eq_refl)
    as (report & E & _).
  exists report. split; [exact E|].
  injection E as <-. split; reflexivity.
Defined.
